(** * MirrorMe: the message-response pipeline, embedded and verified

    A shallow embedding of the Python sources of the response pipeline
    (tone matcher, consent manager, content filter, safety monitor, style
    embedding, personality engine, response generator), followed by the
    properties proved about them.

    Modelling conventions.
    - A Python [str] is a [string]: a sequence of bytes, UTF-8 for text
      outside ASCII.  Substring search, [startswith] and [replace] agree with
      Python's on well-formed UTF-8; [len], [lower] and slicing agree on
      ASCII text.
    - A Python [float] is a rational of [Q] with exact arithmetic; rounding
      is not modelled.
    - A [dict] used as a finite map is a [gmap]; a [dict] whose shape is
      returned to callers is an ordered association list inside [pyval];
      a [set] is a [gset].
    - [async def] bodies are run sequentially: every [await] is a call.
    - Exceptions are values of [exn]; a method that can raise after it has
      mutated [self] lives in the state-and-error monad [M]. *)

From Stdlib Require Import Ascii String QArith Qminmax Lqa.
From stdpp Require Import base strings list sorting gmap.

Set Warnings "-register-all".

Local Open Scope string_scope.
Local Open Scope list_scope.

(** ** Python strings *)

Module PyStr.

(** [c.lower()] on one byte: only A-Z change. *)
Definition lower_ascii (c : ascii) : ascii :=
  let n := nat_of_ascii c in
  if (65 <=? n)%nat && (n <=? 90)%nat then ascii_of_nat (n + 32) else c.

(** [s.lower()] *)
Fixpoint lower (s : string) : string :=
  match s with
  | EmptyString => EmptyString
  | String c s' => String (lower_ascii c) (lower s')
  end.

(** [s.startswith(p)] *)
Fixpoint startswith (p s : string) : bool :=
  match p, s with
  | EmptyString, _ => true
  | String _ _, EmptyString => false
  | String a p', String b s' => if Ascii.eqb a b then startswith p' s' else false
  end.

(** [sub in s] *)
Fixpoint contains (sub s : string) : bool :=
  startswith sub s ||
  match s with
  | EmptyString => false
  | String _ s' => contains sub s'
  end.

(** [s.replace(old, new)] for a non-empty [old]: occurrences are replaced
    left to right without overlap.  [skip] counts the bytes of an
    occurrence that are still to be dropped. *)
Fixpoint replace_from (old new s : string) (skip : nat) : string :=
  match s with
  | EmptyString => EmptyString
  | String c s' =>
      match skip with
      | S k => replace_from old new s' k
      | O =>
          if startswith old s
          then new +:+ replace_from old new s' (String.length old - 1)
          else String c (replace_from old new s' 0)
      end
  end.

Definition replace (old new s : string) : string := replace_from old new s 0.

(** [s.count(sub)] for a non-empty [sub]: occurrences without overlap. *)
Fixpoint count_from (sub s : string) (skip : nat) : nat :=
  match s with
  | EmptyString => 0
  | String _ s' =>
      match skip with
      | S k => count_from sub s' k
      | O =>
          if startswith sub s
          then S (count_from sub s' (String.length sub - 1))
          else count_from sub s' 0
      end
  end.

Definition count (sub s : string) : nat := count_from sub s 0.

(** [s[:n]] for [n >= 0] *)
Fixpoint str_take (n : nat) (s : string) : string :=
  match n, s with
  | S k, String c s' => String c (str_take k s')
  | _, _ => EmptyString
  end.

(** Python whitespace within ASCII: space, \t, \n, \v, \f, \r and the
    separators 0x1c-0x1f. *)
Definition is_space (c : ascii) : bool :=
  let n := nat_of_ascii c in
  (n =? 32)%nat || ((9 <=? n)%nat && (n <=? 13)%nat)
  || ((28 <=? n)%nat && (n <=? 31)%nat).

Fixpoint lstrip (s : string) : string :=
  match s with
  | String c s' => if is_space c then lstrip s' else s
  | EmptyString => EmptyString
  end.

(** [rstrip]: a byte is kept when something other than whitespace
    follows it or it is not whitespace itself. *)
Fixpoint rstrip (s : string) : string :=
  match s with
  | EmptyString => EmptyString
  | String c s' =>
      match rstrip s' with
      | EmptyString => if is_space c then EmptyString else String c EmptyString
      | t => String c t
      end
  end.

(** [s.strip()] *)
Definition strip (s : string) : string := rstrip (lstrip s).

(** [s.split()]: the maximal runs of bytes that are not whitespace.
    [cur] is the run being read, reversed. *)
Fixpoint split_from (s : string) (cur : list ascii) : list string :=
  let flush (rest : list string) :=
    match cur with
    | [] => rest
    | _ => string_of_list_ascii (rev cur) :: rest
    end in
  match s with
  | EmptyString => flush []
  | String c s' =>
      if is_space c then flush (split_from s' []) else split_from s' (c :: cur)
  end.

Definition split (s : string) : list string := split_from s [].

(** [s.split(sep)] for a one-byte separator. *)
Fixpoint split_on_from (sep : ascii) (s : string) (cur : list ascii) : list string :=
  match s with
  | EmptyString => [string_of_list_ascii (rev cur)]
  | String c s' =>
      if Ascii.eqb c sep
      then string_of_list_ascii (rev cur) :: split_on_from sep s' []
      else split_on_from sep s' (c :: cur)
  end.

Definition split_on (sep : ascii) (s : string) : list string :=
  split_on_from sep s [].

Definition is_alpha_ascii (c : ascii) : bool :=
  let n := nat_of_ascii c in
  ((65 <=? n)%nat && (n <=? 90)%nat) || ((97 <=? n)%nat && (n <=? 122)%nat).

(** [s.isalpha()] on ASCII text: non-empty and letters only. *)
Definition isalpha (s : string) : bool :=
  match s with
  | EmptyString => false
  | _ => forallb is_alpha_ascii (list_ascii_of_string s)
  end.

(** [sep.join(l)] *)
Fixpoint join (sep : string) (l : list string) : string :=
  match l with
  | [] => EmptyString
  | [x] => x
  | x :: rest => x +:+ sep +:+ join sep rest
  end.

(** [x in l] for a list of strings: equality with an element. *)
Definition list_in (x : string) (l : list string) : bool :=
  existsb (String.eqb x) l.

End PyStr.

(** ** response_engine/tone_matcher.py *)

Module ToneMatcher.
Import PyStr.

Record ToneConfig := {
  indicators : list string;
  adjustments : list string
}.

(** U+1F60A, U+2764 U+FE0F and U+1F44D in UTF-8. *)
Definition emoji_smile : string :=
  string_of_list_ascii ["240"; "159"; "152"; "138"]%char.
Definition emoji_heart : string :=
  string_of_list_ascii ["226"; "157"; "164"; "239"; "184"; "143"]%char.
Definition emoji_thumbs_up : string :=
  string_of_list_ascii ["240"; "159"; "145"; "141"]%char.

(** [self.tone_patterns], set once in [__init__] and never assigned again. *)
Definition tone_patterns : gmap string ToneConfig :=
  <[ "formal" :=
       {| indicators := ["sir"; "madam"; "please"; "thank you"; "regards"];
          adjustments := ["add formality"; "use proper grammar"; "be respectful"] |} ]>
  (<[ "casual" :=
       {| indicators := ["hey"; "sup"; "cool"; "awesome"; "lol"];
          adjustments := ["be relaxed"; "use contractions"; "be friendly"] |} ]>
  (<[ "professional" :=
       {| indicators := ["meeting"; "project"; "deadline"; "business"];
          adjustments := ["be professional"; "be concise"; "be clear"] |} ]>
  (<[ "friendly" :=
       {| indicators := ["friend"; "buddy"; "pal"; emoji_smile; emoji_heart];
          adjustments := ["be warm"; "be supportive"; "be encouraging"] |} ]>
  (<[ "urgent" :=
       {| indicators := ["asap"; "urgent"; "emergency"; "now"];
          adjustments := ["be quick"; "be direct"; "be responsive"] |} ]>
   ∅)))).

(** [determine_tone]; [intent_type] is [intent.get("type", "unknown")].
    Nothing in the body raises on text, so the [except] branch, which
    answers "neutral", is not taken. *)
Definition determine_tone (intent_type context sender : string) : string :=
  let tone := "neutral" in
  let tone :=
    if String.eqb intent_type "greeting" then "friendly"
    else if String.eqb intent_type "question" then "helpful"
    else if String.eqb intent_type "request" then "professional"
    else if String.eqb intent_type "complaint" then "empathetic"
    else if String.eqb intent_type "urgent" then "urgent"
    else if String.eqb intent_type "casual" then "casual"
    else tone in
  let tone :=
    if contains "work" (lower context) || contains "business" (lower context)
    then "professional"
    else if contains "friend" (lower context) || contains "family" (lower context)
    then "friendly"
    else tone in
  let tone :=
    if list_in sender ["boss"; "manager"; "supervisor"] then "professional"
    else if list_in sender ["friend"; "family"; "close"] then "casual"
    else tone in
  tone.

(** [apply_tone].  The tests ["formal" in adjustments] and the like are
    membership tests on the list [adjustments]: they compare the word
    with each whole entry of the list.  Nothing in the body raises on
    text, so the [except] branch, which returns [response], is not taken. *)
Definition apply_tone (response tone : string) : string :=
  if String.eqb tone "neutral" then response
  else
    let adjustments :=
      match tone_patterns !! tone with
      | Some tone_config => adjustments tone_config
      | None => []
      end in
    let adjusted_response := response in
    if list_in "formal" adjustments then
      if negb (existsb (fun p => startswith p response) ["Dear"; "Hello"; "Hi"])
      then "Hello, " +:+ response
      else adjusted_response
    else if list_in "casual" adjustments then
      replace "Thank you" "Thanks" (replace "Hello" "Hey" response)
    else if list_in "professional" adjustments then
      if contains "lol" (lower adjusted_response)
      then replace "LOL" "" (replace "lol" "" adjusted_response)
      else adjusted_response
    else if list_in "friendly" adjustments then
      if negb (existsb (fun emoji => contains emoji adjusted_response)
                 [emoji_smile; emoji_heart; emoji_thumbs_up])
      then adjusted_response +:+ " " +:+ emoji_smile
      else adjusted_response
    else if list_in "urgent" adjustments then
      if negb (contains "!" adjusted_response)
      then adjusted_response +:+ "!"
      else adjusted_response
    else adjusted_response.

End ToneMatcher.

(** ** Python values, exceptions and the external libraries *)

Module Py.

(** The exceptions the modelled code can meet. *)
Inductive exn :=
| NameError (name : string)
| AttributeError (msg : string)
| ValueError (msg : string)
| IndexError (msg : string)
| ExternalError (msg : string).

(** [str(e)] *)
Definition exn_str (e : exn) : string :=
  match e with
  | NameError name => "name '" +:+ name +:+ "' is not defined"
  | AttributeError msg | ValueError msg | IndexError msg | ExternalError msg => msg
  end.

(** Values of the dictionaries handed back to callers.  A [PDict] keeps
    its keys in insertion order, as a Python [dict] does. *)
Inductive pyval :=
| PStr (s : string)
| PInt (n : Z)
| PFloat (q : Q)
| PBool (b : bool)
| PList (l : list pyval)
| PDict (d : list (string * pyval)).

(** [d[k] = v] on an ordered dictionary: an existing key keeps its
    place, a new key goes last. *)
Fixpoint dict_set (k : string) (v : pyval) (d : list (string * pyval))
  : list (string * pyval) :=
  match d with
  | [] => [(k, v)]
  | (k', v') :: rest =>
      if String.eqb k k' then (k, v) :: rest else (k', v') :: dict_set k v rest
  end.

(** [d.get(k)] *)
Fixpoint dict_get (k : string) (d : list (string * pyval)) : option pyval :=
  match d with
  | [] => None
  | (k', v) :: rest => if String.eqb k k' then Some v else dict_get k rest
  end.

(** [v.get(k, {})], where [v] is one of the dictionaries above. *)
Definition get_dict (k : string) (v : pyval) : pyval :=
  match v with
  | PDict d => default (PDict []) (dict_get k d)
  | _ => PDict []
  end.

(** [v.get(k, dflt)] *)
Definition get_or (k : string) (dflt : pyval) (v : pyval) : pyval :=
  match v with
  | PDict d => default dflt (dict_get k d)
  | _ => dflt
  end.

(** An incoming message: a [dict] from field names to text. *)
Abbreviation Message := (gmap string string).

(** [message.get(k, "")] *)
Definition msg_get (k : string) (message : Message) : string :=
  default "" (message !! k).

(** [l[-n:]] for [n > 0]: the last [n] elements, all of them when the
    list is shorter. *)
Definition last_n {A} (n : nat) (l : list A) : list A :=
  drop (length l - n) l.

(** [l[start:]] for any integer [start]: a negative [start] counts from
    the end. *)
Definition slice_from {A} (start : Z) (l : list A) : list A :=
  if (0 <=? start)%Z then drop (Z.to_nat start) l
  else drop (length l - Z.to_nat (- start)) l.

(** The [re] module.  [re_search p s] is [re.search(p, s) is not None];
    [re_search_i] is the same under [re.IGNORECASE]. *)
Class Regex := {
  re_search : string -> string -> bool;
  re_search_i : string -> string -> bool;
  re_findall : string -> string -> list string
}.

(** The four checks of the safety monitor. *)
Inductive check := CkRedlines | CkContent | CkConsent | CkRelationship.

(** The calls recorded while a method runs. *)
Inductive event :=
| CallCheck (c : check)
| CallGenerateResponse
| CallSendResponse
| CallSentenceTransformer
| CallEncode
| CallChatCompletion.

(** [for x in l: body], for bodies that can raise, without state. *)
Fixpoint mapM {A B} (f : A -> exn + B) (l : list A) : exn + list B :=
  match l with
  | [] => inr []
  | x :: rest =>
      match f x with
      | inl e => inl e
      | inr y =>
          match mapM f rest with
          | inl e => inl e
          | inr ys => inr (y :: ys)
          end
      end
  end.

(** Sequencing of calls that can raise. *)
Definition and_then {A B} (r : exn + A) (k : A -> exn + B) : exn + B :=
  match r with
  | inl e => inl e
  | inr a => k a
  end.

(** *** Methods that mutate [self], raise, and call out

    A computation of [M S E A] runs on a state [S]; it ends with a value of
    [A] or with an exception, leaves a state behind in both cases (what a
    method assigned before it raised stays assigned), and records the
    calls of interest as events of [E], oldest first. *)
Section Monad.
Context {S E : Type}.

Definition M (A : Type) : Type := S -> (exn + A) * S * list E.

Definition ret {A} (a : A) : M A := fun s => (inr a, s, []).

Definition bind {A B} (m : M A) (k : A -> M B) : M B := fun s =>
  match m s with
  | (inr a, s1, t1) => let '(r, s2, t2) := k a s1 in (r, s2, t1 ++ t2)
  | (inl e, s1, t1) => (inl e, s1, t1)
  end.

(** [raise e] *)
Definition raise {A} (e : exn) : M A := fun s => (inl e, s, []).

(** The outcome of a call that does not touch [self]. *)
Definition lift {A} (r : exn + A) : M A := fun s => (r, s, []).

Definition get : M S := fun s => (inr s, s, []).

(** [self.field = v], as a function on the state. *)
Definition modify (f : S -> S) : M unit := fun s => (inr tt, f s, []).

Definition emit (e : E) : M unit := fun s => (inr tt, s, [e]).

(** [try: body / except Exception as e: handler e] *)
Definition try_except {A} (body : M A) (handler : exn -> M A) : M A := fun s =>
  match body s with
  | (inl e, s1, t1) => let '(r, s2, t2) := handler e s1 in (r, s2, t1 ++ t2)
  | (inr a, s1, t1) => (inr a, s1, t1)
  end.
End Monad.

Arguments M : clear implicits.

(** A method of an object held in a field of [self]. *)
Definition zoom {S S' E A} (proj : S -> S') (upd : S' -> S -> S)
  (m : M S' E A) : M S E A := fun s =>
  let '(r, s', t) := m (proj s) in (r, upd s' s, t).

Declare Scope py_scope.
Delimit Scope py_scope with py.
Notation "'let*' x ':=' m 'in' k" := (bind m (fun x => k))
  (at level 10, x name, m at level 100, k at level 200, only parsing) : py_scope.
Notation "'let?' x ':=' r 'in' k" := (and_then r (fun x => k))
  (at level 10, x name, r at level 100, k at level 200, only parsing) : py_scope.

End Py.

(** ** safety/consent_manager.py *)

Module ConsentManager.
Import Py.

Record ConsentRecord := {
  cr_timestamp : string;
  cr_sender : string;
  cr_platform : option string;
  cr_action : string
}.

Record t := {
  consented_contacts : gset string;
  consent_history : list ConsentRecord
}.

(** [__init__] *)
Definition init : t :=
  {| consented_contacts := ∅; consent_history := [] |}.

Record ConsentCheck := {
  consented : bool;
  reason : string
}.

(** [check_consent].  Nothing in the body raises on a message of text
    fields, so the [except] branch is not taken. *)
Definition check_consent (self : t) (message : Message) : ConsentCheck :=
  let sender := msg_get "sender" message in
  let platform := msg_get "platform" message in
  if bool_decide (sender ∈ consented_contacts self) then
    {| consented := true; reason := "Sender has previously consented" |}
  else if String.eqb sender "" then
    {| consented := false; reason := "Unknown sender" |}
  else if PyStr.list_in platform ["discord"; "email"; "slack"] then
    {| consented := true; reason := "Platform-based consent" |}
  else
    {| consented := false; reason := "No consent on file for this sender" |}.

(** [add_consent]; [now] is what [datetime.now().isoformat()] returns. *)
Definition add_consent (self : t) (sender platform now : string) : t :=
  {| consented_contacts := {[ sender ]} ∪ consented_contacts self;
     consent_history :=
       consent_history self ++
       [ {| cr_timestamp := now; cr_sender := sender;
            cr_platform := Some platform; cr_action := "consent_granted" |} ] |}.

(** [remove_consent] *)
Definition remove_consent (self : t) (sender now : string) : t :=
  {| consented_contacts := consented_contacts self ∖ {[ sender ]};
     consent_history :=
       consent_history self ++
       [ {| cr_timestamp := now; cr_sender := sender;
            cr_platform := None; cr_action := "consent_revoked" |} ] |}.

(** [get_consented_contacts] *)
Definition get_consented_contacts (self : t) : list string :=
  elements (consented_contacts self).

(** [get_consent_history]: [self.consent_history[-limit:]] *)
Definition get_consent_history (limit : Z) (self : t) : list ConsentRecord :=
  slice_from (- limit) (consent_history self).

(** The calls that change a consent manager. *)
Inductive call :=
| AddConsent (sender platform now : string)
| RemoveConsent (sender now : string).

Definition step (self : t) (c : call) : t :=
  match c with
  | AddConsent sender platform now => add_consent self sender platform now
  | RemoveConsent sender now => remove_consent self sender now
  end.

(** The state after a sequence of calls on a fresh manager. *)
Definition run (calls : list call) : t := foldl step init calls.

End ConsentManager.

(** ** safety/content_filter.py *)

Module ContentFilter.
Import Py.

Definition harmful_patterns : list string :=
  [ "kill yourself"; "commit suicide"; "self harm";
    "i hate you"; "you're worthless"; "you're stupid";
    "racist"; "sexist"; "homophobic"; "transphobic";
    "nazi"; "hitler"; "white supremacy" ].

Definition inappropriate_patterns : list string :=
  [ "porn"; "sex"; "nude"; "explicit";
    "drugs"; "cocaine"; "heroin"; "weed";
    "violence"; "murder"; "assault" ].

Record ContentCheck := {
  safe : bool;
  reason : string;
  harmful_found : list string;
  inappropriate_found : list string
}.

(** [_get_reason] *)
Definition _get_reason (harmful inappropriate : list string) : string :=
  match harmful, inappropriate with
  | _ :: _, _ => "Harmful content detected: " +:+ PyStr.join ", " harmful
  | [], _ :: _ => "Inappropriate content detected: " +:+ PyStr.join ", " inappropriate
  | [], [] => ""
  end.

(** [check_content] *)
Definition check_content `{Regex} (content : string) : ContentCheck :=
  let content_lower := PyStr.lower content in
  let harmful := filter (fun pattern => re_search_i pattern content_lower = true) harmful_patterns in
  let inappropriate :=
    filter (fun pattern => re_search_i pattern content_lower = true) inappropriate_patterns in
  let is_safe := (length harmful =? 0)%nat && (length inappropriate =? 0)%nat in
  {| safe := is_safe;
     reason := _get_reason harmful inappropriate;
     harmful_found := harmful;
     inappropriate_found := inappropriate |}.

End ContentFilter.

(** ** safety/safety_monitor.py *)

Module SafetyMonitor.
Import Py PyStr.

(** The dictionaries returned by [_check_redlines] and
    [_check_relationship_risks]. *)
Record CheckResult := {
  ck_safe : bool;
  ck_reason : string
}.

(** [safety_result] *)
Record SafetyResult := {
  safe : bool;
  reason : string;
  confidence : Q;
  flags : list string
}.

Record SafetyEvent := {
  ev_timestamp : string;
  ev_response : string;
  ev_original_message : string;
  ev_sender : string;
  ev_platform : string;
  ev_safe : bool;
  ev_reason : string;
  ev_flags : list string
}.

(** The monitor.  The content filter has no state of its own; the set
    [redlines] is visited in the order of [elements]. *)
Record t := {
  consent_manager : ConsentManager.t;
  safety_mode : string;
  redlines : gset string;
  sensitive_topics : gset string;
  safety_events : list SafetyEvent
}.

Definition default_redlines : gset string :=
  list_to_set
    [ "passwords"; "credit cards"; "social security"; "bank account";
      "personal address"; "phone number"; "family secrets";
      "confidential information"; "trade secrets"; "private keys" ].

Definition default_sensitive_topics : gset string :=
  list_to_set
    [ "politics"; "religion"; "money"; "health"; "relationships";
      "work conflicts"; "legal issues"; "family problems" ].

(** [__init__] followed by [_load_default_settings] *)
Definition init : t :=
  {| consent_manager := ConsentManager.init;
     safety_mode := "strict";
     redlines := default_redlines;
     sensitive_topics := default_sensitive_topics;
     safety_events := [] |}.

Definition personal_information_patterns : list string :=
  [ "\b\d{3}-\d{2}-\d{4}\b";
    "\b\d{4}[\s-]?\d{4}[\s-]?\d{4}[\s-]?\d{4}\b";
    "\b\d{3}[\s-]?\d{3}[\s-]?\d{4}\b";
    "\b[A-Za-z0-9._%+-]+@[A-Za-z0-9.-]+\.[A-Z|a-z]{2,}\b" ].

(** [_check_redlines] *)
Definition _check_redlines `{Regex} (self : t) (response : string) : CheckResult :=
  let response_lower := lower response in
  match List.find (fun redline => contains redline response_lower)
          (elements (redlines self)) with
  | Some redline =>
      {| ck_safe := false; ck_reason := "Contains redline term: " +:+ redline |}
  | None =>
      if existsb (fun pattern => re_search pattern response)
           personal_information_patterns
      then {| ck_safe := false;
              ck_reason := "Contains potential personal information" |}
      else {| ck_safe := true; ck_reason := "" |}
  end.

Definition risk_phrases : list string :=
  [ "i hate you"; "you're stupid"; "you're wrong"; "i don't care";
    "whatever"; "i don't want to talk to you"; "leave me alone";
    "you're annoying"; "i'm done with you"; "goodbye forever" ].

(** [_check_relationship_risks]; [original_message] is not read. *)
Definition _check_relationship_risks `{Regex} (response : string)
  (original_message : Message) : CheckResult :=
  let response_lower := lower response in
  match List.find (fun phrase => contains phrase response_lower) risk_phrases with
  | Some phrase =>
      {| ck_safe := false;
         ck_reason := "Contains relationship risk phrase: " +:+ phrase |}
  | None =>
      let aggressive_indicators :=
        [ (3 <? count "!" response)%nat;
          (0 <? count "CAPS" response)%nat;
          (0 <? length (re_findall "\b[A-Z]{3,}\b" response))%nat ] in
      if existsb id aggressive_indicators
      then {| ck_safe := false; ck_reason := "Aggressive tone detected" |}
      else {| ck_safe := true; ck_reason := "" |}
  end.

(** [s[:n] + "..." if len(s) > n else s] *)
Definition truncated (n : nat) (s : string) : string :=
  if (n <? String.length s)%nat then str_take n s +:+ "..." else s.

(** [_log_safety_event]; [now] is [datetime.now().isoformat()]. *)
Definition _log_safety_event (self : t) (response : string)
  (original_message : Message) (safety_result : SafetyResult) (now : string) : t :=
  let event :=
    {| ev_timestamp := now;
       ev_response := truncated 200 response;
       ev_original_message := truncated 100 (msg_get "content" original_message);
       ev_sender := default "unknown" (original_message !! "sender");
       ev_platform := default "unknown" (original_message !! "platform");
       ev_safe := safe safety_result;
       ev_reason := reason safety_result;
       ev_flags := flags safety_result |} in
  let safety_events := safety_events self ++ [event] in
  let safety_events :=
    if (1000 <? length safety_events)%nat then last_n 1000 safety_events
    else safety_events in
  {| consent_manager := consent_manager self;
     safety_mode := safety_mode self;
     redlines := redlines self;
     sensitive_topics := sensitive_topics self;
     safety_events := safety_events |}.

Local Open Scope py_scope.

(** [safety_result] after a failed check: [safe] is cleared, [reason]
    overwritten, the flag appended. *)
Definition fail_with (safety_result : SafetyResult) (why flag : string)
  : SafetyResult :=
  {| safe := false;
     reason := why;
     confidence := confidence safety_result;
     flags := flags safety_result ++ [flag] |}.

(** [check_response].  Each of the four checks is recorded when it is
    called. *)
Definition check_response `{Regex} (response : string)
  (original_message : Message) (now : string) : M t event SafetyResult :=
  try_except
    (let safety_result :=
       {| safe := true; reason := ""; confidence := 1; flags := [] |} in
     let* self := get in
     let* _ := emit (CallCheck CkRedlines) in
     let redline_check := _check_redlines self response in
     let safety_result :=
       if negb (ck_safe redline_check)
       then fail_with safety_result
              ("Redline violation: " +:+ ck_reason redline_check) "redline"
       else safety_result in
     let* _ := emit (CallCheck CkContent) in
     let content_check := ContentFilter.check_content response in
     let safety_result :=
       if negb (ContentFilter.safe content_check)
       then fail_with safety_result
              ("Content filter: " +:+ ContentFilter.reason content_check) "content"
       else safety_result in
     let* _ := emit (CallCheck CkConsent) in
     let consent_check :=
       ConsentManager.check_consent (consent_manager self) original_message in
     let safety_result :=
       if negb (ConsentManager.consented consent_check)
       then fail_with safety_result
              ("Consent issue: " +:+ ConsentManager.reason consent_check) "consent"
       else safety_result in
     let* _ := emit (CallCheck CkRelationship) in
     let relationship_check := _check_relationship_risks response original_message in
     let safety_result :=
       if negb (ck_safe relationship_check)
       then fail_with safety_result
              ("Relationship risk: " +:+ ck_reason relationship_check) "relationship"
       else safety_result in
     let* _ := modify (fun self =>
               _log_safety_event self response original_message safety_result now) in
     ret safety_result)
    (fun e =>
       ret {| safe := false;
              reason := "Safety check error: " +:+ exn_str e;
              confidence := 0;
              flags := ["error"] |}).

(** [add_redline] *)
Definition add_redline (term : string) (self : t) : t :=
  {| consent_manager := consent_manager self;
     safety_mode := safety_mode self;
     redlines := {[ lower term ]} ∪ redlines self;
     sensitive_topics := sensitive_topics self;
     safety_events := safety_events self |}.

(** [remove_redline] *)
Definition remove_redline (term : string) (self : t) : t :=
  {| consent_manager := consent_manager self;
     safety_mode := safety_mode self;
     redlines := redlines self ∖ {[ lower term ]};
     sensitive_topics := sensitive_topics self;
     safety_events := safety_events self |}.

(** [add_sensitive_topic] *)
Definition add_sensitive_topic (topic : string) (self : t) : t :=
  {| consent_manager := consent_manager self;
     safety_mode := safety_mode self;
     redlines := redlines self;
     sensitive_topics := {[ lower topic ]} ∪ sensitive_topics self;
     safety_events := safety_events self |}.

(** [set_safety_mode]: a mode outside the list is only warned about. *)
Definition set_safety_mode (mode : string) (self : t) : t :=
  let valid_modes := ["strict"; "moderate"; "lenient"] in
  {| consent_manager := consent_manager self;
     safety_mode := if list_in mode valid_modes then mode else safety_mode self;
     redlines := redlines self;
     sensitive_topics := sensitive_topics self;
     safety_events := safety_events self |}.

(** [get_mode] *)
Definition get_mode (self : t) : string := safety_mode self.

(** [clear_safety_history] *)
Definition clear_safety_history (self : t) : t :=
  {| consent_manager := consent_manager self;
     safety_mode := safety_mode self;
     redlines := redlines self;
     sensitive_topics := sensitive_topics self;
     safety_events := [] |}.

(** [get_recent_safety_events]: [self.safety_events[-limit:]] *)
Definition get_recent_safety_events (limit : Z) (self : t) : list SafetyEvent :=
  slice_from (- limit) (safety_events self).

(** [counts[k] = counts.get(k, 0) + 1] *)
Definition count_up (counts : gmap string nat) (k : string) : gmap string nat :=
  <[ k := default 0 (counts !! k) + 1 ]> counts.

(** The dictionary of [get_safety_stats] when there are events. *)
Record SafetyStats := {
  total_events : nat;
  unsafe_events : nat;
  safety_rate : Q;
  flag_breakdown : gmap string nat;
  platform_breakdown : gmap string nat;
  current_mode : string;
  redlines_count : nat;
  sensitive_topics_count : nat
}.

(** [get_safety_stats]: [None] stands for the dictionary
    [{"total_events": 0}] returned when the log is empty.  The test
    [total_events > 0] of the rate is kept, though the log is not empty
    there. *)
Definition get_safety_stats (self : t) : option SafetyStats :=
  match safety_events self with
  | [] => None
  | _ =>
      let total_events := length (safety_events self) in
      let unsafe_events :=
        length (List.filter (fun event => negb (ev_safe event)) (safety_events self)) in
      let flag_counts :=
        foldl (fun counts event => foldl count_up counts (ev_flags event))
          ∅ (safety_events self) in
      let platform_counts :=
        foldl (fun counts event => count_up counts (ev_platform event))
          ∅ (safety_events self) in
      Some {| total_events := total_events;
              unsafe_events := unsafe_events;
              safety_rate :=
                if (0 <? total_events)%nat
                then (inject_Z (Z.of_nat (total_events - unsafe_events))
                      / inject_Z (Z.of_nat total_events))%Q
                else 1%Q;
              flag_breakdown := flag_counts;
              platform_breakdown := platform_counts;
              current_mode := safety_mode self;
              redlines_count := size (redlines self);
              sensitive_topics_count := size (sensitive_topics self) |}
  end.

End SafetyMonitor.

(** ** numpy *)

Module Np.
Import Py.

(** An embedding vector. *)
Abbreviation vec := (list Q).

(** [np.dot] of two vectors of one length.  A float is read as the
    rational it denotes and the operations are exact: the rounding that
    numpy does after each operation is not modelled, so a statement below
    about a similarity is about its exact value, and nothing is stated
    about which similarities pass a fixed threshold. *)
Fixpoint dot (a b : vec) : Q :=
  match a, b with
  | x :: a', y :: b' => (x * y + dot a' b')%Q
  | _, _ => 0%Q
  end.

(** [np.dot(a, b)] for one-dimensional arrays: a [ValueError] when the
    lengths differ. *)
Definition np_dot (a b : vec) : exn + Q :=
  if (length a =? length b)%nat then inr (dot a b)
  else inl (ValueError "shapes not aligned").

(** [np.dot(rows, queries.T).flatten()]: [rows] has shape (n, d) and
    [queries] shape (k, d); the product has shape (n, k) and is read row
    by row. *)
Definition np_dot_T (rows queries : list vec) : exn + list Q :=
  if forallb (fun e => forallb (fun q => (length e =? length q)%nat) queries) rows
  then inr (flat_map (fun e => map (dot e) queries) rows)
  else inl (ValueError "shapes not aligned").

(** [a[i]] for an index that [np.argsort] returned. *)
Definition at_index (a : list Q) (i : nat) : Q := nth i a 0%Q.

(** What the code uses of numpy beyond exact arithmetic.  [np.argsort]
    returns the indices that sort its argument in ascending order; the
    order among equal values is whatever the sorting kind in use gives.
    [np.linalg.norm] is a square root, so it is a parameter too. *)
Class Numpy := {
  np_argsort : list Q -> list nat;
  np_argsort_perm : forall a, Permutation (np_argsort a) (seq 0 (length a));
  np_argsort_sorted : forall a, Sorted Qle (map (at_index a) (np_argsort a));
  np_linalg_norm : vec -> Q
}.

(** [a > b] *)
Definition Qgt_bool (a b : Q) : bool := negb (Qle_bool a b).

(** [sum(l)] *)
Definition sumQ (l : list Q) : Q := foldr Qplus 0%Q l.

(** [np.mean(l)] for a non-empty list *)
Definition np_mean (l : list Q) : Q :=
  (sumQ l / inject_Z (Z.of_nat (length l)))%Q.

(** [np.var(l)]: the mean of the squared deviations from the mean. *)
Definition np_var (l : list Q) : Q :=
  let m := np_mean l in
  np_mean (map (fun x => ((x - m) * (x - m))%Q) l).

(** A stable sort by insertion: [x] is put before the first element [y]
    with [le x y].  Elements are inserted from the right, so among
    elements that [le] relates both ways the earlier one stays first. *)
Section Sort.
Context {A : Type} (le : A -> A -> bool).

Fixpoint insert_by (x : A) (l : list A) : list A :=
  match l with
  | [] => [x]
  | y :: rest => if le x y then x :: y :: rest else y :: insert_by x rest
  end.

Definition sort_by (l : list A) : list A := foldr insert_by [] l.
End Sort.

(** [l.sort(key=key, reverse=True)]: descending, stable. *)
Definition sort_desc {A} (key : A -> Q) (l : list A) : list A :=
  sort_by (fun x y => Qle_bool (key y) (key x)) l.

(** [np.argsort(a, kind="stable")]: ascending, equal values by
    ascending index. *)
Definition argsort_stable (a : list Q) : list nat :=
  sort_by (fun i j => Qle_bool (at_index a i) (at_index a j)) (seq 0 (length a)).

(** [l[:k]] for any integer [k]: a negative [k] counts from the end. *)
Definition slice_to {A} (k : Z) (l : list A) : list A :=
  if (0 <=? k)%Z then take (Z.to_nat k) l
  else take (length l - Z.to_nat (- k)) l.

End Np.

(** ** personality_core/style_embedding.py *)

Module StyleEmbedding.
Import Py Np.

Record t := {
  embeddings : list vec;
  texts : list string
}.

(** [__init__] *)
Definition init : t := {| embeddings := []; texts := [] |}.

(** [add_text] *)
Definition add_text (self : t) (text : string) (embedding : vec) : t :=
  {| embeddings := embeddings self ++ [embedding];
     texts := texts self ++ [text] |}.

(** One entry of the result of [find_similar]. *)
Record Similar := {
  text : string;
  similarity : Q;
  index : nat
}.

(** The list [similarities] of [find_similar]: the pairs (i, cosine).
    A division by a zero norm gives [0] here and [nan] or [inf] in
    numpy; no statement below depends on the value. *)
Definition similarities `{Numpy} (self : t) (query_embedding : vec)
  : exn + list (nat * Q) :=
  mapM (fun '(i, embedding) =>
          match np_dot query_embedding embedding with
          | inl e => inl e
          | inr d =>
              inr (i, (d / (np_linalg_norm query_embedding * np_linalg_norm embedding))%Q)
          end)
       (imap (fun i embedding => (i, embedding)) (embeddings self)).

(** [find_similar]; the method has no [try], so an exception of
    [np.dot] or of [self.texts[i]] reaches the caller. *)
Definition find_similar `{Numpy} (self : t) (query_embedding : vec) (top_k : Z)
  : exn + list Similar :=
  match embeddings self with
  | [] => inr []
  | _ =>
      match similarities self query_embedding with
      | inl e => inl e
      | inr sims =>
          let sims := sort_desc snd sims in
          mapM (fun '(i, sim) =>
                  match texts self !! i with
                  | Some t => inr {| text := t; similarity := sim; index := i |}
                  | None => inl (IndexError "list index out of range")
                  end)
               (slice_to top_k sims)
      end
  end.

(** The index after a sequence of [add_text] calls on a fresh one. *)
Definition build (records : list (string * vec)) : t :=
  foldl (fun self '(text, embedding) => add_text self text embedding) init records.

End StyleEmbedding.

(** ** personality_core/belief_matrix.py *)

Module BeliefMatrix.
Import Py PyStr.

(** [beliefs] is a [defaultdict(dict)]: reading a missing category
    gives an empty dictionary. *)
Record t := {
  beliefs : gmap string (gmap string nat);
  values : gmap string Q
}.

Definition init : t := {| beliefs := ∅; values := ∅ |}.

(** [self.beliefs[c][b] = self.beliefs[c].get(b, 0) + 1] *)
Definition bump (category belief : string) (self : t) : t :=
  let inner := default ∅ (beliefs self !! category) in
  {| beliefs := <[ category := <[ belief := default 0 (inner !! belief) + 1 ]> inner ]>
                  (beliefs self);
     values := values self |}.

(** [if any(word in text_lower for word in words): bump] *)
Definition bump_if_any (words : list string) (text_lower : string)
  (category belief : string) (self : t) : t :=
  if existsb (fun word => contains word text_lower) words
  then bump category belief self else self.

(** [_extract_beliefs_from_text] *)
Definition _extract_beliefs_from_text (self : t) (text : string) : t :=
  let text_lower := lower text in
  let self := bump_if_any ["liberal"; "progressive"; "left"] text_lower
                "politics" "liberal" self in
  let self := bump_if_any ["conservative"; "republican"; "right"] text_lower
                "politics" "conservative" self in
  let self := bump_if_any ["equality"; "justice"; "rights"] text_lower
                "social" "equality" self in
  let self := bump_if_any ["tradition"; "family"; "values"] text_lower
                "social" "traditional" self in
  let self := bump_if_any ["capitalism"; "free market"; "business"] text_lower
                "economics" "capitalist" self in
  let self := bump_if_any ["socialism"; "welfare"; "government"] text_lower
                "economics" "socialist" self in
  self.

(** [build_from_data], given the [content] of each item; the body
    raises nothing on text, so its [except] branch is not taken. *)
Definition build_from_data (self : t) (contents : list string) : t :=
  foldl (fun self content =>
           if String.eqb content "" then self
           else _extract_beliefs_from_text self content)
        self contents.

(** [get_beliefs] *)
Definition get_beliefs (self : t) : gmap string (gmap string nat) := beliefs self.

End BeliefMatrix.

(** ** personality_core/personality_engine.py *)

Module PersonalityEngine.
Import Py PyStr Np.
Local Open Scope py_scope.

(** The [personality] annotation of a training item.  A field is [None]
    when the key is absent; [emoji_frequent] is
    [p.get("emoji_usage", {}).get("frequent")]. *)
Record Personality := {
  communication_style : option string;
  humor_type : option string;
  formality_level : option string;
  energy_level : option string;
  emoji_frequent : option bool
}.

(** A training item: [content] is [item.get("content", "")];
    [personality] is [None] when the key is absent. *)
Record Sample := {
  content : string;
  personality : option Personality
}.

(** [self.embeddings] is the list [[]] of [__init__] until
    [_build_embedding_database] assigns it the array that [encode]
    returned. *)
Inductive Embeddings :=
| PyList (l : list vec)
| NdArray (rows : list vec).

(** What [_generate_with_personality] puts into the prompt; the layout
    of the text around the fields is left to the capability. *)
Record Prompt := {
  personality_prompt : string;
  primary_humor : pyval;
  primary_formality : pyval;
  primary_energy : pyval;
  emoji_usage : string;
  context_examples : string;
  prompt_context : string;
  prompt_input : string
}.

(** The external capabilities.  [SentenceTransformer name] loads the
    embedding model, [encode] embeds a batch of texts,
    [ChatCompletion_create] is the generation call and returns
    [response.choices[0].message.content]; each can raise.
    [np_random_choice] is [np.random.choice]. *)
Class External := {
  Model : Type;
  SentenceTransformer : string -> exn + Model;
  encode : Model -> list string -> exn + list vec;
  ChatCompletion_create : Prompt -> exn + string;
  np_random_choice : list string -> string
}.

Record t `{External} := {
  model_name : string;
  sentence_model : option Model;
  belief_matrix : BeliefMatrix.t;
  personality_profile : pyval;
  style_patterns : pyval;
  trained : bool;
  embeddings : Embeddings;
  texts : list string
}.

(** [__init__] *)
Definition init `{External} : t :=
  {| model_name := "all-MiniLM-L6-v2";
     sentence_model := None;
     belief_matrix := BeliefMatrix.init;
     personality_profile := PDict [];
     style_patterns := PDict [];
     trained := false;
     embeddings := PyList [];
     texts := [] |}.

(** The names bound at the top level of the module: its imports
    (lines 6-15), [logger] and the class. *)
Definition module_globals : list string :=
  [ "json"; "logging"; "Dict"; "List"; "Optional"; "Any"; "Path"; "np";
    "SentenceTransformer"; "openai"; "StyleEmbedding"; "BeliefMatrix";
    "logger"; "PersonalityEngine" ].

(** Reading a global name that is not a builtin. *)
Definition load_global (name : string) : exn + unit :=
  if list_in name module_globals then inr tt else inl (NameError name).

(** The counts of a [collections.Counter], keys in the order they were
    first met. *)
Fixpoint count_items (items : list string) (acc : list (string * nat))
  : list (string * nat) :=
  match items with
  | [] => acc
  | x :: rest =>
      let acc :=
        if existsb (fun kv => String.eqb x kv.1) acc
        then map (fun kv => if String.eqb x kv.1 then (kv.1, S kv.2) else kv) acc
        else acc ++ [(x, 1)] in
      count_items rest acc
  end.

(** [Counter(items)]: the name is looked up, then called. *)
Definition Counter (items : list string) : exn + list (string * nat) :=
  match load_global "Counter" with
  | inl e => inl e
  | inr _ => inr (count_items items [])
  end.

(** [counter.most_common(n)]: by count, descending, equal counts in the
    order first met. *)
Definition most_common (n : nat) (counter : list (string * nat))
  : list (string * nat) :=
  take n (sort_desc (fun kv => inject_Z (Z.of_nat kv.2)) counter).

(** [dict(counter)] *)
Definition dict_of_counter (counter : list (string * nat)) : pyval :=
  PDict (map (fun kv => (kv.1, PInt (Z.of_nat kv.2))) counter).

(** [_get_most_common] *)
Definition _get_most_common (items : list string) : exn + string :=
  match items with
  | [] => inr "neutral"
  | _ =>
      match Counter items with
      | inl e => inl e
      | inr counter =>
          match most_common 1 counter with
          | kv :: _ => inr kv.1
          | [] => inl (IndexError "list index out of range")
          end
      end
  end.

(** The traits dictionary before any annotation is read. *)
Definition empty_traits : list (string * pyval) :=
  [ ("communication_style", PDict []); ("humor_type", PDict []);
    ("formality_level", PDict []); ("energy_level", PDict []);
    ("emotional_patterns", PDict []); ("interests", PDict []);
    ("values", PDict []) ].

(** [{"primary": self._get_most_common(l), "distribution": dict(Counter(l))}] *)
Definition trait_summary (labels : list string) : exn + pyval :=
  let? primary := _get_most_common labels in
  let? counter := Counter labels in
  inr (PDict [ ("primary", PStr primary);
               ("distribution", dict_of_counter counter) ]).

(** [_extract_personality_traits] *)
Definition _extract_personality_traits (training_data : list Sample)
  : exn + pyval :=
  let traits := empty_traits in
  let all_personalities := omap personality training_data in
  match all_personalities with
  | [] => inr (PDict traits)
  | _ =>
      let comm_styles :=
        map (fun p => default "balanced" (communication_style p)) all_personalities in
      let? v := trait_summary comm_styles in
      let traits := dict_set "communication_style" v traits in
      let humor_types :=
        map (fun p => default "neutral" (humor_type p)) all_personalities in
      let? v := trait_summary humor_types in
      let traits := dict_set "humor_type" v traits in
      let formality_levels :=
        map (fun p => default "neutral" (formality_level p)) all_personalities in
      let? v := trait_summary formality_levels in
      let traits := dict_set "formality_level" v traits in
      let energy_levels :=
        map (fun p => default "neutral" (energy_level p)) all_personalities in
      let? v := trait_summary energy_levels in
      let traits := dict_set "energy_level" v traits in
      let emoji_usage :=
        map (fun p => default false (emoji_frequent p)) all_personalities in
      let frequency :=
        (inject_Z (Z.of_nat (length (List.filter id emoji_usage)))
         / inject_Z (Z.of_nat (length emoji_usage)))%Q in
      let traits :=
        dict_set "emoji_preference"
          (PDict [ ("frequent_user", PBool (Qgt_bool frequency (3 # 10)));
                   ("frequency", PFloat frequency) ])
          traits in
      inr (PDict traits)
  end.

(** The patterns dictionary before any text is read. *)
Definition empty_patterns : list (string * pyval) :=
  [ ("vocabulary", PDict []); ("sentence_structure", PDict []);
    ("punctuation", PDict []); ("emoji_patterns", PDict []);
    ("response_patterns", PDict []) ].

Definition Qnat (n : nat) : Q := inject_Z (Z.of_nat n).

(** [_build_style_patterns] *)
Definition _build_style_patterns (training_data : list Sample) : exn + pyval :=
  let patterns := empty_patterns in
  let all_texts :=
    filter (fun content => content <> "") (map content training_data) in
  match all_texts with
  | [] => inr (PDict patterns)
  | _ =>
      let all_words :=
        flat_map
          (fun text =>
             filter (fun w => isalpha w = true /\ (2 < String.length w)%nat)
               (split (lower text)))
          all_texts in
      let? word_freq := Counter all_words in
      let vocabulary_size := length (remove_dups all_words) in
      let patterns :=
        dict_set "vocabulary"
          (PDict
             [ ("common_words", PList (map (fun kv => PStr kv.1) (most_common 20 word_freq)));
               ("vocabulary_size", PInt (Z.of_nat vocabulary_size));
               ("word_diversity",
                 match all_words with
                 | [] => PInt 0
                 | _ => PFloat (Qnat vocabulary_size / Qnat (length all_words))%Q
                 end) ])
          patterns in
      let sentence_lengths :=
        flat_map
          (fun text =>
             map (fun s => length (split s))
               (filter (fun s => strip s <> "") (split_on "." text)))
          all_texts in
      let stat (f : list Q -> Q) :=
        match sentence_lengths with
        | [] => PInt 0
        | _ => PFloat (f (map Qnat sentence_lengths))
        end in
      let patterns :=
        dict_set "sentence_structure"
          (PDict [ ("avg_sentence_length", stat np_mean);
                   ("sentence_length_variance", stat np_var) ])
          patterns in
      let total (sub : string) :=
        PInt (Z.of_nat (foldr plus 0%nat (map (count sub) all_texts))) in
      let punct_patterns :=
        [ ("exclamation", total "!"); ("question", total "?");
          ("ellipsis", total "...") ] in
      let patterns := dict_set "punctuation" (PDict punct_patterns) patterns in
      inr (PDict patterns)
  end.

Section Methods.
Context `{External} `{Numpy}.

(** Assignments to the fields of [self]. *)
Definition set_sentence_model (v : option Model) (self : t) : t :=
  {| model_name := model_name self; sentence_model := v;
     belief_matrix := belief_matrix self;
     personality_profile := personality_profile self;
     style_patterns := style_patterns self; trained := trained self;
     embeddings := embeddings self; texts := texts self |}.

Definition set_personality_profile (v : pyval) (self : t) : t :=
  {| model_name := model_name self; sentence_model := sentence_model self;
     belief_matrix := belief_matrix self;
     personality_profile := v;
     style_patterns := style_patterns self; trained := trained self;
     embeddings := embeddings self; texts := texts self |}.

Definition set_style_patterns (v : pyval) (self : t) : t :=
  {| model_name := model_name self; sentence_model := sentence_model self;
     belief_matrix := belief_matrix self;
     personality_profile := personality_profile self;
     style_patterns := v; trained := trained self;
     embeddings := embeddings self; texts := texts self |}.

Definition set_belief_matrix (v : BeliefMatrix.t) (self : t) : t :=
  {| model_name := model_name self; sentence_model := sentence_model self;
     belief_matrix := v;
     personality_profile := personality_profile self;
     style_patterns := style_patterns self; trained := trained self;
     embeddings := embeddings self; texts := texts self |}.

Definition set_trained (v : bool) (self : t) : t :=
  {| model_name := model_name self; sentence_model := sentence_model self;
     belief_matrix := belief_matrix self;
     personality_profile := personality_profile self;
     style_patterns := style_patterns self; trained := v;
     embeddings := embeddings self; texts := texts self |}.

Definition set_index (e : Embeddings) (ts : list string) (self : t) : t :=
  {| model_name := model_name self; sentence_model := sentence_model self;
     belief_matrix := belief_matrix self;
     personality_profile := personality_profile self;
     style_patterns := style_patterns self; trained := trained self;
     embeddings := e; texts := ts |}.

(** The list [texts] of [_build_embedding_database]. *)
Definition texts_to_embed (training_data : list Sample) : list string :=
  map strip
    (filter (fun content => content <> "" /\ (10 < String.length (strip content))%nat)
       (map content training_data)).

(** [_build_embedding_database] *)
Definition _build_embedding_database (training_data : list Sample)
  : M t event unit :=
  let* self := get in
  match sentence_model self with
  | None => ret tt
  | Some model =>
      let texts := texts_to_embed training_data in
      match texts with
      | [] => ret tt
      | _ =>
          let* _ := emit CallEncode in
          let* embeddings := lift (encode model texts) in
          modify (set_index (NdArray embeddings) texts)
      end
  end.

(** The dictionary returned by [train_personality]. *)
Inductive TrainResult :=
| TrainSuccess (personality_profile style_patterns : pyval) (training_samples : nat)
| TrainFailure (error : string).

(** [train_personality].  A loaded model counts as true in
    [if not self.sentence_model]. *)
Definition train_personality (training_data : list Sample)
  : M t event TrainResult :=
  try_except
    (let* self := get in
     let* _ :=
       match sentence_model self with
       | None =>
           let* _ := emit CallSentenceTransformer in
           let* model := lift (SentenceTransformer (model_name self)) in
           modify (set_sentence_model (Some model))
       | Some _ => ret tt
       end in
     let* profile := lift (_extract_personality_traits training_data) in
     let* _ := modify (set_personality_profile profile) in
     let* patterns := lift (_build_style_patterns training_data) in
     let* _ := modify (set_style_patterns patterns) in
     let* _ :=
       modify (fun self =>
                 set_belief_matrix
                   (BeliefMatrix.build_from_data (belief_matrix self)
                      (map content training_data))
                   self) in
     let* _ := _build_embedding_database training_data in
     let* _ := modify (set_trained true) in
     let* self := get in
     ret (TrainSuccess (personality_profile self) (style_patterns self)
            (length training_data)))
    (fun e => ret (TrainFailure (exn_str e))).

(** [is_trained] *)
Definition is_trained (self : t) : bool := trained self.

(** [self.embeddings.size]: a list has no such attribute. *)
Definition embeddings_size (e : Embeddings) : exn + nat :=
  match e with
  | PyList _ => inl (AttributeError "'list' object has no attribute 'size'")
  | NdArray rows => inr (length (concat rows))
  end.

(** The rows of [self.embeddings] as the left operand of [np.dot]. *)
Definition embeddings_rows (e : Embeddings) : list vec :=
  match e with
  | PyList l => l
  | NdArray rows => rows
  end.

(** [np.argsort(similarities)[-5:][::-1]] *)
Definition top_indices (similarities : list Q) : list nat :=
  rev (last_n 5 (np_argsort similarities)).

(** The loop over [top_indices]: [self.texts[idx]] is read only for an
    index that passes the threshold.  The test [similarities[idx] > 0.3]
    is on exact values here and on rounded floats in the code, so the two
    can part at a similarity that rounds to the threshold; the theorems on
    this method are about when it is reached and what it calls, not about
    which records pass. *)
Fixpoint collect_similar (similarities : list Q) (texts : list string)
  (indices : list nat) : exn + list string :=
  match indices with
  | [] => inr []
  | idx :: rest =>
      if Qgt_bool (at_index similarities idx) (3 # 10) then
        match texts !! idx with
        | None => inl (IndexError "list index out of range")
        | Some text =>
            let? similar_responses := collect_similar similarities texts rest in
            inr (text :: similar_responses)
        end
      else collect_similar similarities texts rest
  end.

(** [_find_similar_responses]; [context] is not read. *)
Definition _find_similar_responses (input_text context : string)
  : M t event (list string) :=
  let* self := get in
  match sentence_model self with
  | None => ret []
  | Some model =>
      let* size := lift (embeddings_size (embeddings self)) in
      if (size =? 0)%nat then ret []
      else
        let* _ := emit CallEncode in
        let* input_embedding := lift (encode model [input_text]) in
        let* similarities :=
          lift (np_dot_T (embeddings_rows (embeddings self)) input_embedding) in
        lift (collect_similar similarities (texts self) (top_indices similarities))
  end.

(** [_build_personality_prompt] *)
Definition _build_personality_prompt (mood : string) : string :=
  let base_prompt := "You are responding as the user's digital twin. " in
  let mood_modifiers : gmap string string :=
    <[ "default" := "" ]>
    (<[ "energetic" := "Be more enthusiastic and high-energy in your response. " ]>
    (<[ "savage" := "Be more sarcastic and witty. Don't hold back. " ]>
    (<[ "unhinged" := "Be chaotic and unpredictable. Embrace the chaos. " ]>
    (<[ "professional" := "Be more formal and business-like. " ]>
    (<[ "casual" := "Be more relaxed and informal. " ]> ∅))))) in
  base_prompt +:+ default "" (mood_modifiers !! mood).

(** The emoji of the fallback table, in UTF-8. *)
Definition fire : string := string_of_list_ascii ["240"; "159"; "148"; "165"]%char.
Definition hundred : string := string_of_list_ascii ["240"; "159"; "146"; "175"]%char.
Definition rocket : string := string_of_list_ascii ["240"; "159"; "154"; "128"]%char.
Definition dizzy_face : string :=
  string_of_list_ascii
    ["240"; "159"; "152"; "181"; "226"; "128"; "141"; "240"; "159"; "146"; "171"]%char.
Definition exploding_head : string :=
  string_of_list_ascii ["240"; "159"; "164"; "175"]%char.
Definition collision : string := string_of_list_ascii ["240"; "159"; "146"; "165"]%char.

(** [_generate_fallback_response]; [input_text] is not read. *)
Definition _generate_fallback_response (input_text mood : string) : string :=
  let default_responses := ["Got it!"; "Sure thing!"; "Makes sense."] in
  let responses : gmap string (list string) :=
    <[ "default" := default_responses ]>
    (<[ "energetic" := ["YES! " +:+ fire; "Absolutely! " +:+ hundred;
                        "Let's go! " +:+ rocket] ]>
    (<[ "savage" := ["Obviously."; "Duh."; "Sure, whatever."] ]>
    (<[ "unhinged" := [dizzy_face; exploding_head; collision] ]>
    (<[ "professional" := ["Understood."; "I'll take care of that."; "Noted."] ]>
    (<[ "casual" := ["Cool!"; "Got it!"; "Sounds good!"] ]> ∅))))) in
  let mood_responses := default default_responses (responses !! mood) in
  np_random_choice mood_responses.

Definition newline : string := String "010"%char EmptyString.

(** [_generate_with_personality].  The profile is one that [__init__]
    or [_extract_personality_traits] made, so each [.get] below is on
    a dictionary. *)
Definition _generate_with_personality (input_text context mood : string)
  (similar_responses : list string) : M t event string :=
  let* self := get in
  let personality_prompt := _build_personality_prompt mood in
  let context_examples :=
    match similar_responses with
    | [] => ""
    | _ => join newline (take 3 similar_responses)
    end in
  let primary (category : string) :=
    get_or "primary" (PStr "neutral")
      (get_dict category (personality_profile self)) in
  let prompt :=
    {| personality_prompt := personality_prompt;
       primary_humor := primary "humor_type";
       primary_formality := primary "formality_level";
       primary_energy := primary "energy_level";
       emoji_usage :=
         match get_or "frequent_user" (PBool false)
                 (get_dict "emoji_preference" (personality_profile self)) with
         | PBool true => "Frequent"
         | _ => "Occasional"
         end;
       context_examples := context_examples;
       prompt_context := context;
       prompt_input := input_text |} in
  try_except
    (let* _ := emit CallChatCompletion in
     let* content := lift (ChatCompletion_create prompt) in
     ret (strip content))
    (fun e => ret (_generate_fallback_response input_text mood)).

Definition still_learning : string :=
  "I'm still learning your personality. Please train me first!".

Definition trouble_responding : string :=
  "Sorry, I'm having trouble responding right now.".

(** [generate_response] *)
Definition generate_response (input_text context mood : string)
  : M t event string :=
  let* self := get in
  if negb (trained self) then ret still_learning
  else
    try_except
      (let* similar_responses := _find_similar_responses input_text context in
       let* response :=
         _generate_with_personality input_text context mood similar_responses in
       ret response)
      (fun e => ret trouble_responding).

(** [get_personality_profile] *)
Definition get_personality_profile (self : t) : pyval := personality_profile self.

(** [get_style_patterns] *)
Definition get_style_patterns (self : t) : pyval := style_patterns self.

End Methods.

End PersonalityEngine.

(** ** response_engine/intent_classifier.py *)

Module IntentClassifier.
Import Py PyStr.

(** U+1F604 and U+1F602 in UTF-8. *)
Definition grin : string := string_of_list_ascii ["240"; "159"; "152"; "132"]%char.
Definition joy : string := string_of_list_ascii ["240"; "159"; "152"; "130"]%char.

(** [self.intent_patterns], in the order the categories are written. *)
Definition intent_patterns : list (string * list string) :=
  [ ("greeting",
      [ "hi"; "hello"; "hey"; "sup"; "what's up"; "howdy";
        "good morning"; "good afternoon"; "good evening" ]);
    ("question",
      [ "\?"; "what"; "how"; "why"; "when"; "where"; "who";
        "can you"; "could you"; "would you"; "do you" ]);
    ("request",
      [ "please"; "can you"; "could you"; "would you mind";
        "i need"; "i want"; "help me"; "assist" ]);
    ("compliment",
      [ "you're great"; "you're awesome"; "you're amazing";
        "thank you"; "thanks"; "appreciate"; "love it" ]);
    ("complaint",
      [ "problem"; "issue"; "wrong"; "broken"; "doesn't work";
        "annoying"; "frustrated"; "angry"; "upset" ]);
    ("casual",
      [ "lol"; "haha"; grin; joy; "cool"; "nice"; "awesome";
        "yeah"; "sure"; "okay"; "whatever" ]);
    ("urgent",
      [ "asap"; "urgent"; "emergency"; "now"; "quick";
        "important"; "critical"; "immediately" ]) ].

Record IntentContext := {
  is_question : bool;
  has_emoji : bool;
  is_caps : bool;
  length : nat;
  platform : string;
  sender_known : bool
}.

Record Intent := {
  type : string;
  confidence : Q;
  scores : list (string * nat);
  context : option IntentContext
}.

(** [max(intent_scores, key=intent_scores.get)]: the first key with
    the largest score. *)
Fixpoint arg_max (best : string * nat) (rest : list (string * nat)) : string * nat :=
  match rest with
  | [] => best
  | kv :: rest' => arg_max (if (best.2 <? kv.2)%nat then kv else best) rest'
  end.

Definition is_upper_ascii (c : ascii) : bool :=
  let n := nat_of_ascii c in (65 <=? n)%nat && (n <=? 90)%nat.

Definition is_lower_ascii (c : ascii) : bool :=
  let n := nat_of_ascii c in (97 <=? n)%nat && (n <=? 122)%nat.

(** [s.isupper()] on ASCII text: some letter, and no lower-case one. *)
Definition isupper (s : string) : bool :=
  let cs := list_ascii_of_string s in
  existsb is_upper_ascii cs && negb (existsb is_lower_ascii cs).

(** The character class of the emoji test, as written in the source. *)
Definition emoji_class : string :=
  "[\U0001F600-\U0001F64F\U0001F300-\U0001F5FF\U0001F680-\U0001F6FF\U0001F1E0-\U0001F1FF\U00002600-\U000027BF]".

(** [classify_intent].  On a message of text fields the body raises
    nothing, so the [except] branch, which answers with type "unknown",
    is not taken. *)
Definition classify_intent `{Regex} (message : Message) : Intent :=
  let content := lower (msg_get "content" message) in
  let sender := msg_get "sender" message in
  let platform := msg_get "platform" message in
  let intent_scores :=
    map (fun '(intent, patterns) =>
           (intent,
            List.length (List.filter (fun pattern => re_search_i pattern content) patterns)))
        intent_patterns in
  let best :=
    match intent_scores with
    | [] => ("unknown", 0%nat)
    | kv :: rest => arg_max kv rest
    end in
  let max_score := best.2 in
  {| type := best.1;
     confidence := Qmin (inject_Z (Z.of_nat max_score) / 3) 1;
     scores := intent_scores;
     context :=
       Some {| is_question := contains "?" content;
               has_emoji := re_search emoji_class content;
               is_caps := isupper content;
               length := String.length content;
               platform := platform;
               sender_known := negb (String.eqb sender "") |} |}.

End IntentClassifier.

(** ** response_engine/response_generator.py *)

Module ResponseGenerator.
Import Py PyStr Np.
Import PersonalityEngine(External).
Import IntentClassifier(Intent).
Local Open Scope py_scope.

(** [log_entry] *)
Record LogEntry := {
  log_timestamp : string;
  log_platform : string;
  log_original_message : Message;
  log_response : string;
  log_intent : Intent;
  log_mood : string;
  log_auto_reply : bool
}.

(** The generator.  The intent classifier and the tone matcher have no
    state of their own; the personality engine and the safety monitor are
    [None] until their setters are called. *)
Record t `{External} := {
  personality_engine : option PersonalityEngine.t;
  safety_monitor : option SafetyMonitor.t;
  auto_reply_enabled : bool;
  override_required : bool;
  current_mood : string;
  response_history : list LogEntry
}.

(** The dictionary returned by [process_incoming_message]; a field is
    [None] when the key is absent. *)
Record Reply := {
  action : string;
  reason : option string;
  intent : option Intent;
  response : option string;
  error : option string;
  message : Message
}.

Section Methods.
Context `{External} `{Numpy} `{Regex}.

(** [__init__] *)
Definition init : t :=
  {| personality_engine := None;
     safety_monitor := None;
     auto_reply_enabled := false;
     override_required := false;
     current_mood := "default";
     response_history := [] |}.

Definition set_personality_engine (engine : PersonalityEngine.t) (self : t) : t :=
  {| personality_engine := Some engine;
     safety_monitor := safety_monitor self;
     auto_reply_enabled := auto_reply_enabled self;
     override_required := override_required self;
     current_mood := current_mood self;
     response_history := response_history self |}.

Definition set_safety_monitor (monitor : SafetyMonitor.t) (self : t) : t :=
  {| personality_engine := personality_engine self;
     safety_monitor := Some monitor;
     auto_reply_enabled := auto_reply_enabled self;
     override_required := override_required self;
     current_mood := current_mood self;
     response_history := response_history self |}.

(** [enable_auto_reply] *)
Definition enable_auto_reply (enabled : bool) (self : t) : t :=
  {| personality_engine := personality_engine self;
     safety_monitor := safety_monitor self;
     auto_reply_enabled := enabled;
     override_required := override_required self;
     current_mood := current_mood self;
     response_history := response_history self |}.

(** [require_override] *)
Definition require_override (required : bool) (self : t) : t :=
  {| personality_engine := personality_engine self;
     safety_monitor := safety_monitor self;
     auto_reply_enabled := auto_reply_enabled self;
     override_required := required;
     current_mood := current_mood self;
     response_history := response_history self |}.

(** [set_mood] *)
Definition set_mood (mood : string) (self : t) : t :=
  let valid_moods :=
    ["default"; "energetic"; "savage"; "unhinged"; "professional"; "casual"] in
  {| personality_engine := personality_engine self;
     safety_monitor := safety_monitor self;
     auto_reply_enabled := auto_reply_enabled self;
     override_required := override_required self;
     current_mood := if list_in mood valid_moods then mood else "default";
     response_history := response_history self |}.

Definition set_response_history (history : list LogEntry) (self : t) : t :=
  {| personality_engine := personality_engine self;
     safety_monitor := safety_monitor self;
     auto_reply_enabled := auto_reply_enabled self;
     override_required := override_required self;
     current_mood := current_mood self;
     response_history := history |}.

(** [clear_history] *)
Definition clear_history (self : t) : t := set_response_history [] self.

(** [_generate_response]; the call is recorded on entry. *)
Definition _generate_response (message : Message) (intent : Intent)
  (platform : string) : M t event string :=
  let* _ := emit CallGenerateResponse in
  let* self := get in
  match personality_engine self with
  | None => ret "I'm still learning how to respond like you!"
  | Some engine =>
      let content := msg_get "content" message in
      let sender := msg_get "sender" message in
      let context := msg_get "context" message in
      let tone :=
        ToneMatcher.determine_tone (IntentClassifier.type intent) context sender in
      let* response :=
        zoom (fun _ => engine) set_personality_engine
          (PersonalityEngine.generate_response content context (current_mood self)) in
      let adjusted_response := ToneMatcher.apply_tone response tone in
      ret adjusted_response
  end.

(** [_send_response]: the call is recorded; the body only writes to
    the log of the process. *)
Definition _send_response (response platform : string)
  (original_message : Message) : M t event unit :=
  emit CallSendResponse.

(** [_log_response]; [now] is [datetime.now().isoformat()]. *)
Definition _log_response (original_message : Message) (response : string)
  (intent : Intent) (platform now : string) (self : t) : t :=
  let log_entry :=
    {| log_timestamp := now;
       log_platform := platform;
       log_original_message := original_message;
       log_response := response;
       log_intent := intent;
       log_mood := current_mood self;
       log_auto_reply := auto_reply_enabled self |} in
  let response_history := response_history self ++ [log_entry] in
  let response_history :=
    if (1000 <? length response_history)%nat then last_n 1000 response_history
    else response_history in
  set_response_history response_history self.

(** [process_incoming_message]; [now_safety] and [now_log] are the
    two readings of the clock, in the safety monitor and in
    [_log_response]. *)
Definition process_incoming_message (message : Message)
  (platform now_safety now_log : string) : M t event Reply :=
  try_except
    (let intent := IntentClassifier.classify_intent message in
     let* self := get in
     if negb (auto_reply_enabled self) then
       ret {| action := "manual_review";
              reason := Some "Auto-reply disabled";
              intent := Some intent;
              response := None;
              error := None;
              message := message |}
     else
       let* response := _generate_response message intent platform in
       let* safety_check :=
         match safety_monitor self with
         | Some monitor =>
             let* safety_check :=
               zoom (fun _ => monitor) set_safety_monitor
                 (SafetyMonitor.check_response response message now_safety) in
             ret (Some safety_check)
         | None => ret None
         end in
       match safety_check with
       | Some {| SafetyMonitor.safe := false; SafetyMonitor.reason := why |} =>
           ret {| action := "manual_review";
                  reason := Some ("Safety concern: " +:+ why);
                  intent := Some intent;
                  response := Some response;
                  error := None;
                  message := message |}
       | _ =>
           let* self := get in
           if override_required self then
             ret {| action := "manual_approval";
                    reason := None;
                    intent := Some intent;
                    response := Some response;
                    error := None;
                    message := message |}
           else
             let* _ := _send_response response platform message in
             let* _ := modify (_log_response message response intent platform now_log) in
             ret {| action := "sent";
                    reason := None;
                    intent := Some intent;
                    response := Some response;
                    error := None;
                    message := message |}
       end)
    (fun e =>
       ret {| action := "error";
              reason := None;
              intent := None;
              response := None;
              error := Some (exn_str e);
              message := message |}).

(** The dictionary of [get_response_stats] when there are responses. *)
Record ResponseStats := {
  total_responses : nat;
  platforms : gmap string nat;
  intents : gmap string nat;
  moods : gmap string nat;
  auto_reply_rate : Q
}.

(** [get_response_stats]: [None] stands for the dictionary
    [{"total_responses": 0}] returned when the history is empty.  Every
    entry was written by [_log_response], so the defaults of the [.get]
    calls on an entry are not used. *)
Definition get_response_stats (self : t) : option ResponseStats :=
  match response_history self with
  | [] => None
  | _ =>
      let total := length (response_history self) in
      let count_by (key : LogEntry -> string) :=
        foldl (fun counts entry => SafetyMonitor.count_up counts (key entry))
          ∅ (response_history self) in
      Some {| total_responses := total;
              platforms := count_by log_platform;
              intents := count_by (fun entry => IntentClassifier.type (log_intent entry));
              moods := count_by log_mood;
              auto_reply_rate :=
                (inject_Z (Z.of_nat (length (List.filter log_auto_reply
                                               (response_history self))))
                 / inject_Z (Z.of_nat total))%Q |}
  end.

(** [get_recent_responses]: [self.response_history[-limit:]] *)
Definition get_recent_responses (limit : Z) (self : t) : list LogEntry :=
  slice_from (- limit) (response_history self).

(** [generate_test_response]; [mood] is [None] for the default argument,
    and an empty mood counts as false in [mood if mood else ...]. *)
Definition generate_test_response (test_input context : string)
  (mood : option string) : M t event string :=
  let* self := get in
  match personality_engine self with
  | None => ret "Personality engine not available"
  | Some engine =>
      let response_mood :=
        match mood with
        | Some m => if String.eqb m "" then current_mood self else m
        | None => current_mood self
        end in
      let* response :=
        zoom (fun _ => engine) set_personality_engine
          (PersonalityEngine.generate_response test_input context response_mood) in
      ret response
  end.

End Methods.

End ResponseGenerator.

(** ** api/platform_integrations.py *)

Module PlatformManager.
Import Py.

(** [connected_platforms] is a dictionary from platform names to the
    record of the connection; its keys keep the order of insertion. *)
Record t := {
  connected_platforms : list (string * pyval);
  platform_configs : list (string * pyval)
}.

(** [__init__] *)
Definition init : t := {| connected_platforms := []; platform_configs := [] |}.

(** [k in d] *)
Definition dict_has (k : string) (d : list (string * pyval)) : bool :=
  existsb (fun kv => String.eqb k kv.1) d.

(** [del d[k]] for a key that is there. *)
Fixpoint dict_del (k : string) (d : list (string * pyval)) : list (string * pyval) :=
  match d with
  | [] => []
  | (k', v) :: rest => if String.eqb k k' then rest else (k', v) :: dict_del k rest
  end.

(** [get_connected_platforms] *)
Definition get_connected_platforms (self : t) : list string :=
  map fst (connected_platforms self).

(** [connect_platform]; [now] is [datetime.now().isoformat()].  The
    body raises nothing, so the answer is [True]. *)
Definition connect_platform (platform : string) (config : pyval) (now : string)
  (self : t) : bool * t :=
  (true,
   {| connected_platforms :=
        dict_set platform
          (PDict [ ("connected", PBool true); ("connected_at", PStr now);
                   ("config", config) ])
          (connected_platforms self);
      platform_configs := platform_configs self |}).

(** [disconnect_platform] *)
Definition disconnect_platform (platform : string) (self : t) : bool * t :=
  if dict_has platform (connected_platforms self)
  then (true,
        {| connected_platforms := dict_del platform (connected_platforms self);
           platform_configs := platform_configs self |})
  else (false, self).

(** [send_message]: the message itself is only written to the log of
    the process. *)
Definition send_message (platform message : string) (context : Message) (self : t)
  : bool :=
  dict_has platform (connected_platforms self).

(** The calls that change a platform manager. *)
Inductive call :=
| Connect (platform : string) (config : pyval) (now : string)
| Disconnect (platform : string).

Definition step (self : t) (c : call) : t :=
  match c with
  | Connect platform config now => (connect_platform platform config now self).2
  | Disconnect platform => (disconnect_platform platform self).2
  end.

(** The state after a sequence of calls on a fresh manager. *)
Definition run (calls : list call) : t := foldl step init calls.

End PlatformManager.

(** * Properties *)

(** ** The tone matcher *)

Module ToneMatcherFacts.
Import PyStr ToneMatcher.

(** The adjustment lists of the table: none of them has one of the five
    tone words as an entry. *)
Definition no_tone_word (adjustments : list string) : bool :=
  negb (list_in "formal" adjustments) && negb (list_in "casual" adjustments)
  && negb (list_in "professional" adjustments)
  && negb (list_in "friendly" adjustments) && negb (list_in "urgent" adjustments).

Lemma tone_patterns_adjustments (tone : string) (tone_config : ToneConfig) :
  tone_patterns !! tone = Some tone_config ->
  no_tone_word (adjustments tone_config) = true.
Proof.
  unfold tone_patterns. intros Hlook.
  repeat (apply lookup_insert_Some in Hlook as [[_ <-] | [_ Hlook]];
          [reflexivity |]).
  rewrite lookup_empty in Hlook. discriminate.
Qed.

(** Every test of [apply_tone] fails, whatever the tone: the response
    comes back as it went in. *)
Lemma apply_tone_unchanged (response tone : string) :
  apply_tone response tone = response.
Proof.
  unfold apply_tone.
  destruct (String.eqb tone "neutral"); [reflexivity |].
  destruct (tone_patterns !! tone) as [tone_config |] eqn:Hlook;
    [| reflexivity].
  apply tone_patterns_adjustments in Hlook.
  unfold no_tone_word in Hlook.
  repeat (apply andb_prop in Hlook as [Hlook ?]).
  repeat match goal with
         | H : negb ?b = true |- _ => apply negb_true_iff in H; rewrite H
         end.
  reflexivity.
Qed.

(** C5, where the code departs from it: on a response that calls for
    the edit of its tone, [apply_tone] makes none.  A formal response
    gets no greeting, a casual one keeps "Hello" and "Thank you", a
    professional one keeps "lol", a friendly one gets no emoji and an
    urgent one no exclamation mark. *)
Theorem apply_tone_makes_no_edit :
  apply_tone "how are you" "formal" = "how are you" /\
  apply_tone "Hello. Thank you" "casual" = "Hello. Thank you" /\
  apply_tone "ok lol" "professional" = "ok lol" /\
  apply_tone "nice to see you" "friendly" = "nice to see you" /\
  apply_tone "help" "urgent" = "help".
Proof. repeat split; vm_compute; reflexivity. Qed.

(** C6: [apply_tone] is idempotent, for every response and every tone. *)
Theorem apply_tone_idempotent (x t : string) :
  apply_tone (apply_tone x t) t = apply_tone x t.
Proof. rewrite !apply_tone_unchanged. reflexivity. Qed.

End ToneMatcherFacts.

(** ** The consent manager *)

Module ConsentManagerFacts.
Import Py ConsentManager.

(** The claim as the specification words it: in every state that calls of
    [add_consent] and [remove_consent] can reach, a message with an empty
    sender is not consented. *)
Definition empty_sender_never_consented : Prop :=
  forall (calls : list call) (message : Message),
    msg_get "sender" message = "" ->
    consented (check_consent (run calls) message) = false.

(** The explicit opt-in set is consulted before the sender is looked at. *)
Lemma check_consent_opted_in (self : t) (message : Message) :
  msg_get "sender" message ∈ consented_contacts self ->
  check_consent self message =
    {| consented := true; reason := "Sender has previously consented" |}.
Proof.
  intros Hin. unfold check_consent.
  rewrite bool_decide_eq_true_2 by exact Hin. reflexivity.
Qed.

Lemma check_consent_empty_sender (self : t) (message : Message) :
  msg_get "sender" message = "" ->
  "" ∉ consented_contacts self ->
  check_consent self message = {| consented := false; reason := "Unknown sender" |}.
Proof.
  intros Hsender Hout. unfold check_consent. rewrite Hsender.
  rewrite bool_decide_eq_false_2 by exact Hout. reflexivity.
Qed.

(** The calls that opt the sender in: [add_consent] with that sender. *)
Definition opts_in (sender : string) (c : call) : Prop :=
  match c with
  | AddConsent sender' _ _ => sender' = sender
  | RemoveConsent _ _ => False
  end.

Lemma step_consented (self : t) (c : call) (sender : string) :
  sender ∈ consented_contacts (step self c) ->
  opts_in sender c \/ sender ∈ consented_contacts self.
Proof.
  destruct c as [sender' platform now | sender' now]; simpl; intros Hin.
  - apply elem_of_union in Hin as [Hin | Hin]; [| right; exact Hin].
    apply elem_of_singleton in Hin. left. symmetry. exact Hin.
  - apply elem_of_difference in Hin as [Hin _]. right. exact Hin.
Qed.

Lemma foldl_step_consented (calls : list call) (self : t) (sender : string) :
  sender ∈ consented_contacts (foldl step self calls) ->
  Exists (opts_in sender) calls \/ sender ∈ consented_contacts self.
Proof.
  revert self. induction calls as [| c calls IH]; intros self Hin; simpl in *.
  - right. exact Hin.
  - apply IH in Hin as [Hex | Hin].
    + left. apply Exists_cons_tl. exact Hex.
    + apply step_consented in Hin as [Hc | Hin].
      * left. apply Exists_cons_hd. exact Hc.
      * right. exact Hin.
Qed.

(** A sender is in the opt-in set only if some call opted it in. *)
Lemma run_consented (calls : list call) (sender : string) :
  sender ∈ consented_contacts (run calls) -> Exists (opts_in sender) calls.
Proof.
  intros Hin. apply foldl_step_consented in Hin as [Hex | Hin]; [exact Hex |].
  simpl in Hin. set_solver.
Qed.

(** C9 as stated fails: after [add_consent("")] a message with an empty
    sender is consented, on a platform outside the default list too. *)
Lemma empty_sender_consented_after_opt_in :
  consented
    (check_consent (run [AddConsent "" "" "2024-01-01T00:00:00"])
       (<[ "sender" := "" ]> (<[ "platform" := "sms" ]> ∅)))
  = true
  /\ ~ empty_sender_never_consented.
Proof.
  assert (Hrun : consented
    (check_consent (run [AddConsent "" "" "2024-01-01T00:00:00"])
       (<[ "sender" := "" ]> (<[ "platform" := "sms" ]> ∅))) = true).
  { rewrite check_consent_opted_in; [reflexivity |].
    unfold msg_get. rewrite lookup_insert_eq. simpl. set_solver. }
  split; [exact Hrun |].
  intros Hclaim.
  rewrite Hclaim in Hrun; [discriminate |].
  unfold msg_get. rewrite lookup_insert_eq. reflexivity.
Qed.

(** C9, amended: in every reachable state whose opt-in set does not hold
    the empty string, and so in every state reached without a call of
    [add_consent("")], a message with an empty sender is reported as not
    consented ("Unknown sender"), whatever its platform. *)
Theorem empty_sender_not_consented (calls : list call) (message : Message) :
  msg_get "sender" message = "" ->
  "" ∉ consented_contacts (run calls) \/ ~ Exists (opts_in "") calls ->
  check_consent (run calls) message =
    {| consented := false; reason := "Unknown sender" |}.
Proof.
  intros Hsender Hout.
  apply check_consent_empty_sender; [exact Hsender |].
  destruct Hout as [Hout | Hnever]; [exact Hout |].
  intros Hin. apply Hnever. apply run_consented. exact Hin.
Qed.

Lemma empty_sender_not_consented_witness :
  check_consent
    (run [ AddConsent "alice" "discord" "2024-01-01T00:00:00";
           RemoveConsent "bob" "2024-01-02T00:00:00" ])
    (<[ "sender" := "" ]> (<[ "platform" := "discord" ]> ∅))
  = {| consented := false; reason := "Unknown sender" |}.
Proof.
  apply empty_sender_not_consented.
  - reflexivity.
  - left. vm_compute. intros H. discriminate H.
Defined.

End ConsentManagerFacts.


(** ** Bounded logs *)

Module BoundedLog.
Import Py.

(** One append to a log kept to its last [n] entries: what
    [_log_response] and [_log_safety_event] do to their lists, with
    [n = 1000]. *)
Definition append_bounded {A} (n : nat) (log : list A) (entry : A) : list A :=
  let log := log ++ [entry] in
  if (n <? length log)%nat then last_n n log else log.

Lemma append_bounded_last_n {A} (n : nat) (log : list A) (entry : A) :
  append_bounded n log entry = last_n n (log ++ [entry]).
Proof.
  unfold append_bounded, last_n.
  destruct (Nat.ltb_spec n (length (log ++ [entry]))) as [Hlt | Hge];
    [reflexivity |].
  replace (length (log ++ [entry]) - n)%nat with 0%nat by lia. reflexivity.
Qed.

Lemma last_n_app_last_n {A} (n : nat) (l1 l2 : list A) :
  (length l2 <= n)%nat ->
  last_n n (last_n n l1 ++ l2) = last_n n (l1 ++ l2).
Proof.
  intros Hl2. unfold last_n.
  rewrite !length_app, length_drop.
  destruct (Nat.le_gt_cases (length l1) n) as [Hle | Hgt].
  - replace (length l1 - n)%nat with 0%nat by lia. rewrite drop_0.
    f_equal. lia.
  - replace (length l1 - (length l1 - n) + length l2 - n)%nat
      with (length l2) by lia.
    replace (length l1 + length l2 - n)%nat
      with ((length l1 - n) + length l2)%nat by lia.
    rewrite <- drop_drop.
    rewrite (drop_app_le l1 l2 (length l1 - n)) by lia.
    reflexivity.
Qed.

(** Appending the entries one by one, each time cutting the log back to
    [n], leaves the last [n] of everything that was ever in the log. *)
Lemma foldl_append_bounded {A} (n : nat) (entries log : list A) :
  (0 < n)%nat ->
  foldl (append_bounded n) (last_n n log) entries = last_n n (log ++ entries).
Proof.
  intros Hn. revert log.
  induction entries as [| entry entries IH]; intros log; simpl.
  - rewrite app_nil_r. reflexivity.
  - rewrite append_bounded_last_n.
    rewrite last_n_app_last_n by (simpl; lia).
    rewrite IH. rewrite <- app_assoc. reflexivity.
Qed.

Lemma last_n_length {A} (n : nat) (l : list A) :
  length (last_n n l) = Nat.min n (length l).
Proof. unfold last_n. rewrite length_drop. lia. Qed.

Lemma last_n_all {A} (n : nat) (l : list A) :
  (length l <= n)%nat -> last_n n l = l.
Proof.
  intros Hle. unfold last_n.
  replace (length l - n)%nat with 0%nat by lia. reflexivity.
Qed.

End BoundedLog.

(** ** The safety monitor *)

Module SafetyMonitorFacts.
Import Py PyStr SafetyMonitor.

(** The reason the specification asks for: that of the last check, in
    the order given, that failed; empty when none did.  A check is given
    as its verdict and the reason it would report. *)
Definition last_failing_reason (checks : list (bool * string)) : string :=
  default "" (last (map snd (List.filter (fun c => negb c.1) checks))).

(** The flags: the names of the failed checks, in order. *)
Definition failed_flags (checks : list (bool * string)) : list string :=
  map snd (List.filter (fun c => negb c.1) checks).

(** C7: [check_response] calls the four checks, all of them and in the
    order redlines, content filter, consent, relationship risk, whatever
    they answer; its verdict is safe exactly when the four are, its reason
    is that of the last failing check, and the event is logged. *)
Theorem check_response_runs_all_checks `{Regex} (self : t) (response : string)
  (original_message : Message) (now : string) :
  let redline_check := _check_redlines self response in
  let content_check := ContentFilter.check_content response in
  let consent_check :=
    ConsentManager.check_consent (consent_manager self) original_message in
  let relationship_check := _check_relationship_risks response original_message in
  let '(outcome, self', calls) := check_response response original_message now self in
  calls = [ CallCheck CkRedlines; CallCheck CkContent;
            CallCheck CkConsent; CallCheck CkRelationship ]
  /\ exists verdict,
      outcome = inr verdict
      /\ safe verdict =
           ck_safe redline_check && ContentFilter.safe content_check
           && ConsentManager.consented consent_check && ck_safe relationship_check
      /\ (safe verdict = false <->
            ck_safe redline_check = false \/ ContentFilter.safe content_check = false
            \/ ConsentManager.consented consent_check = false
            \/ ck_safe relationship_check = false)
      /\ reason verdict =
           last_failing_reason
             [ (ck_safe redline_check,
                 "Redline violation: " +:+ ck_reason redline_check);
               (ContentFilter.safe content_check,
                 "Content filter: " +:+ ContentFilter.reason content_check);
               (ConsentManager.consented consent_check,
                 "Consent issue: " +:+ ConsentManager.reason consent_check);
               (ck_safe relationship_check,
                 "Relationship risk: " +:+ ck_reason relationship_check) ]
      /\ flags verdict =
           failed_flags
             [ (ck_safe redline_check, "redline");
               (ContentFilter.safe content_check, "content");
               (ConsentManager.consented consent_check, "consent");
               (ck_safe relationship_check, "relationship") ]
      /\ self' = _log_safety_event self response original_message verdict now.
Proof.
  intros redline_check content_check consent_check relationship_check.
  unfold check_response, try_except, bind, get, emit, modify, ret.
  fold redline_check content_check consent_check relationship_check.
  destruct (ck_safe redline_check), (ContentFilter.safe content_check),
    (ConsentManager.consented consent_check), (ck_safe relationship_check);
    simpl; (split; [reflexivity |]); eexists;
    (split; [reflexivity |]); simpl;
    (split; [reflexivity |]); (split; [| auto]);
    split; intros Hfail; try discriminate; auto;
    repeat destruct Hfail as [Hfail | Hfail]; discriminate.
Qed.

End SafetyMonitorFacts.

(** ** Sorting *)

Module SortFacts.
Import Py Np.

Section InsertionSort.
Context {A : Type} (le : A -> A -> bool).

Lemma insert_by_perm (x : A) (l : list A) : insert_by le x l ≡ₚ x :: l.
Proof.
  induction l as [| y l IH]; simpl; [reflexivity |].
  destruct (le x y); [reflexivity |].
  rewrite IH. apply Permutation_swap.
Qed.

Lemma sort_by_perm (l : list A) : sort_by le l ≡ₚ l.
Proof.
  induction l as [| x l IH]; simpl; [reflexivity |].
  rewrite insert_by_perm, IH. reflexivity.
Qed.

Lemma sort_by_length (l : list A) : length (sort_by le l) = length l.
Proof. apply Permutation_length, sort_by_perm. Qed.

(** When [le] decides a total relation [R], insertion keeps a sorted
    list sorted. *)
Context (R : relation A).
Hypothesis le_sound : forall x y, le x y = true -> R x y.
Hypothesis le_total : forall x y, le x y = false -> R y x.

Lemma insert_by_hd (x z : A) (l : list A) :
  R z x -> HdRel R z l -> HdRel R z (insert_by le x l).
Proof.
  intros Hzx Hhd. destruct l as [| y l]; simpl.
  - constructor. exact Hzx.
  - destruct (le x y); constructor; [exact Hzx |].
    inversion Hhd; assumption.
Qed.

Lemma insert_by_sorted (x : A) (l : list A) :
  Sorted R l -> Sorted R (insert_by le x l).
Proof.
  induction l as [| y l IH]; intros Hsorted; simpl.
  - repeat constructor.
  - destruct (le x y) eqn:Hle.
    + constructor; [exact Hsorted |]. constructor. apply le_sound, Hle.
    + inversion Hsorted as [| ? ? Htail Hhd]; subst.
      constructor; [apply IH, Htail |].
      apply insert_by_hd; [apply le_total, Hle | exact Hhd].
Qed.

Lemma sort_by_sorted (l : list A) : Sorted R (sort_by le l).
Proof.
  induction l as [| x l IH]; simpl; [constructor |].
  apply insert_by_sorted, IH.
Qed.

End InsertionSort.

Lemma sort_desc_perm {A} (key : A -> Q) (l : list A) : sort_desc key l ≡ₚ l.
Proof. apply sort_by_perm. Qed.

Lemma Qle_bool_total (x y : Q) : Qle_bool x y = false -> (y <= x)%Q.
Proof.
  intros Hle. apply Qlt_le_weak. apply Qnot_le_lt. intros Hxy.
  apply Qle_bool_iff in Hxy. congruence.
Qed.

Lemma argsort_stable_perm (a : list Q) :
  argsort_stable a ≡ₚ seq 0 (length a).
Proof. apply sort_by_perm. Qed.

Lemma argsort_stable_sorted (a : list Q) :
  Sorted Qle (map (at_index a) (argsort_stable a)).
Proof.
  apply (Sorted_fmap (at_index a) (fun i j => (at_index a i <= at_index a j)%Q) Qle).
  - intros i j Hij. exact Hij.
  - apply sort_by_sorted.
    + intros i j Hle. apply Qle_bool_iff, Hle.
    + intros i j Hle. apply Qle_bool_total, Hle.
Qed.

End SortFacts.

(** ** Instances of the external libraries, to run the code on examples *)

Module Instances.
Import Py PyStr Np PersonalityEngine.

(** The rational square root of a rational that has one, else the
    square root of its integer part: exact on the vectors of the examples. *)
Definition Qsqrt (q : Q) : Q :=
  let n := Z.sqrt (Qnum q) in
  let d := Z.sqrt (Zpos (Qden q)) in
  if andb (n * n =? Qnum q)%Z (d * d =? Zpos (Qden q))%Z
  then (inject_Z n / inject_Z d)%Q
  else inject_Z (Z.sqrt (Qnum q / Zpos (Qden q))).

(** numpy with a stable [argsort]. *)
#[export] Instance numpy_stable : Numpy :=
  {| np_argsort := argsort_stable;
     np_argsort_perm := SortFacts.argsort_stable_perm;
     np_argsort_sorted := SortFacts.argsort_stable_sorted;
     np_linalg_norm := fun v => Qsqrt (dot v v) |}.

(** A matcher that reads every pattern as a literal: right for the
    patterns without metacharacters. *)
#[export] Instance literal_regex : Regex :=
  {| re_search := fun pattern s => contains pattern s;
     re_search_i := fun pattern s => contains (lower pattern) (lower s);
     re_findall := fun pattern s => if contains pattern s then [pattern] else [] |}.

(** An embedding of two dimensions: how many times the text has the
    letter a, and the letter b. *)
Definition embed_text (text : string) : vec :=
  [inject_Z (Z.of_nat (count "a" text));
   inject_Z (Z.of_nat (count "b" text))].

(** Capabilities that all succeed. *)
#[export] Instance services_up : External :=
  {| Model := string;
     SentenceTransformer := fun name => inr name;
     encode := fun _ texts => inr (map embed_text texts);
     ChatCompletion_create := fun prompt => inr (" " +:+ prompt_input prompt +:+ " ");
     np_random_choice := fun l => default "" (head l) |}.

(** Capabilities that all fail. *)
Definition services_down : External :=
  {| Model := string;
     SentenceTransformer := fun _ => inl (ExternalError "model not available");
     encode := fun _ _ => inl (ExternalError "model not available");
     ChatCompletion_create := fun _ => inl (ExternalError "service not available");
     np_random_choice := fun l => default "" (head l) |}.

End Instances.

(** ** Recorded calls *)

Module MonadFacts.
Import Py.

Section Traces.
Context {S E : Type}.

(** A call recorded first by [m] is recorded first by what follows [m]. *)
Lemma bind_first_call {A B} (m : M S E A) (k : A -> M S E B) (s : S) (e : E)
  (calls : list E) :
  (m s).2 = e :: calls -> exists calls', (bind m k s).2 = e :: calls'.
Proof.
  unfold bind. destruct (m s) as [[[err | a] s1] t1]; simpl; intros ->.
  - eexists; reflexivity.
  - destruct (k a s1) as [[r s2] t2]; simpl. eexists; reflexivity.
Qed.

Lemma try_except_first_call {A} (body : M S E A) (handler : exn -> M S E A) (s : S)
  (e : E) (calls : list E) :
  (body s).2 = e :: calls -> exists calls', (try_except body handler s).2 = e :: calls'.
Proof.
  unfold try_except. destruct (body s) as [[[err | a] s1] t1]; simpl; intros ->.
  - destruct (handler err s1) as [[r s2] t2]; simpl. eexists; reflexivity.
  - eexists; reflexivity.
Qed.

(** The equations of the primitive steps. *)
Lemma bind_ret {A B} (a : A) (k : A -> M S E B) (s : S) :
  bind (ret a) k s = k a s.
Proof. unfold bind, ret. destruct (k a s) as [[r s2] t2]. reflexivity. Qed.

Lemma bind_get {A} (k : S -> M S E A) (s : S) : bind get k s = k s s.
Proof. unfold bind, get. destruct (k s s) as [[r s2] t2]. reflexivity. Qed.

Lemma bind_modify {A} (f : S -> S) (k : unit -> M S E A) (s : S) :
  bind (modify f) k s = k tt (f s).
Proof. unfold bind, modify. destruct (k tt (f s)) as [[r s2] t2]. reflexivity. Qed.

Lemma bind_emit {A} (e : E) (k : unit -> M S E A) (s : S) :
  bind (emit e) k s = let '(r, s2, t2) := k tt s in (r, s2, e :: t2).
Proof. reflexivity. Qed.

Lemma bind_lift_inr {A B} (a : A) (k : A -> M S E B) (s : S) :
  bind (lift (inr a)) k s = k a s.
Proof. unfold bind, lift. destruct (k a s) as [[r s2] t2]. reflexivity. Qed.

Lemma bind_lift_inl {A B} (e : exn) (k : A -> M S E B) (s : S) :
  bind (lift (inl e)) k s = (inl e, s, []).
Proof. reflexivity. Qed.

End Traces.

End MonadFacts.

(** ** The response generator *)

Module ResponseGeneratorFacts.
Import Py PyStr Np PersonalityEngine ResponseGenerator.

Section Pipeline.
Context `{External} `{Numpy} `{Regex}.

(** Entering [_generate_response] is always recorded. *)
Lemma _generate_response_recorded (self : ResponseGenerator.t) (message : Message)
  (intent : IntentClassifier.Intent) (platform : string) :
  exists calls,
    (_generate_response message intent platform self).2 = CallGenerateResponse :: calls.
Proof.
  unfold _generate_response.
  eapply MonadFacts.bind_first_call. reflexivity.
Qed.

(** With auto-reply enabled the pipeline does reach [_generate_response]. *)
Lemma auto_reply_enabled_generates (self : ResponseGenerator.t) (message : Message)
  (platform now_safety now_log : string) :
  auto_reply_enabled self = true ->
  exists calls,
    (process_incoming_message message platform now_safety now_log self).2
    = CallGenerateResponse :: calls.
Proof.
  intros Hon.
  destruct (_generate_response_recorded self message
              (IntentClassifier.classify_intent message) platform) as [calls Hcalls].
  unfold process_incoming_message.
  match goal with
  | |- exists _, (try_except ?body _ self).2 = _ =>
      assert (Hbody : exists c, (body self).2 = CallGenerateResponse :: c)
  end.
  { rewrite MonadFacts.bind_get. rewrite Hon. cbn [negb]. cbv iota.
    eapply MonadFacts.bind_first_call. exact Hcalls. }
  destruct Hbody as [c Hc].
  eapply MonadFacts.try_except_first_call. exact Hc.
Qed.

End Pipeline.

(** C1: with the auto-reply flag off, [process_incoming_message] answers
    "manual_review" with the reason "Auto-reply disabled", and records no
    call: neither [_generate_response] nor [_send_response] is entered, and
    no capability is used.  The state is left as it was. *)
Theorem auto_reply_disabled_manual_review `{External} `{Numpy} `{Regex}
  (self : ResponseGenerator.t) (message : Message)
  (platform now_safety now_log : string) :
  auto_reply_enabled self = false ->
  process_incoming_message message platform now_safety now_log self =
    (inr {| action := "manual_review";
            reason := Some "Auto-reply disabled";
            intent := Some (IntentClassifier.classify_intent message);
            response := None;
            error := None;
            message := message |},
     self, []).
Proof.
  intros Hoff.
  unfold process_incoming_message, try_except, bind, get, ret.
  rewrite Hoff. reflexivity.
Qed.

Lemma auto_reply_disabled_manual_review_witness :
  let message : Message := <[ "sender" := "alice" ]> (<[ "content" := "hey what's up!!" ]> ∅) in
  @process_incoming_message Instances.services_up Instances.numpy_stable
    Instances.literal_regex message "discord" "t1" "t2" ResponseGenerator.init =
    (inr {| action := "manual_review";
            reason := Some "Auto-reply disabled";
            intent := Some (@IntentClassifier.classify_intent Instances.literal_regex message);
            response := None;
            error := None;
            message := message |},
     ResponseGenerator.init, []).
Proof.
  intros message. apply auto_reply_disabled_manual_review. reflexivity.
Defined.

End ResponseGeneratorFacts.

(** ** The response history and the safety event log *)

Module LogFacts.
Import Py BoundedLog.

(** The entry that [_log_response] appends in state [self]. *)
Definition response_entry `{PersonalityEngine.External} (self : ResponseGenerator.t)
  (original_message : Message) (response : string)
  (intent : IntentClassifier.Intent) (platform now : string)
  : ResponseGenerator.LogEntry :=
  {| ResponseGenerator.log_timestamp := now;
     ResponseGenerator.log_platform := platform;
     ResponseGenerator.log_original_message := original_message;
     ResponseGenerator.log_response := response;
     ResponseGenerator.log_intent := intent;
     ResponseGenerator.log_mood := ResponseGenerator.current_mood self;
     ResponseGenerator.log_auto_reply := ResponseGenerator.auto_reply_enabled self |}.

(** [response_appends s0 entries s]: the generator went from [s0] to [s]
    by calls of [_log_response] that appended [entries], in this order,
    and by steps that leave the history alone (a new mood, a flag, a
    message that is not sent). *)
Inductive response_appends `{PersonalityEngine.External} (s0 : ResponseGenerator.t)
  : list ResponseGenerator.LogEntry -> ResponseGenerator.t -> Prop :=
| response_appends_start : response_appends s0 [] s0
| response_appends_log entries s original_message response intent platform now :
    response_appends s0 entries s ->
    response_appends s0
      (entries ++ [response_entry s original_message response intent platform now])
      (ResponseGenerator._log_response original_message response intent platform now s)
| response_appends_other entries s s' :
    response_appends s0 entries s ->
    ResponseGenerator.response_history s' = ResponseGenerator.response_history s ->
    response_appends s0 entries s'.

(** The event that [_log_safety_event] appends. *)
Definition safety_entry (response : string) (original_message : Message)
  (safety_result : SafetyMonitor.SafetyResult) (now : string)
  : SafetyMonitor.SafetyEvent :=
  {| SafetyMonitor.ev_timestamp := now;
     SafetyMonitor.ev_response := SafetyMonitor.truncated 200 response;
     SafetyMonitor.ev_original_message :=
       SafetyMonitor.truncated 100 (msg_get "content" original_message);
     SafetyMonitor.ev_sender := default "unknown" (original_message !! "sender");
     SafetyMonitor.ev_platform := default "unknown" (original_message !! "platform");
     SafetyMonitor.ev_safe := SafetyMonitor.safe safety_result;
     SafetyMonitor.ev_reason := SafetyMonitor.reason safety_result;
     SafetyMonitor.ev_flags := SafetyMonitor.flags safety_result |}.

(** The same for the monitor and [_log_safety_event]. *)
Inductive safety_appends (m0 : SafetyMonitor.t)
  : list SafetyMonitor.SafetyEvent -> SafetyMonitor.t -> Prop :=
| safety_appends_start : safety_appends m0 [] m0
| safety_appends_log events m response original_message safety_result now :
    safety_appends m0 events m ->
    safety_appends m0
      (events ++ [safety_entry response original_message safety_result now])
      (SafetyMonitor._log_safety_event m response original_message safety_result now)
| safety_appends_other events m m' :
    safety_appends m0 events m ->
    SafetyMonitor.safety_events m' = SafetyMonitor.safety_events m ->
    safety_appends m0 events m'.

Lemma _log_response_history `{PersonalityEngine.External} (s : ResponseGenerator.t)
  original_message response intent platform now :
  ResponseGenerator.response_history
    (ResponseGenerator._log_response original_message response intent platform now s)
  = append_bounded 1000 (ResponseGenerator.response_history s)
      (response_entry s original_message response intent platform now).
Proof. reflexivity. Qed.

Lemma _log_safety_event_events (m : SafetyMonitor.t) response original_message
  safety_result now :
  SafetyMonitor.safety_events
    (SafetyMonitor._log_safety_event m response original_message safety_result now)
  = append_bounded 1000 (SafetyMonitor.safety_events m)
      (safety_entry response original_message safety_result now).
Proof. reflexivity. Qed.

Lemma response_appends_history `{PersonalityEngine.External}
  (s0 s : ResponseGenerator.t) entries :
  (length (ResponseGenerator.response_history s0) <= 1000)%nat ->
  response_appends s0 entries s ->
  ResponseGenerator.response_history s
  = last_n 1000 (ResponseGenerator.response_history s0 ++ entries).
Proof.
  intros Hshort.
  induction 1 as [| entries s ? ? ? ? ? Happ IH | entries s s' Happ IH Hsame].
  - rewrite app_nil_r. symmetry. apply last_n_all, Hshort.
  - rewrite _log_response_history, append_bounded_last_n, IH.
    rewrite last_n_app_last_n by (simpl; lia).
    rewrite app_assoc. reflexivity.
  - rewrite Hsame. exact IH.
Qed.

Lemma safety_appends_events (m0 m : SafetyMonitor.t) events :
  (length (SafetyMonitor.safety_events m0) <= 1000)%nat ->
  safety_appends m0 events m ->
  SafetyMonitor.safety_events m
  = last_n 1000 (SafetyMonitor.safety_events m0 ++ events).
Proof.
  intros Hshort.
  induction 1 as [| events m ? ? ? ? Happ IH | events m m' Happ IH Hsame].
  - rewrite app_nil_r. symmetry. apply last_n_all, Hshort.
  - rewrite _log_safety_event_events, append_bounded_last_n, IH.
    rewrite last_n_app_last_n by (simpl; lia).
    rewrite app_assoc. reflexivity.
  - rewrite Hsame. exact IH.
Qed.

(** What a log that started empty holds after the appends [entries]. *)
Lemma bounded_from_empty {A} (log entries : list A) :
  log = last_n 1000 entries ->
  log = drop (length entries - 1000) entries
  /\ ((1000 < length entries)%nat -> length log = 1000%nat)
  /\ ((length entries <= 1000)%nat -> log = entries).
Proof.
  intros ->. split; [reflexivity |]. split.
  - intros Hlong. rewrite last_n_length. lia.
  - apply last_n_all.
Qed.

(** C8: the response history and the safety event log are bounded
    first-in first-out logs.  From an empty log, after appends of [entries]
    (N of them), each log holds [entries] without its first N - 1000: the
    last 1000 in the order appended, exactly 1000 of them when N > 1000, and
    all N when N <= 1000. *)
Theorem logs_keep_last_1000 :
  (forall `{PersonalityEngine.External} (s0 s : ResponseGenerator.t) entries,
      ResponseGenerator.response_history s0 = [] ->
      response_appends s0 entries s ->
      ResponseGenerator.response_history s = drop (length entries - 1000) entries
      /\ ((1000 < length entries)%nat ->
          length (ResponseGenerator.response_history s) = 1000%nat)
      /\ ((length entries <= 1000)%nat ->
          ResponseGenerator.response_history s = entries))
  /\
  (forall (m0 m : SafetyMonitor.t) events,
      SafetyMonitor.safety_events m0 = [] ->
      safety_appends m0 events m ->
      SafetyMonitor.safety_events m = drop (length events - 1000) events
      /\ ((1000 < length events)%nat ->
          length (SafetyMonitor.safety_events m) = 1000%nat)
      /\ ((length events <= 1000)%nat ->
          SafetyMonitor.safety_events m = events)).
Proof.
  split.
  - intros X s0 s entries Hempty Happ. apply bounded_from_empty.
    rewrite (response_appends_history s0 s entries) by (rewrite ?Hempty; simpl; auto with lia).
    rewrite Hempty. reflexivity.
  - intros m0 m events Hempty Happ. apply bounded_from_empty.
    rewrite (safety_appends_events m0 m events) by (rewrite ?Hempty; simpl; auto with lia).
    rewrite Hempty. reflexivity.
Qed.

Lemma logs_keep_last_1000_witness :
  let message : Message := <[ "sender" := "alice" ]> (<[ "content" := "hello" ]> ∅) in
  let intent := @IntentClassifier.classify_intent Instances.literal_regex message in
  let verdict :=
    {| SafetyMonitor.safe := true; SafetyMonitor.reason := "";
       SafetyMonitor.confidence := 1; SafetyMonitor.flags := [] |} in
  let s0 := @ResponseGenerator.init Instances.services_up in
  ResponseGenerator.response_history
    (ResponseGenerator._log_response message "hi" intent "discord" "t1" s0)
  = [response_entry s0 message "hi" intent "discord" "t1"]
  /\
  SafetyMonitor.safety_events
    (SafetyMonitor._log_safety_event SafetyMonitor.init "hi" message verdict "t2")
  = [safety_entry "hi" message verdict "t2"].
Proof.
  intros message intent verdict s0.
  destruct logs_keep_last_1000 as [Hresponse Hsafety]. split.
  - destruct (Hresponse Instances.services_up s0
                (ResponseGenerator._log_response message "hi" intent "discord" "t1" s0)
                [response_entry s0 message "hi" intent "discord" "t1"])
      as (_ & _ & Hall).
    + reflexivity.
    + apply (response_appends_log s0 [] s0). apply response_appends_start.
    + apply Hall. simpl. lia.
  - destruct (Hsafety SafetyMonitor.init
                (SafetyMonitor._log_safety_event SafetyMonitor.init "hi" message
                   verdict "t2")
                [safety_entry "hi" message verdict "t2"])
      as (_ & _ & Hall).
    + reflexivity.
    + apply (safety_appends_log SafetyMonitor.init [] SafetyMonitor.init).
      apply safety_appends_start.
    + apply Hall. simpl. lia.
Defined.

(** The history after [n] messages were sent and logged; the first of
    them on the platform "first", the others on "later". *)
Definition log_many (n : nat) : @ResponseGenerator.t Instances.services_up :=
  foldl
    (fun s k =>
       ResponseGenerator._log_response ∅ "ok"
         {| IntentClassifier.type := "unknown"; IntentClassifier.confidence := 0;
            IntentClassifier.scores := []; IntentClassifier.context := None |}
         (if (k =? 0)%nat then "first" else "later") "t" s)
    (@ResponseGenerator.init Instances.services_up) (seq 0 n).

(** The thousandth append still keeps the first entry; the next one
    evicts it. *)
Example first_entry_evicted_by_append_1001 :
  let platforms (s : @ResponseGenerator.t Instances.services_up) :=
    map ResponseGenerator.log_platform (take 2 (ResponseGenerator.response_history s)) in
  length (ResponseGenerator.response_history (log_many 1000)) = 1000%nat
  /\ platforms (log_many 1000) = ["first"; "later"]
  /\ length (ResponseGenerator.response_history (log_many 1001)) = 1000%nat
  /\ platforms (log_many 1001) = ["later"; "later"].
Proof. vm_compute. repeat split. Qed.

End LogFacts.

(** ** The style embedding index *)

Module StyleEmbeddingFacts.
Import Py Np StyleEmbedding.

(** A loop whose body never raises returns the list of its values. *)
Lemma mapM_inr {A B} (f : A -> exn + B) (g : A -> B) (l : list A) :
  Forall (fun x => f x = inr (g x)) l -> mapM f l = inr (map g l).
Proof.
  induction 1 as [| x l Hx Hl IH]; simpl; [reflexivity |].
  rewrite Hx, IH. reflexivity.
Qed.

Lemma build_from (records : list (string * vec)) (self : t) :
  let self' :=
    foldl (fun self '(text, embedding) => add_text self text embedding) self records in
  embeddings self' = embeddings self ++ map snd records
  /\ texts self' = texts self ++ map fst records.
Proof.
  revert self. induction records as [| [text embedding] records IH]; intros self; simpl.
  - rewrite !app_nil_r. split; reflexivity.
  - destruct (IH (add_text self text embedding)) as [He Ht].
    rewrite He, Ht. simpl. rewrite <- !app_assoc. split; reflexivity.
Qed.

(** After [add_text] calls the two lists are the two columns of the
    records: they stay aligned. *)
Lemma build_columns (records : list (string * vec)) :
  embeddings (build records) = map snd records
  /\ texts (build records) = map fst records.
Proof. apply (build_from records init). Qed.

(** The cosine that [find_similar] computes for one record. *)
Definition cosine `{Numpy} (query_embedding embedding : vec) : Q :=
  (dot query_embedding embedding
   / (np_linalg_norm query_embedding * np_linalg_norm embedding))%Q.

Lemma similarities_total `{Numpy} (self : t) (query_embedding : vec) :
  Forall (fun e => length e = length query_embedding) (embeddings self) ->
  similarities self query_embedding =
    inr (map (fun ie : nat * vec => (ie.1, cosine query_embedding ie.2))
           (imap (fun i embedding => (i, embedding)) (embeddings self))).
Proof.
  intros Hdim. unfold similarities. apply mapM_inr.
  apply Forall_forall. intros [i e] Hin.
  apply elem_of_lookup_imap in Hin as (j & e' & Heq & Hlook).
  injection Heq as -> ->.
  rewrite Forall_forall in Hdim.
  assert (He : length e' = length query_embedding).
  { apply Hdim. eapply list_elem_of_lookup_2. exact Hlook. }
  unfold np_dot. rewrite He, Nat.eqb_refl. reflexivity.
Qed.

Lemma slice_to_nonneg {A} (k : Z) (l : list A) :
  (0 <= k)%Z -> slice_to k l = take (Z.to_nat k) l.
Proof.
  intros Hk. unfold slice_to.
  destruct (Z.leb_spec 0 k) as [_ | Hneg]; [reflexivity | lia].
Qed.

Lemma find_similar_nonempty `{Numpy} (self : t) (query_embedding : vec) (top_k : Z) :
  embeddings self <> [] ->
  find_similar self query_embedding top_k =
    match similarities self query_embedding with
    | inl e => inl e
    | inr sims =>
        mapM (fun '(i, sim) =>
                match texts self !! i with
                | Some t => inr {| text := t; similarity := sim; index := i |}
                | None => inl (IndexError "list index out of range")
                end)
             (slice_to top_k (sort_desc snd sims))
    end.
Proof.
  intros Hne. unfold find_similar.
  destruct (embeddings self); [contradiction | reflexivity].
Qed.

(** C10: [find_similar] has no threshold.  On an index built by
    [add_text] from records of the dimension of the query, and for a
    requested count [top_k >= 0], it returns min(top_k, n) results whatever
    the similarities are; each result carries the text of a record, the
    cosine of the query with that record and the position of the record, and
    no record is returned twice. *)
Theorem find_similar_no_threshold `{Numpy} (records : list (string * vec))
  (query_embedding : vec) (top_k : Z) :
  Forall (fun r : string * vec => length r.2 = length query_embedding) records ->
  (0 <= top_k)%Z ->
  exists results,
    find_similar (build records) query_embedding top_k = inr results
    /\ length results = Nat.min (Z.to_nat top_k) (length records)
    /\ NoDup (map index results)
    /\ Forall (fun r =>
                 exists embedding,
                   records !! index r = Some (text r, embedding)
                   /\ similarity r = cosine query_embedding embedding)
              results.
Proof.
  intros Hdim Hk.
  destruct (build_columns records) as [Hembeddings Htexts].
  destruct (decide (records = [])) as [-> | Hne].
  { exists []. simpl. repeat split; [lia | constructor | constructor]. }
  rewrite find_similar_nonempty
    by (rewrite Hembeddings; destruct records; [contradiction | discriminate]).
  rewrite Htexts.
  assert (Hsims : similarities (build records) query_embedding =
    inr (map (fun ie : nat * vec => (ie.1, cosine query_embedding ie.2))
           (imap (fun i embedding => (i, embedding)) (map snd records)))).
  { rewrite <- Hembeddings. apply similarities_total. rewrite Hembeddings.
    apply Forall_forall. intros e He. apply list_elem_of_fmap in He as ([t e'] & -> & Hin).
    rewrite Forall_forall in Hdim. apply (Hdim _ Hin). }
  rewrite Hsims. rewrite slice_to_nonneg by exact Hk.
  set (pairs := map (fun ie : nat * vec => (ie.1, cosine query_embedding ie.2))
                  (imap (fun i embedding => (i, embedding)) (map snd records))).
  set (chosen := take (Z.to_nat top_k) (sort_desc snd pairs)).
  (* every chosen pair is a record position with its cosine *)
  assert (Hpairs : forall i sim, (i, sim) ∈ pairs ->
            exists t e, records !! i = Some (t, e) /\ sim = cosine query_embedding e).
  { intros i sim Hin. subst pairs.
    apply list_elem_of_fmap in Hin as ([j e] & Heq & Hin).
    apply elem_of_lookup_imap in Hin as (j' & e' & Heq' & Hlook).
    injection Heq' as -> ->. simpl in Heq. injection Heq as -> ->.
    rewrite list_lookup_fmap in Hlook.
    destruct (records !! j') as [[t e] |] eqn:Hrec; [| discriminate].
    simpl in Hlook. injection Hlook as ->. exists t, e'. split; reflexivity. }
  assert (Hchosen : forall i sim, (i, sim) ∈ chosen ->
            exists t e, records !! i = Some (t, e) /\ sim = cosine query_embedding e).
  { intros i sim Hin. apply Hpairs. subst chosen.
    apply subseteq_take in Hin. rewrite (SortFacts.sort_desc_perm snd pairs) in Hin.
    exact Hin. }
  exists (map (fun p : nat * Q =>
                 {| text := nth p.1 (map fst records) ""%string;
                    similarity := p.2; index := p.1 |}) chosen).
  split; [| split; [| split]].
  - apply mapM_inr. apply Forall_forall. intros [i sim] Hin.
    destruct (Hchosen i sim Hin) as (t & e & Hrec & _).
    rewrite list_lookup_fmap, Hrec. simpl.
    erewrite (nth_lookup_Some (map fst records) i ""%string t); [reflexivity |].
    rewrite list_lookup_fmap, Hrec. reflexivity.
  - rewrite length_map. subst chosen. rewrite length_take.
    rewrite (Permutation_length (SortFacts.sort_desc_perm snd pairs)).
    subst pairs. rewrite length_map, length_imap, length_map. reflexivity.
  - rewrite map_map. simpl.
    change (map (fun x : nat * Q => x.1) chosen) with (fst <$> chosen).
    subst chosen. rewrite fmap_take.
    eapply sublist_NoDup; [| apply sublist_take].
    rewrite (SortFacts.sort_desc_perm snd pairs). subst pairs.
    change (fst <$> map ?f ?l) with (map fst (map f l)). rewrite map_map. simpl.
    change (map (fun x : nat * vec => x.1) ?l) with (fst <$> l).
    rewrite fmap_imap. 
    rewrite (imap_ext _ (fun i _ => i)) by reflexivity.
    rewrite imap_seq_0. rewrite list_fmap_id. apply NoDup_seq.
  - apply Forall_forall. intros r Hin.
    apply list_elem_of_fmap in Hin as ([i sim] & -> & Hin).
    destruct (Hchosen i sim Hin) as (t & e & Hrec & Hsim). simpl.
    exists e. split; [| exact Hsim].
    erewrite (nth_lookup_Some (map fst records) i ""%string t); [exact Hrec |].
    rewrite list_lookup_fmap, Hrec. reflexivity.
Qed.

Definition example_records : list (string * vec) :=
  [ ("see you at noon", [4; -3]%Q); ("thanks a lot", [-4; 3]%Q);
    ("on my way", [8; -6]%Q) ].

Lemma find_similar_no_threshold_witness :
  exists results,
    @find_similar Instances.numpy_stable (build example_records) [3; 4]%Q 5 = inr results
    /\ length results = Nat.min (Z.to_nat 5) (length example_records)
    /\ NoDup (map index results)
    /\ Forall (fun r =>
                 exists embedding,
                   example_records !! index r = Some (text r, embedding)
                   /\ similarity r = @cosine Instances.numpy_stable [3; 4]%Q embedding)
              results.
Proof.
  apply (@find_similar_no_threshold Instances.numpy_stable example_records).
  - repeat constructor.
  - lia.
Defined.

(** The three records are orthogonal to the query: every similarity is
    zero, below 0.30, and all three are returned. *)
Example find_similar_returns_zero_similarity :
  @find_similar Instances.numpy_stable (build example_records) [3; 4]%Q 5 =
  inr [ {| text := "see you at noon"; similarity := 0 # 25; index := 0 |};
        {| text := "thanks a lot"; similarity := 0 # 25; index := 1 |};
        {| text := "on my way"; similarity := 0 # 50; index := 2 |} ].
Proof. vm_compute. reflexivity. Qed.

(** A negative [top_k] is a slice bound counted from the end: [-1]
    returns all records but the last of the ranking. *)
Example find_similar_negative_top_k :
  @find_similar Instances.numpy_stable (build example_records) [3; 4]%Q (-1) =
  inr [ {| text := "see you at noon"; similarity := 0 # 25; index := 0 |};
        {| text := "thanks a lot"; similarity := 0 # 25; index := 1 |} ].
Proof. vm_compute. reflexivity. Qed.

End StyleEmbeddingFacts.

(** ** Training *)

Module TrainingFacts.
Import Py Np PersonalityEngine.

(** [Counter] is not among the names the module binds: calling it raises. *)
Lemma Counter_unbound (items : list string) :
  Counter items = inl (NameError "Counter").
Proof. reflexivity. Qed.

(** One step of a run: the primitive steps are computed, the stages are
    left folded. *)
Ltac run :=
  cbv beta iota zeta;
  cbn [fst snd app sentence_model personality_profile style_patterns trained
       embeddings texts belief_matrix model_name set_sentence_model
       set_personality_profile set_style_patterns set_belief_matrix set_trained
       set_index].

(** C2, amended: [train_personality] is not atomic.  It assigns
    [personality_profile], then [style_patterns], then the index
    ([embeddings] and [texts]), each when its stage has completed, and
    nothing is taken back.  Which fields are new after the run is decided
    by the stage that raised:
    - the model cannot be loaded: the engine is as before the call;
    - trait extraction raises: the three are as before the call;
    - trait extraction completes and the style stage raises: the profile
      is the new one, the style patterns and the index are as before;
    - both complete and [encode] raises: the profile and the style
      patterns are the new ones, the index is as before;
    - no stage raises: the profile and the style patterns are the new
      ones, [trained] is set, and the index is replaced if some sample has
      more than ten characters of trimmed content and is as before the call
      if none has.
    A failed run never changes the index or the flag [trained]. *)
Theorem train_personality_assigns_in_order `{External} `{Numpy}
  (data : list Sample) (self : t) :
  let '(outcome, self', _) := train_personality data self in
  (forall e,
      sentence_model self = None ->
      SentenceTransformer (model_name self) = inl e ->
      outcome = inr (TrainFailure (exn_str e)) /\ self' = self)
  /\
  (is_Some (sentence_model self)
   \/ (exists model, SentenceTransformer (model_name self) = inr model) ->
   match _extract_personality_traits data with
   | inl e =>
       outcome = inr (TrainFailure (exn_str e))
       /\ personality_profile self' = personality_profile self
       /\ style_patterns self' = style_patterns self
       /\ embeddings self' = embeddings self /\ texts self' = texts self
       /\ trained self' = trained self
   | inr profile =>
       personality_profile self' = profile
       /\ match _build_style_patterns data with
          | inl e =>
              outcome = inr (TrainFailure (exn_str e))
              /\ style_patterns self' = style_patterns self
              /\ embeddings self' = embeddings self /\ texts self' = texts self
              /\ trained self' = trained self
          | inr patterns =>
              style_patterns self' = patterns
              /\ match texts_to_embed data with
                 | [] =>
                     outcome = inr (TrainSuccess profile patterns (length data))
                     /\ trained self' = true
                     /\ embeddings self' = embeddings self
                     /\ texts self' = texts self
                 | _ :: _ =>
                     exists model,
                       sentence_model self' = Some model
                       /\ match encode model (texts_to_embed data) with
                          | inl e =>
                              outcome = inr (TrainFailure (exn_str e))
                              /\ embeddings self' = embeddings self
                              /\ texts self' = texts self
                              /\ trained self' = trained self
                          | inr rows =>
                              outcome
                              = inr (TrainSuccess profile patterns (length data))
                              /\ trained self' = true
                              /\ embeddings self' = NdArray rows
                              /\ texts self' = texts_to_embed data
                          end
                 end
          end
   end).
Proof.
  unfold train_personality, _build_embedding_database, try_except, bind, get,
    modify, emit, lift, ret.
  destruct (sentence_model self) as [model |] eqn:Hmodel; run;
    [| destruct (SentenceTransformer (model_name self)) as [e0 | model] eqn:Hload; run];
    try (destruct (_extract_personality_traits data) as [e1 | profile] eqn:Hextract; run;
         [| destruct (_build_style_patterns data) as [e2 | patterns] eqn:Hstyle; run;
            [| rewrite ?Hmodel; run;
               destruct (texts_to_embed data) as [| text rest] eqn:Htexts; run;
               [| destruct (encode model (text :: rest)) as [e3 | rows] eqn:Hencode;
                  run]]]).
  all: split;
    [ intros e Hnone He; try discriminate Hnone; try discriminate He;
      injection He as <-; split; reflexivity
    | intros Hav ].
  all: try (destruct Hav as [[m Hm] | [m Hm]]; discriminate).
  all: repeat split.
  all: exists model; rewrite Hencode; repeat split; exact Hmodel.
Qed.

Lemma train_personality_assigns_in_order_witness :
  let data := [ {| content := "hello there my friend"; personality := None |} ] in
  let self := @init Instances.services_up in
  let '(outcome, self', _) := @train_personality Instances.services_up data self in
  outcome = inr (TrainFailure "name 'Counter' is not defined")
  /\ personality_profile self' = PDict empty_traits
  /\ style_patterns self' = style_patterns self
  /\ embeddings self' = embeddings self
  /\ trained self' = trained self.
Proof.
  intros data self.
  pose proof (@train_personality_assigns_in_order Instances.services_up
                Instances.numpy_stable data self) as Hfacts.
  destruct (@train_personality Instances.services_up data self)
    as [[outcome self'] calls].
  destruct Hfacts as [_ Hstages].
  assert (Hmodel : is_Some (@sentence_model Instances.services_up self)
                   \/ exists model,
                        @SentenceTransformer Instances.services_up
                          (@model_name Instances.services_up self) = inr model).
  { right. exists "all-MiniLM-L6-v2". reflexivity. }
  specialize (Hstages Hmodel).
  change (_extract_personality_traits data) with (@inr exn pyval (PDict empty_traits))
    in Hstages.
  change (_build_style_patterns data) with (@inl exn pyval (NameError "Counter"))
    in Hstages.
  destruct Hstages as (Hprofile & Houtcome & Hstyle & Hindex & _ & Htrained).
  repeat split; assumption.
Defined.

(** C2 as stated fails: one sample with text and no annotation.  Trait
    extraction completes and its result is assigned; the style stage then
    raises on [Counter]; the run reports failure, with the profile replaced
    and the style patterns not. *)
Lemma failed_training_replaces_profile :
  let data := [ {| content := "hello there my friend"; personality := None |} ] in
  let self := @init Instances.services_up in
  let '(outcome, self', _) :=
    @train_personality Instances.services_up data self in
  outcome = inr (TrainFailure "name 'Counter' is not defined")
  /\ personality_profile self = PDict []
  /\ personality_profile self' = PDict empty_traits
  /\ personality_profile self' <> personality_profile self
  /\ style_patterns self' = style_patterns self.
Proof.
  vm_compute. repeat split; discriminate.
Qed.

(** C3, amended: with an empty sample list [train_personality] sets the
    profile and the style patterns to the empty structures and leaves the
    index alone; when the embedding model is there (already loaded, or
    loaded now) the run succeeds and marks the engine trained, so
    [is_trained] answers true.  Only when the model fails to load is the
    engine left as it was; [is_trained] then keeps its answer, and on an
    untrained engine [generate_response] returns the "still learning"
    placeholder. *)
Theorem train_on_no_samples `{External} `{Numpy} (self : t) :
  let '(outcome, self', _) := train_personality [] self in
  (forall model,
      sentence_model self = Some model
      \/ (sentence_model self = None
          /\ SentenceTransformer (model_name self) = inr model) ->
      outcome = inr (TrainSuccess (PDict empty_traits) (PDict empty_patterns) 0)
      /\ is_trained self' = true
      /\ personality_profile self' = PDict empty_traits
      /\ style_patterns self' = PDict empty_patterns
      /\ embeddings self' = embeddings self /\ texts self' = texts self)
  /\
  (forall e,
      sentence_model self = None ->
      SentenceTransformer (model_name self) = inl e ->
      outcome = inr (TrainFailure (exn_str e))
      /\ self' = self
      /\ (is_trained self = false ->
          forall input_text context mood,
            generate_response input_text context mood self'
            = (inr still_learning, self', []))).
Proof.
  unfold train_personality, _build_embedding_database, try_except, bind, get,
    modify, emit, lift, ret.
  change (_extract_personality_traits []) with (@inr exn pyval (PDict empty_traits)).
  change (_build_style_patterns []) with (@inr exn pyval (PDict empty_patterns)).
  change (texts_to_embed []) with (@nil string).
  destruct (sentence_model self) as [model |] eqn:Hmodel; run;
    [| destruct (SentenceTransformer (model_name self)) as [e0 | model] eqn:Hload; run];
    rewrite ?Hmodel; run.
  - split.
    + intros _ _. repeat split.
    + intros e Hnone. discriminate Hnone.
  - split.
    + intros model [Hsome | [_ Hok]]; discriminate.
    + intros e _ He. injection He as <-.
      repeat split. intros Huntrained input_text context mood.
      unfold generate_response, bind, get, ret, is_trained in *.
      rewrite Huntrained. reflexivity.
  - split.
    + intros _ _. repeat split.
    + intros e _ He. discriminate He.
Qed.

Lemma train_on_no_samples_witness :
  (let '(outcome, self', _) :=
     @train_personality Instances.services_up [] (@init Instances.services_up) in
   outcome = inr (TrainSuccess (PDict empty_traits) (PDict empty_patterns) 0)
   /\ @is_trained Instances.services_up self' = true)
  /\
  (let '(outcome, self', _) :=
     @train_personality Instances.services_down [] (@init Instances.services_down) in
   outcome = inr (TrainFailure "model not available")
   /\ self' = @init Instances.services_down
   /\ @generate_response Instances.services_down Instances.numpy_stable
        "hello" "" "default" self'
      = (inr still_learning, self', [])).
Proof.
  split.
  - pose proof (@train_on_no_samples Instances.services_up Instances.numpy_stable
                  (@init Instances.services_up)) as Hfacts.
    destruct (@train_personality Instances.services_up [] (@init Instances.services_up))
      as [[outcome self'] calls].
    destruct Hfacts as [Hup _].
    destruct (Hup "all-MiniLM-L6-v2") as (Houtcome & Htrained & _).
    + right. split; reflexivity.
    + split; assumption.
  - pose proof (@train_on_no_samples Instances.services_down Instances.numpy_stable
                  (@init Instances.services_down)) as Hfacts.
    destruct (@train_personality Instances.services_down [] (@init Instances.services_down))
      as [[outcome self'] calls].
    destruct Hfacts as [_ Hdown].
    destruct (Hdown (ExternalError "model not available")) as (Houtcome & Hsame & Hreply).
    + reflexivity.
    + reflexivity.
    + split; [exact Houtcome |]. split; [exact Hsame |].
      apply Hreply. reflexivity.
Defined.

(** C3 as stated fails: on a fresh engine whose model loads, training on
    no sample succeeds and marks the engine trained; [generate_response]
    then takes the trained path, where reading [size] of the list that
    [embeddings] still is raises, and answers with the apology. *)
Lemma train_on_no_samples_marks_trained :
  let '(outcome, self', _) :=
    @train_personality Instances.services_up [] (@init Instances.services_up) in
  outcome = inr (TrainSuccess (PDict empty_traits) (PDict empty_patterns) 0)
  /\ @is_trained Instances.services_up self' = true
  /\ (@generate_response Instances.services_up Instances.numpy_stable
        "hello" "" "default" self').1.1
     = inr trouble_responding
  /\ trouble_responding <> still_learning.
Proof.
  vm_compute. repeat split. discriminate.
Qed.

End TrainingFacts.

(** * Further properties of the code *)

(** ** Slices that count from the end *)

Module SliceFacts.
Import Py.

(** [l[-limit:]], the slice of the "recent" getters: the last [limit]
    elements for a positive [limit]; the whole list for [limit = 0]; the
    list without its first [-limit] elements for a negative [limit]. *)
Lemma slice_from_neg {A} (limit : Z) (l : list A) :
  ((0 < limit)%Z -> slice_from (- limit) l = last_n (Z.to_nat limit) l)
  /\ (limit = 0%Z -> slice_from (- limit) l = l)
  /\ ((limit < 0)%Z -> slice_from (- limit) l = drop (Z.to_nat (- limit)) l).
Proof.
  unfold slice_from, last_n. repeat split; intros Hlimit.
  - destruct (Z.leb_spec 0 (- limit)) as [Hle | _]; [lia |].
    rewrite Z.opp_involutive. reflexivity.
  - subst limit. reflexivity.
  - destruct (Z.leb_spec 0 (- limit)) as [_ | Hlt]; [reflexivity | lia].
Qed.

(** X1: the three "recent" getters share one slice.  For a positive
    [limit] they return the last min(limit, n) entries, newest last; for
    [limit = 0] they return the whole log, not the empty list. *)
Theorem recent_getters_limits `{PersonalityEngine.External}
  (generator : ResponseGenerator.t) (monitor : SafetyMonitor.t)
  (consents : ConsentManager.t) (limit : Z) :
  ((0 < limit)%Z ->
     ResponseGenerator.get_recent_responses limit generator
       = last_n (Z.to_nat limit) (ResponseGenerator.response_history generator)
     /\ length (ResponseGenerator.get_recent_responses limit generator)
        = Nat.min (Z.to_nat limit)
            (length (ResponseGenerator.response_history generator))
     /\ SafetyMonitor.get_recent_safety_events limit monitor
        = last_n (Z.to_nat limit) (SafetyMonitor.safety_events monitor)
     /\ ConsentManager.get_consent_history limit consents
        = last_n (Z.to_nat limit) (ConsentManager.consent_history consents))
  /\ (limit = 0%Z ->
        ResponseGenerator.get_recent_responses limit generator
          = ResponseGenerator.response_history generator
        /\ SafetyMonitor.get_recent_safety_events limit monitor
           = SafetyMonitor.safety_events monitor
        /\ ConsentManager.get_consent_history limit consents
           = ConsentManager.consent_history consents).
Proof.
  unfold ResponseGenerator.get_recent_responses,
    SafetyMonitor.get_recent_safety_events, ConsentManager.get_consent_history.
  split; intros Hlimit.
  - rewrite !(proj1 (slice_from_neg limit _) Hlimit).
    rewrite BoundedLog.last_n_length. repeat split.
  - rewrite !(proj1 (proj2 (slice_from_neg limit _)) Hlimit). repeat split.
Qed.

Lemma recent_getters_limits_witness :
  let entry (k : string) :=
    {| ConsentManager.cr_timestamp := k; ConsentManager.cr_sender := "alice";
       ConsentManager.cr_platform := None; ConsentManager.cr_action := "consent_revoked" |} in
  let consents :=
    {| ConsentManager.consented_contacts := ∅;
       ConsentManager.consent_history := [entry "1"; entry "2"; entry "3"] |} in
  ConsentManager.get_consent_history 2 consents = [entry "2"; entry "3"]
  /\ ConsentManager.get_consent_history 0 consents = [entry "1"; entry "2"; entry "3"].
Proof.
  intros entry consents.
  destruct (@recent_getters_limits Instances.services_up
              (@ResponseGenerator.init Instances.services_up) SafetyMonitor.init
              consents 2) as [Hpos _].
  destruct (@recent_getters_limits Instances.services_up
              (@ResponseGenerator.init Instances.services_up) SafetyMonitor.init
              consents 0) as [_ Hzero].
  split.
  - destruct Hpos as (_ & _ & _ & Hc); [lia |]. rewrite Hc. reflexivity.
  - destruct Hzero as (_ & _ & Hc); [reflexivity |]. exact Hc.
Defined.

End SliceFacts.

(** ** More on the consent manager *)

Module ConsentExtra.
Import Py ConsentManager.

(** What a call writes to the audit trail: the sender and the action. *)
Definition audit_of (c : call) : string * string :=
  match c with
  | AddConsent sender _ _ => (sender, "consent_granted")
  | RemoveConsent sender _ => (sender, "consent_revoked")
  end.

Lemma step_history (self : t) (c : call) :
  map (fun r => (cr_sender r, cr_action r)) (consent_history (step self c))
  = map (fun r => (cr_sender r, cr_action r)) (consent_history self) ++ [audit_of c].
Proof. destruct c; simpl; rewrite map_app; reflexivity. Qed.

Lemma foldl_step_history (calls : list call) (self : t) :
  map (fun r => (cr_sender r, cr_action r)) (consent_history (foldl step self calls))
  = map (fun r => (cr_sender r, cr_action r)) (consent_history self)
    ++ map audit_of calls.
Proof.
  revert self. induction calls as [| c calls IH]; intros self; simpl.
  - rewrite app_nil_r. reflexivity.
  - rewrite IH, step_history, <- app_assoc. reflexivity.
Qed.

(** X2: the consent history is an audit trail.  After any sequence of
    [add_consent] and [remove_consent] calls it holds one record per call,
    in the order of the calls, with the sender and the action of each call;
    a call that changes nothing in the opt-in set is recorded all the same. *)
Theorem consent_history_records_every_call (calls : list call) :
  map (fun r => (cr_sender r, cr_action r)) (consent_history (run calls))
    = map audit_of calls
  /\ length (consent_history (run calls)) = length calls.
Proof.
  assert (Htrail :
    map (fun r => (cr_sender r, cr_action r)) (consent_history (run calls))
    = map audit_of calls) by apply (foldl_step_history calls init).
  split; [exact Htrail |].
  rewrite <- (length_map (fun r => (cr_sender r, cr_action r))), Htrail.
  apply length_map.
Qed.

(** X3: consent by platform cannot be revoked.  In every state of the
    manager, also right after [remove_consent] for the sender, a message
    from a sender that is not empty on "discord", "email" or "slack" is
    consented. *)
Theorem platform_consent_survives_revocation (self : t) (sender now : string)
  (message : Message) :
  msg_get "sender" message = sender ->
  sender <> "" ->
  PyStr.list_in (msg_get "platform" message) ["discord"; "email"; "slack"] = true ->
  consented (check_consent (remove_consent self sender now) message) = true
  /\ consented (check_consent self message) = true.
Proof.
  intros Hsender Hne Hplatform.
  assert (Hany : forall s : t, consented (check_consent s message) = true).
  { intros s. unfold check_consent. rewrite Hsender.
    destruct (bool_decide (sender ∈ consented_contacts s)); [reflexivity |].
    destruct (String.eqb_spec sender "") as [Hempty | _]; [contradiction |].
    rewrite Hplatform. reflexivity. }
  split; apply Hany.
Qed.

Lemma platform_consent_survives_revocation_witness :
  let message : Message := <[ "sender" := "bob" ]> (<[ "platform" := "slack" ]> ∅) in
  consented
    (check_consent (remove_consent (add_consent init "bob" "slack" "t1") "bob" "t2")
       message) = true
  /\ consented (check_consent (add_consent init "bob" "slack" "t1") message) = true.
Proof.
  intros message.
  apply (platform_consent_survives_revocation _ "bob" "t2" message).
  - reflexivity.
  - discriminate.
  - reflexivity.
Defined.

(** X4: granting and revoking.  After [add_consent] for a sender, every
    message from that sender is consented, whatever its platform.  After
    [remove_consent] the sender is out of the opt-in set, and a message
    from it on a platform outside the default list is not consented. *)
Theorem consent_granted_then_revoked (self : t) (sender platform now : string)
  (message : Message) :
  msg_get "sender" message = sender ->
  check_consent (add_consent self sender platform now) message
    = {| consented := true; reason := "Sender has previously consented" |}
  /\ (sender ∉ consented_contacts (remove_consent self sender now))
  /\ ((PyStr.list_in (msg_get "platform" message) ["discord"; "email"; "slack"] = false) ->
      consented (check_consent (remove_consent self sender now) message) = false).
Proof.
  intros Hsender. split; [| split].
  - apply ConsentManagerFacts.check_consent_opted_in. rewrite Hsender. simpl.
    apply elem_of_union_l, elem_of_singleton. reflexivity.
  - simpl. intros Hin. apply elem_of_difference in Hin as [_ Hout].
    apply Hout, elem_of_singleton. reflexivity.
  - intros Hplatform. unfold check_consent. rewrite Hsender.
    rewrite bool_decide_eq_false_2.
    + destruct (String.eqb sender ""); [reflexivity |].
      rewrite Hplatform. reflexivity.
    + simpl. intros Hin. apply elem_of_difference in Hin as [_ Hout].
      apply Hout, elem_of_singleton. reflexivity.
Qed.

Lemma consent_granted_then_revoked_witness :
  let message : Message := <[ "sender" := "carol" ]> (<[ "platform" := "sms" ]> ∅) in
  check_consent (add_consent init "carol" "sms" "t1") message
    = {| consented := true; reason := "Sender has previously consented" |}
  /\ ("carol" ∉ consented_contacts (remove_consent init "carol" "t2"))
  /\ ((PyStr.list_in (msg_get "platform" message) ["discord"; "email"; "slack"] = false) ->
      consented (check_consent (remove_consent init "carol" "t2") message) = false).
Proof.
  intros message.
  apply (consent_granted_then_revoked init "carol" "sms" "t1" message).
  reflexivity.
Defined.

End ConsentExtra.

(** ** The content filter *)

Module ContentFilterExtra.
Import Py ContentFilter.

Lemma join_nonempty (x : string) (l : list string) (prefix : string) :
  prefix <> "" -> prefix +:+ PyStr.join ", " (x :: l) <> "".
Proof.
  intros Hprefix Heq. destruct prefix as [| c prefix]; [contradiction |].
  discriminate Heq.
Qed.

(** X5: the verdict of the content filter follows the matches.  A
    pattern is reported as harmful (as inappropriate) exactly when it is
    in the harmful (the inappropriate) table and matches the lower-cased
    content, and the reported patterns come in the order of the table.
    The content is safe exactly when no pattern of either table matches,
    and exactly then the reason is empty.  When a harmful pattern matched,
    the reason names the harmful patterns and leaves the inappropriate
    ones out; when only inappropriate ones matched, it names those. *)
Theorem content_verdict_follows_matches `{Regex} (content : string) :
  let r := check_content content in
  let matches pattern := re_search_i pattern (PyStr.lower content) = true in
  (forall pattern,
      pattern ∈ harmful_found r <-> pattern ∈ harmful_patterns /\ matches pattern)
  /\ (forall pattern,
        pattern ∈ inappropriate_found r
        <-> pattern ∈ inappropriate_patterns /\ matches pattern)
  /\ harmful_found r
     = List.filter (fun pattern => re_search_i pattern (PyStr.lower content))
         harmful_patterns
  /\ inappropriate_found r
     = List.filter (fun pattern => re_search_i pattern (PyStr.lower content))
         inappropriate_patterns
  /\ (safe r = true
      <-> forall pattern,
            pattern ∈ harmful_patterns \/ pattern ∈ inappropriate_patterns ->
            ~ matches pattern)
  /\ (safe r = true <-> reason r = "")
  /\ (harmful_found r <> [] ->
        reason r = "Harmful content detected: " +:+ PyStr.join ", " (harmful_found r))
  /\ (harmful_found r = [] -> inappropriate_found r <> [] ->
        reason r
        = "Inappropriate content detected: "
          +:+ PyStr.join ", " (inappropriate_found r)).
Proof.
  unfold check_content. cbv zeta. cbn [safe reason harmful_found inappropriate_found].
  set (harmful := filter _ harmful_patterns).
  set (inappropriate := filter _ inappropriate_patterns).
  assert (Hh : forall pattern, pattern ∈ harmful <->
            pattern ∈ harmful_patterns
            /\ re_search_i pattern (PyStr.lower content) = true).
  { intros pattern. subst harmful. rewrite list_elem_of_filter. tauto. }
  assert (Hi : forall pattern, pattern ∈ inappropriate <->
            pattern ∈ inappropriate_patterns
            /\ re_search_i pattern (PyStr.lower content) = true).
  { intros pattern. subst inappropriate. rewrite list_elem_of_filter. tauto. }
  assert (Hfilter : forall table : list string,
            filter (fun pattern => re_search_i pattern (PyStr.lower content) = true) table
            = List.filter (fun pattern => re_search_i pattern (PyStr.lower content))
                table).
  { intros table. induction table as [| p table IH]; [reflexivity |].
    rewrite filter_cons. simpl.
    destruct (re_search_i p (PyStr.lower content)) eqn:Hp.
    - destruct (decide (true = true)) as [_ | Hne]; [| contradiction].
      rewrite IH. reflexivity.
    - destruct (decide (false = true)) as [Habs | _]; [discriminate Habs |].
      exact IH. }
  split; [exact Hh |]. split; [exact Hi |].
  split; [apply Hfilter |]. split; [apply Hfilter |].
  clearbody harmful inappropriate.
  split; [| split; [| split]].
  - split.
    + intros Hsafe pattern [Hin | Hin] Hmatch.
      * assert (Hfound : pattern ∈ harmful) by (apply Hh; split; assumption).
        destruct harmful; [inversion Hfound | discriminate Hsafe].
      * assert (Hfound : pattern ∈ inappropriate) by (apply Hi; split; assumption).
        destruct harmful; [| discriminate Hsafe].
        destruct inappropriate; [inversion Hfound | discriminate Hsafe].
    + intros Hnone.
      destruct harmful as [| h harmful].
      * destruct inappropriate as [| i inappropriate]; [reflexivity |].
        exfalso. destruct (proj1 (Hi i) (list_elem_of_here _ _)) as [Hin Hmatch].
        exact (Hnone i (or_intror Hin) Hmatch).
      * exfalso. destruct (proj1 (Hh h) (list_elem_of_here _ _)) as [Hin Hmatch].
        exact (Hnone h (or_introl Hin) Hmatch).
  - destruct harmful as [| h harmful], inappropriate as [| i inappropriate];
      simpl; split; intros Hs; try discriminate; try reflexivity.
  - intros Hne. destruct harmful; [contradiction | reflexivity].
  - intros -> Hne. destruct inappropriate; [contradiction | reflexivity].
Qed.

End ContentFilterExtra.

(** ** The tone *)

Module ToneExtra.
Import PyStr ToneMatcher.

(** The cue of the context, as [determine_tone] reads it. *)
Definition context_cue (context : string) : option string :=
  if contains "work" (lower context) || contains "business" (lower context)
  then Some "professional"
  else if contains "friend" (lower context) || contains "family" (lower context)
  then Some "friendly"
  else None.

(** X6: the tone is decided by precedence.  A sender named "boss",
    "manager" or "supervisor" gets "professional" and one named "friend",
    "family" or "close" gets "casual", whatever the context and the intent;
    for other senders a context with "work" or "business" gives
    "professional", else one with "friend" or "family" gives "friendly",
    whatever the intent; only then does the intent decide.  The result is
    one of seven tones, and "formal" is not among them. *)
Theorem determine_tone_precedence (intent_type context sender : string) :
  let tone := determine_tone intent_type context sender in
  (list_in sender ["boss"; "manager"; "supervisor"] = true -> tone = "professional")
  /\ (list_in sender ["boss"; "manager"; "supervisor"] = false ->
      list_in sender ["friend"; "family"; "close"] = true -> tone = "casual")
  /\ (list_in sender ["boss"; "manager"; "supervisor"] = false ->
      list_in sender ["friend"; "family"; "close"] = false ->
      forall cue, context_cue context = Some cue -> tone = cue)
  /\ (list_in sender ["boss"; "manager"; "supervisor"] = false ->
      list_in sender ["friend"; "family"; "close"] = false ->
      context_cue context = None ->
      tone = determine_tone intent_type "" "")
  /\ list_in tone
       ["neutral"; "friendly"; "helpful"; "professional"; "empathetic";
        "urgent"; "casual"] = true.
Proof.
  unfold determine_tone, context_cue.
  change (lower "") with "".
  change (contains "work" "" || contains "business" "") with false.
  change (contains "friend" "" || contains "family" "") with false.
  change (list_in "" ["boss"; "manager"; "supervisor"]) with false.
  change (list_in "" ["friend"; "family"; "close"]) with false.
  cbv iota.
  destruct (list_in sender ["boss"; "manager"; "supervisor"]),
    (list_in sender ["friend"; "family"; "close"]),
    (contains "work" (lower context) || contains "business" (lower context)),
    (contains "friend" (lower context) || contains "family" (lower context));
    (repeat split; intros; try discriminate; try congruence; try reflexivity);
    repeat (match goal with
            | |- context [String.eqb intent_type ?s] =>
                destruct (String.eqb intent_type s)
            end; try reflexivity).
Qed.

Lemma determine_tone_precedence_witness :
  determine_tone "complaint" "a chat with family" "boss" = "professional"
  /\ determine_tone "urgent" "work" "close" = "casual"
  /\ determine_tone "greeting" "Work call" "alice" = "professional"
  /\ determine_tone "question" "the weather" "alice" = determine_tone "question" "" "".
Proof.
  destruct (determine_tone_precedence "complaint" "a chat with family" "boss")
    as [Hboss _].
  destruct (determine_tone_precedence "urgent" "work" "close")
    as (_ & Hclose & _).
  destruct (determine_tone_precedence "greeting" "Work call" "alice")
    as (_ & _ & Hcue & _).
  destruct (determine_tone_precedence "question" "the weather" "alice")
    as (_ & _ & _ & Hintent & _).
  split; [apply Hboss; reflexivity |].
  split; [apply Hclose; reflexivity |].
  split; [apply Hcue; reflexivity |].
  apply Hintent; reflexivity.
Defined.

End ToneExtra.

(** ** The intent classifier *)

Module IntentExtra.
Import Py IntentClassifier.

(** [arg_max] returns the first entry with the largest score. *)
Lemma arg_max_first (best : string * nat) (rest : list (string * nat)) :
  exists before after,
    best :: rest = before ++ arg_max best rest :: after
    /\ Forall (fun kv => (kv.2 < (arg_max best rest).2)%nat) before
    /\ Forall (fun kv => (kv.2 <= (arg_max best rest).2)%nat) after.
Proof.
  assert (Hgen : forall seen mid,
    Forall (fun kv => (kv.2 < best.2)%nat) seen ->
    Forall (fun kv => (kv.2 <= best.2)%nat) mid ->
    exists before after,
      seen ++ best :: mid ++ rest = before ++ arg_max best rest :: after
      /\ Forall (fun kv => (kv.2 < (arg_max best rest).2)%nat) before
      /\ Forall (fun kv => (kv.2 <= (arg_max best rest).2)%nat) after).
  { revert best. induction rest as [| kv rest IH]; intros best seen mid Hseen Hmid; simpl.
    - exists seen, mid. rewrite app_nil_r. repeat split; assumption.
    - destruct (Nat.ltb_spec best.2 kv.2) as [Hlt | Hge].
      + destruct (IH kv (seen ++ best :: mid) []) as (before & after & Heq & Hb & Ha).
        { apply Forall_app. split.
          - eapply Forall_impl; [exact Hseen |]. simpl. intros; lia.
          - constructor; [exact Hlt |].
            eapply Forall_impl; [exact Hmid |]. simpl. intros; lia. }
        { constructor. }
        exists before, after. rewrite <- Heq. simpl. rewrite <- app_assoc.
        repeat split; assumption.
      + destruct (IH best seen (mid ++ [kv])) as (before & after & Heq & Hb & Ha).
        { exact Hseen. }
        { apply Forall_app. split; [exact Hmid |]. constructor; [exact Hge | constructor]. }
        exists before, after. rewrite <- Heq, <- app_assoc.
        repeat split; assumption. }
  apply (Hgen [] []); constructor.
Qed.

Definition categories : list string :=
  ["greeting"; "question"; "request"; "compliment"; "complaint"; "casual"; "urgent"].

(** X7: the intent is the first category, in the order greeting,
    question, request, compliment, complaint, casual, urgent, with the
    largest score.  The scores list the seven categories in this order, each
    with the number of its patterns that match; every category before the
    chosen one scores strictly less and every one after it at most as much;
    the confidence is min(score / 3, 1) for the chosen score, between 0
    and 1. *)
Theorem classify_intent_first_maximum `{Regex} (message : Message) :
  let r := classify_intent message in
  map fst (scores r) = categories
  /\ Forall2 (fun kv kp =>
                kv.2 = List.length
                         (List.filter
                            (fun pattern =>
                               re_search_i pattern
                                 (PyStr.lower (msg_get "content" message)))
                            kp.2))
       (scores r) intent_patterns
  /\ (exists before after top,
        scores r = before ++ (type r, top) :: after
        /\ Forall (fun kv => (kv.2 < top)%nat) before
        /\ Forall (fun kv => (kv.2 <= top)%nat) after
        /\ (confidence r == Qmin (inject_Z (Z.of_nat top) / 3) 1)%Q)
  /\ (0 <= confidence r)%Q /\ (confidence r <= 1)%Q.
Proof.
  unfold classify_intent. cbn [scores type confidence].
  set (content := PyStr.lower (msg_get "content" message)).
  set (intent_scores := map _ intent_patterns).
  assert (Hkeys : map fst intent_scores = categories) by reflexivity.
  assert (Hscores : Forall2 (fun kv kp =>
                kv.2 = List.length
                         (List.filter (fun pattern => re_search_i pattern content) kp.2))
       intent_scores intent_patterns).
  { subst intent_scores. unfold intent_patterns. repeat constructor. }
  destruct intent_scores as [| kv rest] eqn:Hlist; [discriminate Hkeys |].
  split; [exact Hkeys |]. split; [exact Hscores |].
  destruct (arg_max_first kv rest) as (before & after & Heq & Hb & Ha).
  split; [| split].
  - exists before, after, (arg_max kv rest).2.
    split; [| split; [exact Hb | split; [exact Ha | reflexivity]]].
    rewrite Heq. destruct (arg_max kv rest). reflexivity.
  - apply Q.min_glb; [| discriminate].
    apply Qle_shift_div_l; [reflexivity |].
    rewrite Qmult_0_l. change 0%Q with (inject_Z 0).
    rewrite <- Zle_Qle. lia.
  - apply Q.le_min_r.
Qed.

(** X8: a message that matches no pattern is still given an intent.
    All scores are then zero, the first category wins, and the message is
    classified as a "greeting" with confidence 0; with no cue in the context
    or the sender its tone is "friendly". *)
Theorem classify_intent_no_match `{Regex} (message : Message) :
  forallb (fun kp : string * list string =>
             forallb (fun pattern =>
                        negb (re_search_i pattern
                                (PyStr.lower (msg_get "content" message))))
               kp.2)
    intent_patterns = true ->
  let r := classify_intent message in
  type r = "greeting"
  /\ (confidence r == 0)%Q
  /\ scores r = map (fun category => (category, 0%nat)) categories
  /\ ToneMatcher.determine_tone (type r) "" "" = "friendly".
Proof.
  intros Hnone.
  assert (Hzero : forall kp, kp ∈ intent_patterns ->
    List.length
      (List.filter
         (fun pattern => re_search_i pattern (PyStr.lower (msg_get "content" message)))
         kp.2) = 0%nat).
  { intros kp Hin. rewrite forallb_forall in Hnone.
    apply list_elem_of_In, Hnone in Hin. rewrite forallb_forall in Hin.
    induction kp.2 as [| pattern patterns IH]; simpl; [reflexivity |].
    rewrite (proj1 (negb_true_iff _) (Hin pattern (or_introl eq_refl))).
    apply IH. intros p Hp. apply Hin. right. exact Hp. }
  unfold classify_intent. cbn [scores type confidence].
  set (content := PyStr.lower (msg_get "content" message)) in *.
  assert (Hscores :
    map (fun '(intent, patterns) =>
           (intent,
            List.length (List.filter (fun pattern => re_search_i pattern content) patterns)))
      intent_patterns
    = map (fun category => (category, 0%nat)) categories).
  { transitivity (map (fun kp : string * list string => (kp.1, 0%nat)) intent_patterns);
      [| reflexivity].
    apply map_ext_in. intros [intent patterns] Hin.
    apply list_elem_of_In, Hzero in Hin. simpl in Hin. rewrite Hin. reflexivity. }
  rewrite Hscores.
  split; [reflexivity |]. split; [vm_compute; reflexivity |]. split; reflexivity.
Qed.

Lemma classify_intent_no_match_witness :
  let message : Message := <[ "content" := "zzz" ]> ∅ in
  let r := @classify_intent Instances.literal_regex message in
  type r = "greeting"
  /\ (confidence r == 0)%Q
  /\ scores r = map (fun category => (category, 0%nat)) categories
  /\ ToneMatcher.determine_tone (type r) "" "" = "friendly".
Proof.
  intros message.
  apply (@classify_intent_no_match Instances.literal_regex message).
  vm_compute. reflexivity.
Defined.

End IntentExtra.

(** ** Counting into a dictionary *)

Module CountFacts.
Import Py.
Import SafetyMonitor(count_up).

(** How often [k] occurs in [l]. *)
Definition occurrences (k : string) (l : list string) : nat :=
  length (filter (fun x => x = k) l).

Lemma occurrences_cons (k x : string) (l : list string) :
  occurrences k (x :: l) = ((if decide (x = k) then 1 else 0) + occurrences k l)%nat.
Proof.
  unfold occurrences. rewrite filter_cons.
  destruct (decide (x = k)); reflexivity.
Qed.

Lemma occurrences_app (k : string) (l1 l2 : list string) :
  occurrences k (l1 ++ l2) = (occurrences k l1 + occurrences k l2)%nat.
Proof. unfold occurrences. rewrite filter_app, length_app. reflexivity. Qed.

(** After counting the keys of [l] into [counts], a key that does not
    occur in [l] is as it was, and a key that occurs has its count raised by
    the number of its occurrences. *)
Lemma foldl_count_up (l : list string) (counts : gmap string nat) (k : string) :
  foldl count_up counts l !! k =
    if decide (occurrences k l = 0%nat) then counts !! k
    else Some (default 0%nat (counts !! k) + occurrences k l)%nat.
Proof.
  revert counts. induction l as [| x l IH]; intros counts.
  - reflexivity.
  - simpl foldl. rewrite IH, occurrences_cons. unfold count_up.
    destruct (decide (x = k)) as [-> | Hne].
    + rewrite lookup_insert_eq. cbn [default].
      unfold id. repeat case_decide; try lia; f_equal; lia.
    + rewrite lookup_insert_ne by exact Hne. reflexivity.
Qed.

(** From the empty dictionary: a key is present exactly when it occurs,
    with the number of its occurrences. *)
Lemma count_from_empty (l : list string) (k : string) :
  foldl count_up ∅ l !! k =
    if decide (occurrences k l = 0%nat) then None else Some (occurrences k l).
Proof. rewrite foldl_count_up, lookup_empty. reflexivity. Qed.

Lemma count_by_from_empty {A} (key : A -> string) (l : list A) (k : string) :
  foldl (fun counts x => count_up counts (key x)) ∅ l !! k =
    if decide (occurrences k (map key l) = 0%nat) then None
    else Some (occurrences k (map key l)).
Proof.
  rewrite <- count_from_empty. f_equal.
  generalize (∅ : gmap string nat).
  induction l as [| x l IH]; intros counts; simpl; [reflexivity | apply IH].
Qed.

Lemma count_all_from_empty {A} (keys : A -> list string) (l : list A) (k : string) :
  foldl (fun counts x => foldl count_up counts (keys x)) ∅ l !! k =
    if decide (occurrences k (concat (map keys l)) = 0%nat) then None
    else Some (occurrences k (concat (map keys l))).
Proof.
  rewrite <- count_from_empty. f_equal.
  generalize (∅ : gmap string nat).
  induction l as [| x l IH]; intros counts; simpl; [reflexivity |].
  rewrite foldl_app. apply IH.
Qed.

End CountFacts.

(** ** More on the safety monitor *)

Module SafetyExtra.
Import Py PyStr SafetyMonitor.

(** The verdict that [check_response] builds, as a function of the
    monitor, the response and the message. *)
Definition verdict `{Regex} (self : t) (response : string) (message : Message)
  : SafetyResult :=
  let result := {| safe := true; reason := ""; confidence := 1; flags := [] |} in
  let redline_check := _check_redlines self response in
  let result :=
    if negb (ck_safe redline_check)
    then fail_with result ("Redline violation: " +:+ ck_reason redline_check) "redline"
    else result in
  let content_check := ContentFilter.check_content response in
  let result :=
    if negb (ContentFilter.safe content_check)
    then fail_with result
           ("Content filter: " +:+ ContentFilter.reason content_check) "content"
    else result in
  let consent_check := ConsentManager.check_consent (consent_manager self) message in
  let result :=
    if negb (ConsentManager.consented consent_check)
    then fail_with result
           ("Consent issue: " +:+ ConsentManager.reason consent_check) "consent"
    else result in
  let relationship_check := _check_relationship_risks response message in
  if negb (ck_safe relationship_check)
  then fail_with result
         ("Relationship risk: " +:+ ck_reason relationship_check) "relationship"
  else result.

(** [check_response] never raises; it returns the verdict, logs it, and
    records the four checks. *)
Lemma check_response_eq `{Regex} (self : t) (response : string) (message : Message)
  (now : string) :
  check_response response message now self =
    (inr (verdict self response message),
     _log_safety_event self response message (verdict self response message) now,
     [ CallCheck CkRedlines; CallCheck CkContent;
       CallCheck CkConsent; CallCheck CkRelationship ]).
Proof. reflexivity. Qed.

Lemma find_exists {A} (f : A -> bool) (l : list A) (x : A) :
  In x l -> f x = true -> exists y, List.find f l = Some y /\ f y = true.
Proof.
  intros Hin Hfx. destruct (List.find f l) as [y |] eqn:Hfind.
  - exists y. split; [reflexivity |]. apply (find_some _ _ Hfind).
  - rewrite (find_none _ _ Hfind x Hin) in Hfx. discriminate.
Qed.

(** X9: a redline added is a redline enforced.  After [add_redline]
    for a term, every response that contains the term, in any mix of upper
    and lower case, is judged unsafe, with "redline" as the first flag.
    [remove_redline] for a term that was not a redline before brings the set
    back. *)
Theorem added_redline_vetoes `{Regex} (self : t) (term response : string)
  (message : Message) (now : string) :
  contains (lower term) (lower response) = true ->
  let self' := add_redline term self in
  let '(outcome, _, _) := check_response response message now self' in
  (exists v rest,
      outcome = inr v /\ safe v = false /\ flags v = "redline" :: rest)
  /\ (lower term ∉ redlines self ->
      redlines (remove_redline term self') = redlines self).
Proof.
  intros Hcontains self'. rewrite check_response_eq. split.
  - assert (Hred : ck_safe (_check_redlines self' response) = false).
    { unfold _check_redlines.
      destruct (find_exists (fun redline => contains redline (lower response))
                  (elements (redlines self')) (lower term)) as (y & Hfind & _).
      - apply list_elem_of_In, elem_of_elements. simpl.
        apply elem_of_union_l, elem_of_singleton. reflexivity.
      - exact Hcontains.
      - rewrite Hfind. reflexivity. }
    unfold verdict. rewrite Hred. cbn [negb].
    destruct (ContentFilter.safe (ContentFilter.check_content response)),
      (ConsentManager.consented
         (ConsentManager.check_consent (consent_manager self') message)),
      (ck_safe (_check_relationship_risks response message));
      cbn [negb fail_with flags safe app]; eexists; eexists;
      (split; [reflexivity |]); split; reflexivity.
  - intros Hnew. simpl. apply set_eq. intros x.
    rewrite elem_of_difference, elem_of_union, elem_of_singleton.
    split; [tauto |]. intros Hx. split; [right; exact Hx |].
    intros ->. contradiction.
Qed.

Lemma added_redline_vetoes_witness :
  let message : Message := <[ "sender" := "alice" ]> (<[ "platform" := "discord" ]> ∅) in
  let self' := add_redline "Project Falcon" init in
  let '(outcome, _, _) :=
    @check_response Instances.literal_regex "More on PROJECT FALCON soon" message "t"
      self' in
  (exists v rest,
      outcome = inr v /\ safe v = false /\ flags v = "redline" :: rest)
  /\ (lower "Project Falcon" ∉ redlines init ->
      redlines (remove_redline "Project Falcon" self') = redlines init).
Proof.
  intros message.
  apply (@added_redline_vetoes Instances.literal_regex init "Project Falcon"
           "More on PROJECT FALCON soon" message "t").
  reflexivity.
Defined.

(** X10: the safety mode and the sensitive topics are recorded and
    never consulted.  Setting the mode, to any value, or adding a sensitive
    topic changes neither the verdict of [check_response] nor the calls it
    makes; and [set_safety_mode] with a value outside "strict", "moderate",
    "lenient" leaves the monitor as it was. *)
Theorem safety_mode_is_not_consulted `{Regex} (self : t) (mode topic response : string)
  (message : Message) (now : string) :
  (check_response response message now (set_safety_mode mode self)).1.1
    = (check_response response message now self).1.1
  /\ (check_response response message now (set_safety_mode mode self)).2
     = (check_response response message now self).2
  /\ (check_response response message now (add_sensitive_topic topic self)).1.1
     = (check_response response message now self).1.1
  /\ (list_in mode ["strict"; "moderate"; "lenient"] = false ->
      set_safety_mode mode self = self)
  /\ (list_in mode ["strict"; "moderate"; "lenient"] = true ->
      get_mode (set_safety_mode mode self) = mode).
Proof.
  rewrite !check_response_eq. repeat split.
  - intros Hbad. unfold set_safety_mode. cbv zeta. rewrite Hbad.
    destruct self; reflexivity.
  - intros Hok. unfold get_mode, set_safety_mode. cbv zeta. cbn [safety_mode].
    rewrite Hok. reflexivity.
Qed.

Lemma safety_mode_is_not_consulted_witness :
  set_safety_mode "off" init = init
  /\ get_mode (set_safety_mode "lenient" init) = "lenient".
Proof.
  destruct (@safety_mode_is_not_consulted Instances.literal_regex init "off" ""
              "" ∅ "") as (_ & _ & _ & Hbad & _).
  destruct (@safety_mode_is_not_consulted Instances.literal_regex init "lenient" ""
              "" ∅ "") as (_ & _ & _ & _ & Hok).
  split; [apply Hbad | apply Hok]; reflexivity.
Defined.

End SafetyExtra.

(** ** Statistics *)

Module StatsExtra.
Import Py CountFacts.

Lemma counted_iff (c n : nat) :
  (if decide (c = 0%nat) then None else Some c) = Some n <-> (0 < n)%nat /\ n = c.
Proof.
  destruct (decide (c = 0%nat)) as [-> | Hc]; split.
  - discriminate.
  - intros [Hpos ->]. lia.
  - intros [= <-]. split; [lia | reflexivity].
  - intros [_ ->]. reflexivity.
Qed.

(** A share [part / total] of a non-empty total lies between 0 and 1. *)
Lemma share_bounds (part total : nat) :
  (part <= total)%nat -> (0 < total)%nat ->
  (0 <= inject_Z (Z.of_nat part) / inject_Z (Z.of_nat total))%Q
  /\ (inject_Z (Z.of_nat part) / inject_Z (Z.of_nat total) <= 1)%Q.
Proof.
  intros Hle Hpos.
  assert (Htotal : (0 < inject_Z (Z.of_nat total))%Q).
  { change 0%Q with (inject_Z 0). rewrite <- Zlt_Qlt. lia. }
  split.
  - apply Qle_shift_div_l; [exact Htotal |]. rewrite Qmult_0_l.
    change 0%Q with (inject_Z 0). rewrite <- Zle_Qle. lia.
  - apply Qle_shift_div_r; [exact Htotal |]. rewrite Qmult_1_l.
    rewrite <- Zle_Qle. lia.
Qed.

Lemma filter_length_le' {A} (f : A -> bool) (l : list A) :
  (length (List.filter f l) <= length l)%nat.
Proof.
  induction l as [| x l IH]; simpl; [lia |].
  destruct (f x); simpl; lia.
Qed.

Section Safety.
Import SafetyMonitor.

(** X11: the safety statistics count the event log.  They are the bare
    [{"total_events": 0}] exactly when the log is empty.  Otherwise the total
    is the length of the log, [unsafe_events] the number of events judged
    unsafe, the safety rate the share of the others, between 0 and 1; a
    platform is in the breakdown exactly when some event has it, with the
    number of those events, and a flag with the number of its occurrences
    over all events. *)
Theorem safety_stats_count_the_log (self : t) :
  (get_safety_stats self = None <-> safety_events self = [])
  /\ forall st, get_safety_stats self = Some st ->
       total_events st = length (safety_events self)
       /\ unsafe_events st
          = length (List.filter (fun event => negb (ev_safe event)) (safety_events self))
       /\ (unsafe_events st <= total_events st)%nat
       /\ (safety_rate st ==
             inject_Z (Z.of_nat (total_events st - unsafe_events st))
             / inject_Z (Z.of_nat (total_events st)))%Q
       /\ (0 <= safety_rate st)%Q /\ (safety_rate st <= 1)%Q
       /\ (forall platform n,
             platform_breakdown st !! platform = Some n <->
             (0 < n)%nat
             /\ n = occurrences platform (map ev_platform (safety_events self)))
       /\ (forall flag n,
             flag_breakdown st !! flag = Some n <->
             (0 < n)%nat
             /\ n = occurrences flag (concat (map ev_flags (safety_events self))))
       /\ current_mode st = safety_mode self
       /\ redlines_count st = size (redlines self).
Proof.
  unfold get_safety_stats.
  destruct (safety_events self) as [| event events] eqn:Hevents.
  - split; [tauto |]. intros st Hst. discriminate Hst.
  - split; [split; discriminate |].
    intros st Hst. apply (inj Some) in Hst. subst st. cbn [total_events unsafe_events safety_rate flag_breakdown
                            platform_breakdown current_mode redlines_count].
    set (log := event :: events).
    set (unsafe := length (List.filter (fun e => negb (ev_safe e)) log)).
    assert (Hunsafe : (unsafe <= length log)%nat) by apply filter_length_le'.
    assert (Hpos : (0 < length log)%nat) by (simpl; lia).
    destruct (Nat.ltb_spec 0 (length log)) as [_ | Hzero]; [| lia].
    destruct (share_bounds (length log - unsafe) (length log)) as [Hlow Hhigh];
      [lia | exact Hpos |].
    split; [reflexivity |]. split; [reflexivity |]. split; [exact Hunsafe |].
    split; [reflexivity |]. split; [exact Hlow |]. split; [exact Hhigh |].
    split; [| split; [| split; reflexivity]].
    + intros platform n. rewrite count_by_from_empty. apply counted_iff.
    + intros flag n. rewrite count_all_from_empty. apply counted_iff.
Qed.

Definition example_event (platform : string) (ok : bool) (fl : list string)
  : SafetyEvent :=
  {| ev_timestamp := "t"; ev_response := "r"; ev_original_message := "m";
     ev_sender := "alice"; ev_platform := platform; ev_safe := ok;
     ev_reason := ""; ev_flags := fl |}.

Definition example_monitor : t :=
  {| consent_manager := ConsentManager.init;
     safety_mode := "strict";
     redlines := ∅;
     sensitive_topics := ∅;
     safety_events :=
       [ example_event "discord" true [];
         example_event "email" false ["redline"; "consent"];
         example_event "discord" false ["consent"] ] |}.

Lemma safety_stats_count_the_log_witness :
  exists st,
    get_safety_stats example_monitor = Some st
    /\ total_events st = 3%nat /\ unsafe_events st = 2%nat
    /\ platform_breakdown st !! "discord" = Some 2%nat
    /\ flag_breakdown st !! "consent" = Some 2%nat
    /\ flag_breakdown st !! "content" = None.
Proof.
  destruct (get_safety_stats example_monitor) as [st |] eqn:Hst;
    [| vm_compute in Hst; discriminate Hst].
  exists st. split; [reflexivity |].
  destruct (safety_stats_count_the_log example_monitor) as [_ Hfacts].
  destruct (Hfacts st Hst) as (Htotal & Hunsafe & _ & _ & _ & _ & Hplat & Hflag & _).
  split; [exact Htotal |]. split; [exact Hunsafe |].
  split; [apply Hplat; split; [lia | reflexivity] |].
  split; [apply Hflag; split; [lia | reflexivity] |].
  destruct (flag_breakdown st !! "content") as [n |] eqn:Hn; [| reflexivity].
  apply Hflag in Hn as [Hpos Hn]. vm_compute in Hn. lia.
Defined.

End Safety.

Section Responses.
Import ResponseGenerator.
Context `{PersonalityEngine.External}.

(** X12: the response statistics count the history.  They are the bare
    [{"total_responses": 0}] exactly when the history is empty.  Otherwise
    the total is the length of the history; a platform, an intent type or a
    mood is in its breakdown exactly when some entry has it, with the number
    of those entries; and the auto-reply rate is the share of the entries
    logged with auto-reply on, between 0 and 1. *)
Theorem response_stats_count_the_history (self : ResponseGenerator.t) :
  (get_response_stats self = None <-> response_history self = [])
  /\ forall st, get_response_stats self = Some st ->
       total_responses st = length (response_history self)
       /\ (forall platform n,
             platforms st !! platform = Some n <->
             (0 < n)%nat
             /\ n = occurrences platform (map log_platform (response_history self)))
       /\ (forall intent n,
             intents st !! intent = Some n <->
             (0 < n)%nat
             /\ n = occurrences intent
                      (map (fun entry => IntentClassifier.type (log_intent entry))
                         (response_history self)))
       /\ (forall mood n,
             moods st !! mood = Some n <->
             (0 < n)%nat
             /\ n = occurrences mood (map log_mood (response_history self)))
       /\ (auto_reply_rate st ==
             inject_Z (Z.of_nat (length (List.filter log_auto_reply
                                           (response_history self))))
             / inject_Z (Z.of_nat (length (response_history self))))%Q
       /\ (0 <= auto_reply_rate st)%Q /\ (auto_reply_rate st <= 1)%Q.
Proof.
  unfold get_response_stats.
  destruct (response_history self) as [| entry entries] eqn:Hhistory.
  - split; [tauto |]. intros st Hst. discriminate Hst.
  - split; [split; discriminate |].
    intros st Hst. apply (inj Some) in Hst. subst st. cbn [total_responses platforms intents moods auto_reply_rate].
    set (log := entry :: entries).
    destruct (share_bounds (length (List.filter log_auto_reply log)) (length log))
      as [Hlow Hhigh]; [apply filter_length_le' | simpl; lia |].
    split; [reflexivity |].
    split; [intros k n; rewrite count_by_from_empty; apply counted_iff |].
    split; [intros k n; rewrite count_by_from_empty; apply counted_iff |].
    split; [intros k n; rewrite count_by_from_empty; apply counted_iff |].
    split; [reflexivity |]. split; assumption.
Qed.

End Responses.

Lemma response_stats_count_the_history_witness :
  exists st,
    @ResponseGenerator.get_response_stats Instances.services_up (LogFacts.log_many 3) = Some st
    /\ ResponseGenerator.total_responses st = 3%nat
    /\ ResponseGenerator.platforms st !! "later" = Some 2%nat
    /\ ResponseGenerator.moods st !! "default" = Some 3%nat.
Proof.
  destruct (@ResponseGenerator.get_response_stats Instances.services_up (LogFacts.log_many 3))
    as [st |] eqn:Hst; [| vm_compute in Hst; discriminate Hst].
  exists st. split; [reflexivity |].
  destruct (@response_stats_count_the_history Instances.services_up
              (LogFacts.log_many 3)) as [_ Hfacts].
  destruct (Hfacts st Hst) as (Htotal & Hplat & _ & Hmood & _).
  split; [exact Htotal |].
  split; [apply Hplat | apply Hmood]; split; (lia || reflexivity).
Defined.

End StatsExtra.

(** ** Computations that only read *)

Module MonadExtra.
Import Py.

Section Predicates.
Context {S E : Type}.

(** The computation leaves the state as it found it, whether it raises
    or not. *)
Definition read_only {A} (m : M S E A) : Prop := forall s, (m s).1.2 = s.

(** The computation ends with a value: it never raises. *)
Definition never_raises {A} (m : M S E A) : Prop :=
  forall s, exists a, (m s).1.1 = inr a.

(** Every call the computation records satisfies [P]. *)
Definition records_only {A} (P : E -> Prop) (m : M S E A) : Prop :=
  forall s, Forall P (m s).2.

Lemma read_only_ret {A} (a : A) : read_only (ret a : M S E A).
Proof. intros s. reflexivity. Qed.

Lemma read_only_get : read_only (get : M S E S).
Proof. intros s. reflexivity. Qed.

Lemma read_only_lift {A} (r : exn + A) : read_only (lift r : M S E A).
Proof. intros s. reflexivity. Qed.

Lemma read_only_emit (e : E) : read_only (emit e : M S E unit).
Proof. intros s. reflexivity. Qed.

Lemma read_only_bind {A B} (m : M S E A) (k : A -> M S E B) :
  read_only m -> (forall a, read_only (k a)) -> read_only (bind m k).
Proof.
  intros Hm Hk s. unfold bind. specialize (Hm s).
  destruct (m s) as [[[e | a] s1] t1]; simpl in *; [exact Hm |].
  specialize (Hk a s1). destruct (k a s1) as [[r s2] t2]. simpl in *. congruence.
Qed.

Lemma read_only_try {A} (body : M S E A) (handler : exn -> M S E A) :
  read_only body -> (forall e, read_only (handler e)) ->
  read_only (try_except body handler).
Proof.
  intros Hb Hh s. unfold try_except. specialize (Hb s).
  destruct (body s) as [[[e | a] s1] t1]; simpl in *; [| exact Hb].
  specialize (Hh e s1). destruct (handler e s1) as [[r s2] t2]. simpl in *. congruence.
Qed.

Lemma never_raises_ret {A} (a : A) : never_raises (ret a : M S E A).
Proof. intros s. exists a. reflexivity. Qed.

Lemma never_raises_bind {A B} (m : M S E A) (k : A -> M S E B) :
  never_raises m -> (forall a, never_raises (k a)) -> never_raises (bind m k).
Proof.
  intros Hm Hk s. unfold bind. destruct (Hm s) as [a Ha].
  destruct (m s) as [[[e | a'] s1] t1]; simpl in Ha; [discriminate |].
  destruct (Hk a' s1) as [b Hb]. destruct (k a' s1) as [[r s2] t2].
  exists b. exact Hb.
Qed.

Lemma never_raises_get : never_raises (get : M S E S).
Proof. intros s. exists s. reflexivity. Qed.

Lemma never_raises_try {A} (body : M S E A) (handler : exn -> M S E A) :
  (forall e, never_raises (handler e)) -> never_raises (try_except body handler).
Proof.
  intros Hh s. unfold try_except.
  destruct (body s) as [[[e | a] s1] t1].
  - destruct (Hh e s1) as [b Hb]. destruct (handler e s1) as [[r s2] t2].
    exists b. exact Hb.
  - exists a. reflexivity.
Qed.

Lemma records_only_ret {A} P (a : A) : records_only P (ret a : M S E A).
Proof. intros s. constructor. Qed.

Lemma records_only_get P : records_only P (get : M S E S).
Proof. intros s. constructor. Qed.

Lemma records_only_lift {A} P (r : exn + A) : records_only P (lift r : M S E A).
Proof. intros s. constructor. Qed.

Lemma records_only_emit (P : E -> Prop) (e : E) :
  P e -> records_only P (emit e : M S E unit).
Proof. intros He s. repeat constructor. exact He. Qed.

Lemma records_only_bind {A B} P (m : M S E A) (k : A -> M S E B) :
  records_only P m -> (forall a, records_only P (k a)) -> records_only P (bind m k).
Proof.
  intros Hm Hk s. unfold bind. specialize (Hm s).
  destruct (m s) as [[[e | a] s1] t1]; simpl in *; [exact Hm |].
  specialize (Hk a s1). destruct (k a s1) as [[r s2] t2]. simpl in *.
  apply Forall_app. split; assumption.
Qed.

Lemma records_only_try {A} P (body : M S E A) (handler : exn -> M S E A) :
  records_only P body -> (forall e, records_only P (handler e)) ->
  records_only P (try_except body handler).
Proof.
  intros Hb Hh s. unfold try_except. specialize (Hb s).
  destruct (body s) as [[[e | a] s1] t1]; simpl in *; [| exact Hb].
  specialize (Hh e s1). destruct (handler e s1) as [[r s2] t2]. simpl in *.
  apply Forall_app. split; assumption.
Qed.

End Predicates.

(** The closure lemmas, applied along the structure of a method. *)
Ltac along_the_code :=
  repeat first
    [ apply read_only_ret | apply read_only_get | apply read_only_lift
    | apply read_only_emit
    | apply read_only_bind; [| intros ?]
    | apply read_only_try; [| intros ?]
    | apply records_only_ret | apply records_only_get | apply records_only_lift
    | apply records_only_emit; tauto
    | apply records_only_bind; [| intros ?]
    | apply records_only_try; [| intros ?]
    | match goal with
      | |- read_only (match ?x with _ => _ end) => destruct x
      | |- records_only _ (match ?x with _ => _ end) => destruct x
      end ].

End MonadExtra.

(** ** More on the personality engine *)

Module EngineExtra.
Import Py PyStr Np PersonalityEngine MonadExtra.

Section Engine.
Context `{External} `{Numpy}.

(** The calls the engine makes to the outside while it answers. *)
Definition capability_call (e : event) : Prop :=
  e = CallEncode \/ e = CallChatCompletion.

Lemma _find_similar_responses_reads (input_text context : string) :
  read_only (_find_similar_responses input_text context)
  /\ records_only capability_call (_find_similar_responses input_text context).
Proof.
  unfold _find_similar_responses, capability_call. split; along_the_code.
Qed.

Lemma _generate_with_personality_reads (input_text context mood : string)
  (similar_responses : list string) :
  read_only (_generate_with_personality input_text context mood similar_responses)
  /\ records_only capability_call
       (_generate_with_personality input_text context mood similar_responses)
  /\ never_raises
       (_generate_with_personality input_text context mood similar_responses).
Proof.
  unfold _generate_with_personality, capability_call.
  split; [along_the_code | split; [along_the_code |]].
  apply never_raises_bind; [apply never_raises_get | intros self].
  apply never_raises_try. intros e. apply never_raises_ret.
Qed.

Lemma generate_response_reads (input_text context mood : string) :
  read_only (generate_response input_text context mood)
  /\ records_only capability_call (generate_response input_text context mood)
  /\ never_raises (generate_response input_text context mood).
Proof.
  unfold generate_response.
  destruct (_find_similar_responses_reads input_text context) as [Hfr Hfc].
  split; [| split].
  - apply read_only_bind; [apply read_only_get | intros self].
    destruct (negb (trained self)); [apply read_only_ret |].
    apply read_only_try; [| intros e; apply read_only_ret].
    apply read_only_bind; [exact Hfr | intros similar].
    apply read_only_bind; [| intros r; apply read_only_ret].
    apply _generate_with_personality_reads.
  - apply records_only_bind; [apply records_only_get | intros self].
    destruct (negb (trained self)); [apply records_only_ret |].
    apply records_only_try; [| intros e; apply records_only_ret].
    apply records_only_bind; [exact Hfc | intros similar].
    apply records_only_bind; [| intros r; apply records_only_ret].
    apply _generate_with_personality_reads.
  - apply never_raises_bind; [apply never_raises_get | intros self].
    destruct (negb (trained self)); [apply never_raises_ret |].
    apply never_raises_try. intros e. apply never_raises_ret.
Qed.

(** X13: [generate_response] never raises and never changes the engine.
    Whatever the state of the engine and whatever the capabilities do, it
    returns a text and leaves the engine as it was; the only calls it makes
    are to the embedding and the generation capability; on an engine that is
    not trained it returns the "still learning" text without any call. *)
Theorem generate_response_is_safe_to_call (self : t)
  (input_text context mood : string) :
  exists text calls,
    generate_response input_text context mood self = (inr text, self, calls)
    /\ Forall capability_call calls
    /\ (trained self = false -> text = still_learning /\ calls = []).
Proof.
  destruct (generate_response_reads input_text context mood) as (Hro & Hcalls & Hnr).
  specialize (Hro self). specialize (Hcalls self). destruct (Hnr self) as [text Htext].
  assert (Huntrained : trained self = false ->
            generate_response input_text context mood self
            = (inr still_learning, self, [])).
  { intros Hu. unfold generate_response. rewrite MonadFacts.bind_get, Hu. reflexivity. }
  destruct (generate_response input_text context mood self) as [[r s'] calls].
  simpl in *. subst r s'. exists text, calls.
  split; [reflexivity |]. split; [exact Hcalls |].
  intros Hu. specialize (Huntrained Hu). injection Huntrained as -> ->.
  split; reflexivity.
Qed.

End Engine.

Lemma generate_response_is_safe_to_call_witness :
  exists text calls,
    @generate_response Instances.services_down Instances.numpy_stable
      "hello" "" "default" (@init Instances.services_down)
    = (inr text, @init Instances.services_down, calls)
    /\ Forall capability_call calls
    /\ (@trained Instances.services_down (@init Instances.services_down) = false ->
        text = still_learning /\ calls = []).
Proof.
  apply (@generate_response_is_safe_to_call Instances.services_down
           Instances.numpy_stable).
Defined.

End EngineExtra.

(** ** More on training *)

Module TrainingExtra.
Import Py PyStr Np PersonalityEngine.

(** A sample that carries nothing: no annotation and no text. *)
Definition is_blank (sample : Sample) : bool :=
  match personality sample with
  | None => String.eqb (content sample) ""
  | Some _ => false
  end.

Definition counter_error : exn := NameError "Counter".

Lemma omap_personality_blank (data : list Sample) :
  forallb is_blank data = true -> omap personality data = [].
Proof.
  induction data as [| sample data IH]; simpl; [reflexivity |].
  intros Hall. apply andb_prop in Hall as [Hs Hrest].
  unfold is_blank in Hs. destruct (personality sample); [discriminate |].
  apply IH, Hrest.
Qed.

Lemma contents_blank (data : list Sample) :
  forallb is_blank data = true ->
  filter (fun c : string => c <> "") (map content data) = [].
Proof.
  induction data as [| sample data IH]; simpl; [reflexivity |].
  intros Hall. apply andb_prop in Hall as [Hs Hrest].
  unfold is_blank in Hs. destruct (personality sample); [discriminate |].
  apply String.eqb_eq in Hs. rewrite filter_cons, Hs.
  destruct (decide ("" <> "")) as [Hne | _]; [contradiction |].
  apply IH, Hrest.
Qed.

(** Trait extraction has two outcomes: the empty traits when no sample
    is annotated, the error on [Counter] when one is. *)
Lemma _extract_personality_traits_cases (data : list Sample) :
  (omap personality data = []
   /\ _extract_personality_traits data = inr (PDict empty_traits))
  \/ (omap personality data <> []
      /\ _extract_personality_traits data = inl counter_error).
Proof.
  unfold _extract_personality_traits.
  destruct (omap personality data) as [| p ps].
  - left. split; reflexivity.
  - right. split; [discriminate | reflexivity].
Qed.

(** The style stage has two outcomes: the empty patterns when no sample
    has text, the error on [Counter] when one has. *)
Lemma _build_style_patterns_cases (data : list Sample) :
  (filter (fun c : string => c <> "") (map content data) = []
   /\ _build_style_patterns data = inr (PDict empty_patterns))
  \/ (filter (fun c : string => c <> "") (map content data) <> []
      /\ _build_style_patterns data = inl counter_error).
Proof.
  unfold _build_style_patterns.
  destruct (filter (fun c : string => c <> "") (map content data)) as [| c cs].
  - left. split; reflexivity.
  - right. split; [discriminate | reflexivity].
Qed.

Lemma texts_to_embed_nil (data : list Sample) :
  filter (fun c : string => c <> "") (map content data) = [] ->
  texts_to_embed data = [].
Proof.
  unfold texts_to_embed. generalize (map content data). intros contents Hnone.
  induction contents as [| c contents IH]; [reflexivity |].
  rewrite filter_cons in Hnone. rewrite filter_cons.
  destruct (decide (c <> "")) as [Hc | Hc]; [discriminate Hnone |].
  destruct (decide (c <> "" /\ (10 < String.length (strip c))%nat)) as [[Hc' _] | _];
    [contradiction |].
  apply IH, Hnone.
Qed.

Ltac run :=
  cbv beta iota zeta;
  cbn [fst snd app sentence_model personality_profile style_patterns trained
       embeddings texts belief_matrix model_name set_sentence_model
       set_personality_profile set_style_patterns set_belief_matrix set_trained
       set_index].

(** The embedding model is there for a run: it is loaded already, or
    loading it succeeds. *)
Definition model_available `{External} (self : t) : Prop :=
  is_Some (sentence_model self)
  \/ exists model, SentenceTransformer (model_name self) = inr model.

(** What a run of [train_personality] can do to the engine, stage by
    stage. *)
Lemma train_personality_effects `{External} (data : list Sample) (self : t) :
  let '(outcome, self', calls) := train_personality data self in
  calls = match sentence_model self with
          | Some _ => []
          | None => [CallSentenceTransformer]
          end
  /\ embeddings self' = embeddings self
  /\ texts self' = texts self
  /\ model_name self' = model_name self
  /\ (personality_profile self' = personality_profile self
      \/ personality_profile self' = PDict empty_traits)
  /\ (style_patterns self' = style_patterns self
      \/ style_patterns self' = PDict empty_patterns)
  /\ (trained self' = trained self \/ trained self' = true)
  /\ (is_Some (sentence_model self) -> sentence_model self' = sentence_model self)
  /\ (trained self' = true -> trained self = false -> is_Some (sentence_model self'))
  /\ (model_available self ->
      (forallb is_blank data = true ->
         outcome = inr (TrainSuccess (PDict empty_traits) (PDict empty_patterns)
                          (length data))
         /\ trained self' = true)
      /\ (forallb is_blank data = false ->
          outcome = inr (TrainFailure "name 'Counter' is not defined")
          /\ trained self' = trained self
          /\ style_patterns self' = style_patterns self)).
Proof.
  assert (Hblank : forallb is_blank data = true ->
            omap personality data = []
            /\ filter (fun c : string => c <> "") (map content data) = []).
  { intros Hb. split; [apply omap_personality_blank | apply contents_blank]; exact Hb. }
  assert (Hnot_blank : forallb is_blank data = false ->
            omap personality data <> []
            \/ filter (fun c : string => c <> "") (map content data) <> []).
  { clear Hblank. induction data as [| sample data IH]; simpl; [discriminate |].
    unfold is_blank at 1.
    destruct (personality sample) as [p |]; [intros _; left; discriminate |].
    destruct (String.eqb_spec (content sample) "") as [Hc | Hc]; simpl.
    - intros Hrest. rewrite filter_cons, Hc.
      destruct (decide ("" <> "")) as [Hne | _]; [contradiction |].
      apply IH, Hrest.
    - intros _. right. rewrite filter_cons.
      destruct (decide (content sample <> "")) as [_ | Hno]; [discriminate | contradiction]. }
  unfold train_personality, _build_embedding_database, try_except, bind, get,
    modify, emit, lift, ret, model_available.
  destruct (_extract_personality_traits_cases data) as [[Hp He] | [Hp He]];
    destruct (_build_style_patterns_cases data) as [[Hc Hs] | [Hc Hs]];
    rewrite He, ?Hs, ?(texts_to_embed_nil data Hc);
    (destruct (sentence_model self) as [model |] eqn:Hmodel; run;
     [| destruct (SentenceTransformer (model_name self)) as [e0 | model] eqn:Hload; run]);
    rewrite ?Hmodel; run;
    repeat match goal with |- _ /\ _ => split end;
    try reflexivity; try (left; reflexivity); try (right; reflexivity);
    try (intros; congruence);
    try (intros [m Hm]; discriminate Hm);
    try (intros _ _; rewrite ?Hmodel; eexists; reflexivity);
    try (intros Hav; split; intros Hb;
         [ destruct (Hblank Hb) as [Hp' Hc'] | destruct (Hnot_blank Hb) as [Hp' | Hc'] ];
         try congruence;
         try (destruct Hav as [[m Hm] | [m Hm]]; congruence);
         repeat split; reflexivity).
Qed.

(** X14: with the embedding model available, a training run succeeds
    exactly on samples that carry nothing (no [personality] key and an
    empty [content]); it then returns the empty profile and patterns and
    sets the trained flag.  On any other data it returns the failure
    "name 'Counter' is not defined" and leaves the trained flag as it
    was. *)
Theorem training_succeeds_only_on_blank_samples `{External}
  (data : list Sample) (self : t) (Hmodel : model_available self) :
  (train_personality data self).1.1
  = inr (if forallb is_blank data
         then TrainSuccess (PDict empty_traits) (PDict empty_patterns) (length data)
         else TrainFailure "name 'Counter' is not defined")
  /\ trained (train_personality data self).1.2
     = (forallb is_blank data || trained self).
Proof.
  pose proof (train_personality_effects data self) as Heff.
  destruct (train_personality data self) as [[outcome self'] calls].
  destruct Heff as (_ & _ & _ & _ & _ & _ & _ & _ & _ & Hcases).
  destruct (Hcases Hmodel) as [Hblank Hother]. simpl.
  destruct (forallb is_blank data).
  - destruct (Hblank eq_refl) as [-> ->]. split; reflexivity.
  - destruct (Hother eq_refl) as (-> & -> & _). split; reflexivity.
Qed.

Lemma training_succeeds_only_on_blank_samples_witness :
  let data := [ {| content := "see you at nine"; personality := None |} ] in
  (@train_personality Instances.services_up data
     (@init Instances.services_up)).1.1
  = inr (TrainFailure "name 'Counter' is not defined")
  /\ @trained Instances.services_up
       (@train_personality Instances.services_up data
          (@init Instances.services_up)).1.2
     = false.
Proof.
  apply (@training_succeeds_only_on_blank_samples Instances.services_up
           [ {| content := "see you at nine"; personality := None |} ]
           (@init Instances.services_up)).
  right. exists "all-MiniLM-L6-v2". reflexivity.
Defined.

(** X15: no training run builds the embedding index.  Whatever the data
    and the capabilities, [embeddings] and [texts] are after the run what
    they were before it, [encode] is never called (the only call is the
    loading of the model, when none is loaded), and the profile and the
    style patterns are each either unchanged or the empty structure. *)
Theorem training_never_builds_the_index `{External}
  (data : list Sample) (self : t) :
  let self' := (train_personality data self).1.2 in
  embeddings self' = embeddings self
  /\ texts self' = texts self
  /\ Forall (fun call => call = CallSentenceTransformer)
       (train_personality data self).2
  /\ (personality_profile self' = personality_profile self
      \/ personality_profile self' = PDict empty_traits)
  /\ (style_patterns self' = style_patterns self
      \/ style_patterns self' = PDict empty_patterns).
Proof.
  pose proof (train_personality_effects data self) as Heff.
  destruct (train_personality data self) as [[outcome self'] calls].
  destruct Heff as (Hcalls & He & Ht & _ & Hp & Hs & _). simpl.
  repeat split; try assumption.
  subst calls. destruct (sentence_model self); repeat constructor.
Qed.

(** The engine after a series of training runs. *)
Definition train_all `{External} (runs : list (list Sample)) (self : t) : t :=
  foldl (fun engine data => (train_personality data engine).1.2) self runs.

(** What holds of every engine that [__init__] made and that was then
    only trained: the index is the empty list of [__init__], and a trained
    engine has its model loaded. *)
Definition only_trained `{External} (self : t) : Prop :=
  embeddings self = PyList []
  /\ (trained self = true -> is_Some (sentence_model self)).

Lemma only_trained_init `{External} : only_trained init.
Proof. split; [reflexivity | discriminate]. Qed.

Lemma only_trained_step `{External} (data : list Sample) (self : t) :
  only_trained self -> only_trained (train_personality data self).1.2.
Proof.
  intros [Hindex Hloaded].
  pose proof (train_personality_effects data self) as Heff.
  destruct (train_personality data self) as [[outcome self'] calls].
  destruct Heff as (_ & He & _ & _ & _ & _ & _ & Hkeep & Hnew & _). simpl.
  split; [congruence |].
  intros Htrained. destruct (trained self) eqn:Hbefore.
  - rewrite (Hkeep (Hloaded eq_refl)). apply Hloaded. reflexivity.
  - apply Hnew; [exact Htrained | reflexivity].
Qed.

Lemma only_trained_all `{External} (runs : list (list Sample)) (self : t) :
  only_trained self -> only_trained (train_all runs self).
Proof.
  revert self. induction runs as [| data runs IH]; intros self Hinv; [exact Hinv |].
  apply IH, only_trained_step, Hinv.
Qed.

(** On such an engine [generate_response] stops before the retrieval:
    reading [size] of the list raises, and the [except] answers. *)
Lemma generate_response_only_trained `{External} `{Numpy} (engine : t)
  (input_text context mood : string) :
  only_trained engine ->
  generate_response input_text context mood engine
  = (inr (if trained engine then trouble_responding else still_learning),
     engine, []).
Proof.
  intros [Hindex Hloaded].
  unfold generate_response. rewrite MonadFacts.bind_get.
  destruct (trained engine) eqn:Htrained; [| reflexivity].
  destruct (Hloaded eq_refl) as [model Hmodel].
  cbn [negb].
  unfold try_except, _find_similar_responses, bind, get, lift, ret, raise.
  cbv beta iota zeta. rewrite Hmodel. cbv beta iota zeta. rewrite Hindex.
  reflexivity.
Qed.

(** X16: an engine made by [__init__] and then trained, any number of
    times and on any data, never reaches the generation call.
    [generate_response] answers with the "still learning" text while the
    engine is not trained and with "Sorry, I'm having trouble responding
    right now." once it is (the index is still the list of [__init__],
    which has no [size]); either way no capability is called and the engine
    is unchanged. *)
Theorem engine_never_reaches_generation `{External} `{Numpy}
  (runs : list (list Sample)) (input_text context mood : string) :
  let engine := train_all runs init in
  generate_response input_text context mood engine
  = (inr (if trained engine then trouble_responding else still_learning),
     engine, []).
Proof.
  cbv zeta. apply generate_response_only_trained, only_trained_all, only_trained_init.
Qed.

End TrainingExtra.

(** ** Retrieval on the engines the program makes *)

Module RetrievalFacts.
Import Py PyStr Np PersonalityEngine TrainingExtra.

(** No run assigns [texts]: the list is the one the first engine had. *)
Lemma train_all_texts `{External} (runs : list (list Sample)) (self : t) :
  texts (train_all runs self) = texts self.
Proof.
  revert self. induction runs as [| data runs IH]; intros self; [reflexivity |].
  simpl. fold (train_all runs (train_personality data self).1.2). rewrite IH.
  pose proof (train_personality_effects data self) as Heff.
  destruct (train_personality data self) as [[outcome self'] calls].
  destruct Heff as (_ & _ & Htexts & _). exact Htexts.
Qed.

(** What [_find_similar_responses] does while [embeddings] is the list
    of [__init__]: without a model it returns no text, and with one it
    raises on [size] before anything is computed. *)
Lemma _find_similar_responses_on_list `{External} `{Numpy} (self : t)
  (input_text context : string) (l : list vec) :
  embeddings self = PyList l ->
  _find_similar_responses input_text context self
  = match sentence_model self with
    | None => (inr [], self, [])
    | Some _ =>
        (inl (AttributeError "'list' object has no attribute 'size'"), self, [])
    end.
Proof.
  intros Hlist. unfold _find_similar_responses. rewrite MonadFacts.bind_get.
  destruct (sentence_model self) as [model |]; [| reflexivity].
  rewrite Hlist. reflexivity.
Qed.

(** C4: the retrieval that the claim describes is never carried out.
    On every engine that [__init__] and any number of [train_personality]
    runs make, the index holds no record ([embeddings] is still the list of
    [__init__] and [texts] is empty), and [_find_similar_responses] returns
    no text whatever the query: with no model loaded it returns the empty
    list, and with a model loaded, as on every trained engine, it raises
    [AttributeError] on [self.embeddings.size] before a similarity is
    computed, makes no call and leaves the engine as it was. *)
Theorem retrieval_raises_on_trained_engine `{External} `{Numpy}
  (runs : list (list Sample)) (input_text context : string) :
  let engine := train_all runs init in
  embeddings engine = PyList []
  /\ texts engine = []
  /\ (trained engine = true -> is_Some (sentence_model engine))
  /\ _find_similar_responses input_text context engine
     = match sentence_model engine with
       | None => (inr [], engine, [])
       | Some _ =>
           (inl (AttributeError "'list' object has no attribute 'size'"), engine, [])
       end.
Proof.
  cbv zeta.
  destruct (only_trained_all runs init only_trained_init) as [Hindex Hloaded].
  split; [exact Hindex |].
  split; [rewrite train_all_texts; reflexivity |].
  split; [exact Hloaded |].
  apply (_find_similar_responses_on_list _ _ _ []), Hindex.
Qed.

(** The failing input of C4: a fresh engine trained on no sample, with
    the model loading.  The run succeeds and the engine is trained; the
    retrieval then raises instead of returning the (empty) list of the
    records above the threshold. *)
Example retrieval_raises_after_training_on_nothing :
  let engine :=
    (@train_personality Instances.services_up [] (@init Instances.services_up)).1.2 in
  @trained Instances.services_up engine = true
  /\ @_find_similar_responses Instances.services_up Instances.numpy_stable
       "hello" "" engine
     = (inl (AttributeError "'list' object has no attribute 'size'"), engine, []).
Proof. vm_compute. split; reflexivity. Qed.

End RetrievalFacts.

(** ** More on the response pipeline *)

Module PipelineExtra.
Import Py PyStr Np ResponseGenerator MonadExtra.
Import EngineExtra(capability_call).

Section Pipeline.
Context `{PersonalityEngine.External} `{Numpy} `{Regex}.

(** The engine is an object shared with the generator: writing back the
    engine that is there changes nothing. *)
Lemma set_personality_engine_same (engine : PersonalityEngine.t) (self : t) :
  personality_engine self = Some engine -> set_personality_engine engine self = self.
Proof. destruct self. simpl. intros ->. reflexivity. Qed.

Definition placeholder : string := "I'm still learning how to respond like you!".

(** [_generate_response] never raises and leaves the generator as it
    was; its text is the placeholder when no engine is set, and otherwise
    what the engine answered, unchanged by the tone step. *)
Lemma _generate_response_eq (self : t) (message : Message)
  (intent : IntentClassifier.Intent) (platform : string) :
  exists text calls,
    _generate_response message intent platform self
    = (inr text, self, CallGenerateResponse :: calls)
    /\ Forall capability_call calls
    /\ match personality_engine self with
       | None => text = placeholder /\ calls = []
       | Some engine =>
           PersonalityEngine.generate_response (msg_get "content" message)
             (msg_get "context" message) (current_mood self) engine
           = (inr text, engine, calls)
       end.
Proof.
  unfold _generate_response. rewrite MonadFacts.bind_emit, MonadFacts.bind_get.
  destruct (personality_engine self) as [engine |] eqn:Hengine.
  - destruct (EngineExtra.generate_response_reads (msg_get "content" message)
                (msg_get "context" message) (current_mood self))
      as (Hro & Hcalls & Hnr).
    specialize (Hro engine). specialize (Hcalls engine).
    destruct (Hnr engine) as [text Htext].
    unfold bind, zoom, ret.
    destruct (PersonalityEngine.generate_response (msg_get "content" message)
                (msg_get "context" message) (current_mood self) engine)
      as [[r engine'] calls].
    simpl in Hro, Hcalls, Htext. subst r engine'.
    exists text, calls.
    rewrite ToneMatcherFacts.apply_tone_unchanged,
      (set_personality_engine_same engine self Hengine), app_nil_r.
    repeat split; [exact Hcalls].
  - exists placeholder, []. repeat split. constructor.
Qed.

(** The generator after the safety check of a response: the monitor has
    logged the event. *)
Definition checked (self : t) (response : string) (message : Message)
  (now_safety : string) : t :=
  match safety_monitor self with
  | Some monitor =>
      set_safety_monitor
        (SafetyMonitor._log_safety_event monitor response message
           (SafetyExtra.verdict monitor response message) now_safety)
        self
  | None => self
  end.

(** The checks recorded by the safety step. *)
Definition check_calls (self : t) : list event :=
  match safety_monitor self with
  | Some _ =>
      [ CallCheck CkRedlines; CallCheck CkContent;
        CallCheck CkConsent; CallCheck CkRelationship ]
  | None => []
  end.

(** The reason for which the monitor holds a response back, if it
    does. *)
Definition held_back (self : t) (response : string) (message : Message)
  : option string :=
  match safety_monitor self with
  | Some monitor =>
      let verdict := SafetyExtra.verdict monitor response message in
      if SafetyMonitor.safe verdict then None
      else Some (SafetyMonitor.reason verdict)
  | None => None
  end.

(** The run of [process_incoming_message] with auto-reply on, given the
    text that [_generate_response] produced. *)
Lemma process_incoming_message_eq (self : t) (message : Message)
  (platform now_safety now_log text : string) (calls : list event) :
  auto_reply_enabled self = true ->
  _generate_response message (IntentClassifier.classify_intent message) platform self
  = (inr text, self, CallGenerateResponse :: calls) ->
  process_incoming_message message platform now_safety now_log self
  = let intent := IntentClassifier.classify_intent message in
    let self' := checked self text message now_safety in
    let trace := CallGenerateResponse :: calls ++ check_calls self in
    match held_back self text message with
    | Some why =>
        (inr {| action := "manual_review";
                reason := Some ("Safety concern: " +:+ why);
                intent := Some intent;
                response := Some text;
                error := None;
                message := message |},
         self', trace)
    | None =>
        if override_required self then
          (inr {| action := "manual_approval";
                  reason := None;
                  intent := Some intent;
                  response := Some text;
                  error := None;
                  message := message |},
           self', trace)
        else
          (inr {| action := "sent";
                  reason := None;
                  intent := Some intent;
                  response := Some text;
                  error := None;
                  message := message |},
           _log_response message text intent platform now_log self',
           trace ++ [CallSendResponse])
    end.
Proof.
  intros Hon Hgen.
  unfold process_incoming_message, try_except.
  rewrite MonadFacts.bind_get, Hon. cbn [negb]. cbv iota.
  unfold bind at 1. rewrite Hgen.
  unfold checked, check_calls, held_back.
  destruct (safety_monitor self) as [monitor |] eqn:Hmonitor.
  - unfold bind at 2. unfold zoom. rewrite SafetyExtra.check_response_eq.
    unfold ret at 1. unfold bind at 1. cbv beta iota zeta.
    destruct (SafetyExtra.verdict monitor text message) as [safe why confidence flags].
    cbn [SafetyMonitor.safe SafetyMonitor.reason].
    destruct safe.
    + unfold bind, get, ret, modify, _send_response, emit. cbv beta iota zeta.
      cbn [override_required set_safety_monitor].
      destruct (override_required self); cbv beta iota zeta; cbn [app];
        rewrite ?app_nil_r, <- ?app_assoc; reflexivity.
    + unfold ret. cbv beta iota zeta. cbn [app]. rewrite ?app_nil_r. reflexivity.
  - unfold bind, get, ret, modify, _send_response, emit. cbv beta iota zeta.
    destruct (override_required self); cbv beta iota zeta; cbn [app];
      rewrite ?app_nil_r; reflexivity.
Qed.

(** Every run of [process_incoming_message]: the early return when
    auto-reply is off, and otherwise the run above. *)
Lemma process_incoming_message_cases (self : t) (message : Message)
  (platform now_safety now_log : string) :
  (auto_reply_enabled self = false
   /\ process_incoming_message message platform now_safety now_log self
      = (inr {| action := "manual_review";
                reason := Some "Auto-reply disabled";
                intent := Some (IntentClassifier.classify_intent message);
                response := None;
                error := None;
                message := message |},
         self, []))
  \/ (auto_reply_enabled self = true
      /\ exists text calls,
           Forall capability_call calls
           /\ match personality_engine self with
              | None => text = placeholder /\ calls = []
              | Some engine =>
                  PersonalityEngine.generate_response (msg_get "content" message)
                    (msg_get "context" message) (current_mood self) engine
                  = (inr text, engine, calls)
              end
           /\ process_incoming_message message platform now_safety now_log self
              = let intent := IntentClassifier.classify_intent message in
                let self' := checked self text message now_safety in
                let trace := CallGenerateResponse :: calls ++ check_calls self in
                match held_back self text message with
                | Some why =>
                    (inr {| action := "manual_review";
                            reason := Some ("Safety concern: " +:+ why);
                            intent := Some intent;
                            response := Some text;
                            error := None;
                            message := message |},
                     self', trace)
                | None =>
                    if override_required self then
                      (inr {| action := "manual_approval";
                              reason := None;
                              intent := Some intent;
                              response := Some text;
                              error := None;
                              message := message |},
                       self', trace)
                    else
                      (inr {| action := "sent";
                              reason := None;
                              intent := Some intent;
                              response := Some text;
                              error := None;
                              message := message |},
                       _log_response message text intent platform now_log self',
                       trace ++ [CallSendResponse])
                end).
Proof.
  destruct (auto_reply_enabled self) eqn:Hon.
  - right. split; [reflexivity |].
    destruct (_generate_response_eq self message
                (IntentClassifier.classify_intent message) platform)
      as (text & calls & Hgen & Hcalls & Hengine).
    exists text, calls. split; [exact Hcalls |]. split; [exact Hengine |].
    apply process_incoming_message_eq; assumption.
  - left. split; [reflexivity |].
    unfold process_incoming_message, try_except, bind, get, ret.
    rewrite Hon. reflexivity.
Qed.

(** The safety step changes only the monitor. *)
Lemma checked_settings (self : t) (text : string) (message : Message)
  (now_safety : string) :
  let self' := checked self text message now_safety in
  personality_engine self' = personality_engine self
  /\ auto_reply_enabled self' = auto_reply_enabled self
  /\ override_required self' = override_required self
  /\ current_mood self' = current_mood self
  /\ response_history self' = response_history self.
Proof. unfold checked. destruct (safety_monitor self); repeat split. Qed.

(** Neither the engine nor the checks send anything. *)
Lemma no_send_before_the_end (self : t) (calls : list event) :
  Forall capability_call calls ->
  ~ In CallSendResponse (CallGenerateResponse :: calls ++ check_calls self).
Proof.
  intros Hcalls [Habs | Hin]; [discriminate |].
  apply in_app_or in Hin as [Hin | Hin].
  - rewrite List.Forall_forall in Hcalls.
    destruct (Hcalls _ Hin) as [Habs | Habs]; discriminate.
  - unfold check_calls in Hin. destruct (safety_monitor self); simpl in Hin;
      intuition discriminate.
Qed.

(** The history after [_log_response] has run on it. *)
Definition logged (history : list LogEntry) (entry : LogEntry) : list LogEntry :=
  if (1000 <? length (history ++ [entry]))%nat
  then last_n 1000 (history ++ [entry])
  else history ++ [entry].

(** X17: a response that the safety monitor finds unsafe is never sent.
    With auto-reply on and a monitor set, the reply carries the generated
    text; when the monitor's verdict on that text is unsafe the reply is
    "manual_review" with the reason "Safety concern: " followed by the
    verdict's reason, [_send_response] is not called and the response
    history is unchanged.  In every case the monitor has logged the
    verdict. *)
Theorem unsafe_response_is_held_back (self : t) (monitor : SafetyMonitor.t)
  (message : Message) (platform now_safety now_log : string)
  (Hon : auto_reply_enabled self = true)
  (Hmonitor : safety_monitor self = Some monitor) :
  let '(out, self', calls) :=
    process_incoming_message message platform now_safety now_log self in
  exists reply text,
    out = inr reply
    /\ response reply = Some text
    /\ safety_monitor self'
       = Some (SafetyMonitor._log_safety_event monitor text message
                 (SafetyExtra.verdict monitor text message) now_safety)
    /\ (SafetyMonitor.safe (SafetyExtra.verdict monitor text message) = false ->
        action reply = "manual_review"
        /\ reason reply
           = Some ("Safety concern: "
                   +:+ SafetyMonitor.reason (SafetyExtra.verdict monitor text message))
        /\ ~ In CallSendResponse calls
        /\ response_history self' = response_history self).
Proof.
  destruct (process_incoming_message_cases self message platform now_safety now_log)
    as [[Hoff _] | (_ & text & calls & Hcalls & _ & ->)]; [congruence |].
  cbv zeta. pose proof (no_send_before_the_end self calls Hcalls) as Hnosend.
  unfold held_back, checked. rewrite Hmonitor.
  destruct (SafetyMonitor.safe (SafetyExtra.verdict monitor text message)) eqn:Hsafe;
    [destruct (override_required self) |];
    eexists _, text; (split; [reflexivity |]);
    (split; [reflexivity |]); (split; [reflexivity |]);
    intros Hunsafe; try congruence.
  split; [reflexivity |]. split; [reflexivity |].
  split; [exact Hnosend | reflexivity].
Qed.

(** X18: while an override is required nothing is sent.  Whatever else
    the generator's state is, [process_incoming_message] then answers
    "manual_review" or "manual_approval", does not call [_send_response]
    and leaves the response history as it was. *)
Theorem override_holds_every_response (self : t) (message : Message)
  (platform now_safety now_log : string)
  (Hoverride : override_required self = true) :
  let '(out, self', calls) :=
    process_incoming_message message platform now_safety now_log self in
  exists reply,
    out = inr reply
    /\ (action reply = "manual_review" \/ action reply = "manual_approval")
    /\ ~ In CallSendResponse calls
    /\ response_history self' = response_history self
    /\ override_required self' = true.
Proof.
  destruct (process_incoming_message_cases self message platform now_safety now_log)
    as [[Hoff ->] | (_ & text & calls & Hcalls & _ & ->)].
  - eexists. split; [reflexivity |]. split; [left; reflexivity |].
    split; [intros [] |]. split; [reflexivity | exact Hoverride].
  - cbv zeta. pose proof (no_send_before_the_end self calls Hcalls) as Hnosend.
    destruct (checked_settings self text message now_safety)
      as (_ & _ & Ho & _ & Hh).
    rewrite Hoverride.
    destruct (held_back self text message);
      (eexists; split; [reflexivity |]);
      (split; [first [left; reflexivity | right; reflexivity] |]);
      (split; [exact Hnosend |]); split; congruence.
Qed.

(** X19: a reply is "sent" exactly when [_send_response] was called, and
    exactly then the history gains an entry.  [process_incoming_message]
    never raises and never takes its "error" branch (on messages whose
    fields are strings): the action is "manual_review", "manual_approval"
    or "sent".  When it is "sent", [_send_response] was called once, as the
    last call, and the history is the old one with one entry appended (cut
    to the last 1000) that holds the reply's text, the platform, the mood
    and [auto_reply = True]; otherwise [_send_response] was not called and
    the history is unchanged. *)
Theorem reply_sent_exactly_when_logged (self : t) (message : Message)
  (platform now_safety now_log : string) :
  let '(out, self', calls) :=
    process_incoming_message message platform now_safety now_log self in
  exists reply,
    out = inr reply
    /\ error reply = None
    /\ ((action reply = "sent"
         /\ (exists before, calls = before ++ [CallSendResponse]
                            /\ ~ In CallSendResponse before)
         /\ exists text,
              response reply = Some text
              /\ response_history self'
                 = logged (response_history self)
                     {| log_timestamp := now_log;
                        log_platform := platform;
                        log_original_message := message;
                        log_response := text;
                        log_intent := IntentClassifier.classify_intent message;
                        log_mood := current_mood self;
                        log_auto_reply := true |})
        \/ ((action reply = "manual_review" \/ action reply = "manual_approval")
            /\ ~ In CallSendResponse calls
            /\ response_history self' = response_history self)).
Proof.
  destruct (process_incoming_message_cases self message platform now_safety now_log)
    as [[Hoff ->] | (Hon & text & calls & Hcalls & _ & ->)].
  - eexists. split; [reflexivity |]. split; [reflexivity |]. right.
    split; [left; reflexivity |]. split; [intros [] | reflexivity].
  - cbv zeta. pose proof (no_send_before_the_end self calls Hcalls) as Hnosend.
    destruct (checked_settings self text message now_safety)
      as (_ & Ha & _ & Hm & Hh).
    destruct (held_back self text message);
      [| destruct (override_required self)];
      (eexists; split; [reflexivity |]; split; [reflexivity |]).
    + right. split; [left; reflexivity |]. split; [exact Hnosend | exact Hh].
    + right. split; [right; reflexivity |]. split; [exact Hnosend | exact Hh].
    + left. split; [reflexivity |].
      split; [eexists; split; [reflexivity | exact Hnosend] |].
      exists text. split; [reflexivity |].
      unfold _log_response, logged. cbn [response_history set_response_history].
      rewrite Hh, Hm, Ha, Hon. reflexivity.
Qed.

(** X20: a generator without a personality engine answers with a fixed
    placeholder, and sends it.  With auto-reply on and no engine set the
    reply's text is "I'm still learning how to respond like you!" and no
    capability is called; with no safety monitor and no override either,
    that text is sent and logged. *)
Theorem no_engine_sends_placeholder (self : t) (message : Message)
  (platform now_safety now_log : string)
  (Hon : auto_reply_enabled self = true)
  (Hengine : personality_engine self = None) :
  let '(out, self', calls) :=
    process_incoming_message message platform now_safety now_log self in
  exists reply,
    out = inr reply
    /\ response reply = Some placeholder
    /\ Forall (fun call => call <> CallEncode /\ call <> CallChatCompletion) calls
    /\ (safety_monitor self = None -> override_required self = false ->
        action reply = "sent"
        /\ calls = [CallGenerateResponse; CallSendResponse]
        /\ self' = _log_response message placeholder
                     (IntentClassifier.classify_intent message) platform now_log self).
Proof.
  destruct (process_incoming_message_cases self message platform now_safety now_log)
    as [[Hoff _] | (_ & text & calls & _ & Htext & ->)]; [congruence |].
  rewrite Hengine in Htext. destruct Htext as [-> ->].
  cbv zeta. unfold held_back, checked, check_calls.
  destruct (safety_monitor self) as [monitor |];
    [destruct (SafetyMonitor.safe (SafetyExtra.verdict monitor placeholder message)) |];
    destruct (override_required self);
    (eexists; split; [reflexivity |]; split; [reflexivity |]);
    (split; [repeat constructor; discriminate |]);
    intros Hnone Hfree; try discriminate Hnone; try discriminate Hfree.
  repeat split.
Qed.

(** [generate_test_response] returns a text and leaves the generator as
    it was. *)
Lemma generate_test_response_eq (self : t) (test_input context : string)
  (mood : option string) :
  exists text calls,
    generate_test_response test_input context mood self = (inr text, self, calls)
    /\ Forall capability_call calls
    /\ match personality_engine self with
       | None => text = "Personality engine not available" /\ calls = []
       | Some engine =>
           PersonalityEngine.generate_response test_input context
             (match mood with
              | Some m => if String.eqb m "" then current_mood self else m
              | None => current_mood self
              end) engine
           = (inr text, engine, calls)
       end.
Proof.
  unfold generate_test_response. rewrite MonadFacts.bind_get.
  destruct (personality_engine self) as [engine |] eqn:Hengine.
  - match goal with
    | |- context [PersonalityEngine.generate_response _ _ ?m] =>
        generalize m; intros response_mood
    end.
    destruct (EngineExtra.generate_response_reads test_input context response_mood)
      as (Hro & Hcalls & Hnr).
    specialize (Hro engine). specialize (Hcalls engine).
    destruct (Hnr engine) as [text Htext].
    unfold bind, zoom, ret.
    destruct (PersonalityEngine.generate_response test_input context response_mood
                engine) as [[r engine'] calls].
    simpl in Hro, Hcalls, Htext. subst r engine'.
    exists text, calls.
    rewrite (set_personality_engine_same engine self Hengine), app_nil_r.
    repeat split; [exact Hcalls].
  - eexists _, []. repeat split. constructor.
Qed.

(** X21: [generate_test_response] is a dry run.  It never raises, leaves
    the generator (settings, history, monitor) as it was, and calls
    nothing but the engine's capabilities: no safety check, no
    [_send_response].  Without an engine it returns "Personality engine
    not available".  An empty mood is treated as a missing one: both use
    the generator's current mood. *)
Theorem generate_test_response_is_a_dry_run (self : t)
  (test_input context : string) (mood : option string) :
  (exists text calls,
     generate_test_response test_input context mood self = (inr text, self, calls)
     /\ Forall capability_call calls
     /\ (personality_engine self = None ->
         text = "Personality engine not available" /\ calls = []))
  /\ generate_test_response test_input context (Some "") self
     = generate_test_response test_input context None self
  /\ generate_test_response test_input context None self
     = generate_test_response test_input context (Some (current_mood self)) self.
Proof.
  split.
  - destruct (generate_test_response_eq self test_input context mood)
      as (text & calls & Heq & Hcalls & Hengine).
    exists text, calls. split; [exact Heq |]. split; [exact Hcalls |].
    intros Hnone. rewrite Hnone in Hengine. exact Hengine.
  - split; [reflexivity |].
    unfold generate_test_response. rewrite !MonadFacts.bind_get.
    destruct (personality_engine self); [| reflexivity].
    destruct (String.eqb (current_mood self) ""); reflexivity.
Qed.

End Pipeline.

Definition example_message : Message := <[ "content" := "are you free tonight?" ]> ∅.

Definition example_generator : @ResponseGenerator.t Instances.services_up :=
  enable_auto_reply true (set_safety_monitor SafetyMonitor.init ResponseGenerator.init).

Lemma unsafe_response_is_held_back_witness :
  let '(out, self', calls) :=
    @process_incoming_message Instances.services_up Instances.numpy_stable
      Instances.literal_regex example_message "discord" "t1" "t2" example_generator in
  exists reply text,
    out = inr reply
    /\ response reply = Some text
    /\ safety_monitor self'
       = Some (SafetyMonitor._log_safety_event SafetyMonitor.init text example_message
                 (@SafetyExtra.verdict Instances.literal_regex SafetyMonitor.init text example_message) "t1")
    /\ (SafetyMonitor.safe (@SafetyExtra.verdict Instances.literal_regex SafetyMonitor.init text example_message)
        = false ->
        action reply = "manual_review"
        /\ reason reply
           = Some ("Safety concern: "
                   +:+ SafetyMonitor.reason
                         (@SafetyExtra.verdict Instances.literal_regex SafetyMonitor.init text example_message))
        /\ ~ In CallSendResponse calls
        /\ response_history self' = response_history example_generator).
Proof.
  apply (@unsafe_response_is_held_back Instances.services_up Instances.numpy_stable
           Instances.literal_regex example_generator SafetyMonitor.init
           example_message "discord" "t1" "t2"); reflexivity.
Defined.

Lemma override_holds_every_response_witness :
  let self := require_override true example_generator in
  let '(out, self', calls) :=
    @process_incoming_message Instances.services_up Instances.numpy_stable
      Instances.literal_regex example_message "discord" "t1" "t2" self in
  exists reply,
    out = inr reply
    /\ (action reply = "manual_review" \/ action reply = "manual_approval")
    /\ ~ In CallSendResponse calls
    /\ response_history self' = response_history self
    /\ override_required self' = true.
Proof.
  apply (@override_holds_every_response Instances.services_up Instances.numpy_stable
           Instances.literal_regex (require_override true example_generator)
           example_message "discord" "t1" "t2"); reflexivity.
Defined.

Lemma no_engine_sends_placeholder_witness :
  let self := enable_auto_reply true (@ResponseGenerator.init Instances.services_up) in
  let '(out, self', calls) :=
    @process_incoming_message Instances.services_up Instances.numpy_stable
      Instances.literal_regex example_message "discord" "t1" "t2" self in
  exists reply,
    out = inr reply
    /\ response reply = Some placeholder
    /\ Forall (fun call => call <> CallEncode /\ call <> CallChatCompletion) calls
    /\ (safety_monitor self = None -> override_required self = false ->
        action reply = "sent"
        /\ calls = [CallGenerateResponse; CallSendResponse]
        /\ self' = _log_response example_message placeholder
                     (@IntentClassifier.classify_intent Instances.literal_regex
                        example_message)
                     "discord" "t2" self).
Proof.
  apply (@no_engine_sends_placeholder Instances.services_up Instances.numpy_stable
           Instances.literal_regex
           (enable_auto_reply true (@ResponseGenerator.init Instances.services_up))
           example_message "discord" "t1" "t2"); reflexivity.
Defined.

End PipelineExtra.

(** ** What every generator keeps *)

Module GeneratorExtra.
Import Py PyStr Np ResponseGenerator PipelineExtra.

Section Calls.
Context `{PersonalityEngine.External} `{Numpy} `{Regex}.

(** The calls on a generator.  The engine and the monitor are objects
    that the caller holds too: a change made to them from outside is a
    [SetPersonalityEngine] or [SetSafetyMonitor] with the changed
    object. *)
Inductive call :=
| SetPersonalityEngine (engine : PersonalityEngine.t)
| SetSafetyMonitor (monitor : SafetyMonitor.t)
| EnableAutoReply (enabled : bool)
| RequireOverride (required : bool)
| SetMood (mood : string)
| ClearHistory
| ProcessIncomingMessage (message : Message) (platform now_safety now_log : string)
| GenerateTestResponse (test_input context : string) (mood : option string).

(** The generator after a call. *)
Definition step (self : t) (c : call) : t :=
  match c with
  | SetPersonalityEngine engine => set_personality_engine engine self
  | SetSafetyMonitor monitor => set_safety_monitor monitor self
  | EnableAutoReply enabled => enable_auto_reply enabled self
  | RequireOverride required => require_override required self
  | SetMood mood => set_mood mood self
  | ClearHistory => clear_history self
  | ProcessIncomingMessage message platform now_safety now_log =>
      (process_incoming_message message platform now_safety now_log self).1.2
  | GenerateTestResponse test_input context mood =>
      (generate_test_response test_input context mood self).1.2
  end.

Definition run (calls : list call) : t := foldl step init calls.

Definition valid_moods : list string :=
  ["default"; "energetic"; "savage"; "unhinged"; "professional"; "casual"].

(** What the calls keep true. *)
Definition well_kept (self : t) : Prop :=
  In (current_mood self) valid_moods
  /\ (length (response_history self) <= 1000)%nat
  /\ Forall (fun entry => log_auto_reply entry = true
                          /\ In (log_mood entry) valid_moods)
       (response_history self).

Lemma set_mood_valid (mood : string) (self : t) :
  In (current_mood (set_mood mood self)) valid_moods.
Proof.
  unfold set_mood. cbn [current_mood].
  destruct (list_in mood _) eqn:Hin; [| left; reflexivity].
  unfold list_in in Hin. apply existsb_exists in Hin as (m & Hm & Heq).
  apply String.eqb_eq in Heq. subst m. exact Hm.
Qed.

Lemma logged_kept (history : list LogEntry) (entry : LogEntry) (P : LogEntry -> Prop) :
  Forall P history -> P entry ->
  (length (logged history entry) <= 1000)%nat /\ Forall P (logged history entry).
Proof.
  intros Hhistory Hentry.
  change (logged history entry) with (BoundedLog.append_bounded 1000 history entry).
  rewrite BoundedLog.append_bounded_last_n. split.
  - rewrite BoundedLog.last_n_length. lia.
  - unfold last_n. apply Forall_drop, Forall_app. split; [exact Hhistory |].
    constructor; [exact Hentry | constructor].
Qed.

Lemma well_kept_step (self : t) (c : call) : well_kept self -> well_kept (step self c).
Proof.
  intros (Hmood & Hlen & Hentries).
  destruct c as [engine | monitor | enabled | required | mood |
                 | msg platform now_safety now_log | test_input context mood];
    cbn [step];
    try (split; [exact Hmood | split; [exact Hlen | exact Hentries]]).
  - split; [apply set_mood_valid | split; [exact Hlen | exact Hentries]].
  - split; [exact Hmood | split; [simpl; lia | constructor]].
  - destruct (process_incoming_message_cases self msg platform now_safety now_log)
      as [[Hoff ->] | (Hon & text & calls & _ & _ & ->)];
      [split; [exact Hmood | split; [exact Hlen | exact Hentries]] |].
    cbv zeta.
    destruct (checked_settings self text msg now_safety)
      as (_ & Ha & _ & Hm & Hh).
    assert (Hchecked : well_kept (checked self text msg now_safety)).
    { unfold well_kept. rewrite Hm, Hh. auto. }
    destruct (held_back self text msg);
      [| destruct (override_required self)]; cbn [fst snd]; try exact Hchecked.
    unfold well_kept, _log_response.
    cbn [current_mood response_history set_response_history].
    rewrite Hm, Hh, Ha, Hon. split; [exact Hmood |].
    apply (logged_kept (response_history self)); [exact Hentries |].
    split; [reflexivity | exact Hmood].
  - destruct (generate_test_response_eq self test_input context mood)
      as (text & calls & -> & _). cbn [fst snd].
    split; [exact Hmood | split; [exact Hlen | exact Hentries]].
Qed.

Lemma well_kept_run (calls : list call) : well_kept (run calls).
Proof.
  unfold run.
  assert (Hinit : well_kept init).
  { split; [left; reflexivity | split; [simpl; lia | constructor]]. }
  revert Hinit. generalize init. induction calls as [| c calls IH]; intros self Hself.
  - exact Hself.
  - simpl. apply IH, well_kept_step, Hself.
Qed.

Lemma filter_keeps_all {A} (f : A -> bool) (l : list A) :
  Forall (fun x => f x = true) l -> List.filter f l = l.
Proof.
  induction 1 as [| x l Hx _ IH]; simpl; [reflexivity |].
  rewrite Hx, IH. reflexivity.
Qed.

(** X22: what a generator keeps through any series of calls.  Starting
    from [__init__], after any calls of the setters, [enable_auto_reply],
    [require_override], [set_mood], [clear_history],
    [process_incoming_message] and [generate_test_response]: the current
    mood is one of the six valid moods, the history has at most 1000
    entries, every entry was written with [auto_reply = True] and a valid
    mood, and so [get_response_stats] reports either no responses or an
    [auto_reply_rate] of exactly 1. *)
Theorem generator_keeps_history_well (calls : list call) :
  let self := run calls in
  In (current_mood self) valid_moods
  /\ (length (response_history self) <= 1000)%nat
  /\ Forall (fun entry => log_auto_reply entry = true
                          /\ In (log_mood entry) valid_moods)
       (response_history self)
  /\ match get_response_stats self with
     | None => response_history self = []
     | Some stats =>
         (auto_reply_rate stats == 1)%Q
         /\ (0 < total_responses stats <= 1000)%nat
     end.
Proof.
  cbv zeta. destruct (well_kept_run calls) as (Hmood & Hlen & Hentries).
  split; [exact Hmood |]. split; [exact Hlen |]. split; [exact Hentries |].
  unfold get_response_stats.
  destruct (response_history (run calls)) as [| entry history] eqn:Hhistory;
    [reflexivity |].
  cbn [auto_reply_rate total_responses]. split; [| simpl in *; lia].
  rewrite filter_keeps_all.
  - apply Qmult_inv_r. simpl. unfold Qeq. simpl. lia.
  - eapply Forall_impl; [exact Hentries |]. intros e [He _]. exact He.
Qed.

End Calls.

End GeneratorExtra.

(** ** The platform manager *)

Module PlatformExtra.
Import Py PlatformManager.

Lemma dict_has_In (k : string) (d : list (string * pyval)) :
  dict_has k d = true <-> In k (map fst d).
Proof.
  unfold dict_has. rewrite existsb_exists. split.
  - intros ([k' v] & Hin & Heq). apply String.eqb_eq in Heq. simpl in Heq. subst k'.
    apply (in_map fst) in Hin. exact Hin.
  - intros Hin. apply in_map_iff in Hin as ([k' v] & <- & Hin).
    exists (k', v). split; [exact Hin | apply String.eqb_refl].
Qed.

Lemma dict_has_set (k k' : string) (v : pyval) (d : list (string * pyval)) :
  dict_has k (dict_set k' v d) = (String.eqb k k' || dict_has k d).
Proof.
  unfold dict_has. induction d as [| [k0 v0] d IH]; simpl.
  - rewrite orb_false_r. reflexivity.
  - destruct (String.eqb_spec k' k0) as [-> | Hne]; simpl.
    + destruct (String.eqb k k0); reflexivity.
    + rewrite IH.
      destruct (String.eqb k k'), (String.eqb k k0); reflexivity.
Qed.

Lemma keys_set (k : string) (v : pyval) (d : list (string * pyval)) :
  NoDup (map fst d) -> NoDup (map fst (dict_set k v d)).
Proof.
  induction d as [| [k0 v0] d IH]; simpl; intros Hkeys.
  - repeat constructor. intros Hin. inversion Hin.
  - apply NoDup_cons in Hkeys as [Hk0 Hkeys].
    destruct (String.eqb_spec k k0) as [-> | Hne]; simpl.
    + apply NoDup_cons. split; assumption.
    + apply NoDup_cons. split; [| apply IH, Hkeys].
      intros Hin. apply list_elem_of_In, dict_has_In in Hin.
      rewrite dict_has_set in Hin. apply orb_prop in Hin as [Heq | Hin].
      * apply String.eqb_eq in Heq. congruence.
      * apply Hk0, list_elem_of_In, dict_has_In, Hin.
Qed.

Lemma dict_del_keys (k k' : string) (d : list (string * pyval)) :
  In k (map fst (dict_del k' d)) -> In k (map fst d).
Proof.
  induction d as [| [k0 v0] d IH]; simpl; [tauto |].
  destruct (String.eqb k' k0); simpl; [tauto |].
  intros [Heq | Hin]; [left; exact Heq | right; apply IH, Hin].
Qed.

Lemma keys_del (k : string) (d : list (string * pyval)) :
  NoDup (map fst d) -> NoDup (map fst (dict_del k d)).
Proof.
  induction d as [| [k0 v0] d IH]; simpl; intros Hkeys; [constructor |].
  apply NoDup_cons in Hkeys as [Hk0 Hkeys].
  destruct (String.eqb k k0); simpl; [exact Hkeys |].
  apply NoDup_cons. split; [| apply IH, Hkeys].
  intros Hin. apply Hk0, list_elem_of_In, (dict_del_keys _ k), list_elem_of_In, Hin.
Qed.

(** On a dictionary, where no key comes twice, [del d[k']] takes [k']
    away and nothing else. *)
Lemma dict_has_del (k k' : string) (d : list (string * pyval)) :
  NoDup (map fst d) ->
  dict_has k (dict_del k' d) = (negb (String.eqb k k') && dict_has k d).
Proof.
  induction d as [| [k0 v0] d IH]; simpl; intros Hkeys.
  - rewrite andb_false_r. reflexivity.
  - apply NoDup_cons in Hkeys as [Hk0 Hkeys].
    destruct (String.eqb_spec k' k0) as [-> | Hne]; simpl.
    + destruct (String.eqb_spec k k0) as [-> | Hk]; simpl; [| reflexivity].
      destruct (dict_has k0 d) eqn:Hhas; [| reflexivity].
      exfalso. apply Hk0, list_elem_of_In, dict_has_In, Hhas.
    + change (existsb (fun kv : string * pyval => String.eqb k kv.1) (dict_del k' d))
        with (dict_has k (dict_del k' d)).
      rewrite (IH Hkeys). unfold dict_has.
      destruct (String.eqb_spec k k') as [-> | Hk]; simpl; [| reflexivity].
      destruct (String.eqb_spec k' k0); [contradiction | reflexivity].
Qed.

(** Whether the calls leave [platform] connected: what the last call
    that names it did. *)
Definition connected_after (platform : string) (calls : list call) : bool :=
  foldl (fun connected c =>
           match c with
           | Connect p _ _ => if String.eqb platform p then true else connected
           | Disconnect p => if String.eqb platform p then false else connected
           end)
        false calls.

Lemma step_keys (self : t) (c : call) :
  NoDup (map fst (connected_platforms self)) ->
  NoDup (map fst (connected_platforms (step self c))).
Proof.
  intros Hkeys. destruct c as [p config now | p]; simpl.
  - apply keys_set, Hkeys.
  - unfold disconnect_platform.
    destruct (dict_has p (connected_platforms self)); simpl;
      [apply keys_del, Hkeys | exact Hkeys].
Qed.

Lemma run_from (calls : list call) (self : t) (platform : string) :
  NoDup (map fst (connected_platforms self)) ->
  NoDup (map fst (connected_platforms (foldl step self calls)))
  /\ dict_has platform (connected_platforms (foldl step self calls))
     = foldl (fun connected c =>
                match c with
                | Connect p _ _ => if String.eqb platform p then true else connected
                | Disconnect p => if String.eqb platform p then false else connected
                end)
             (dict_has platform (connected_platforms self)) calls.
Proof.
  revert self. induction calls as [| c calls IH]; intros self Hkeys; simpl.
  - split; [exact Hkeys | reflexivity].
  - destruct (IH (step self c) (step_keys self c Hkeys)) as [Hnodup Hhas].
    split; [exact Hnodup |]. rewrite Hhas. f_equal.
    destruct c as [p config now | p]; simpl.
    + rewrite dict_has_set. destruct (String.eqb platform p); reflexivity.
    + unfold disconnect_platform.
      destruct (dict_has p (connected_platforms self)) eqn:Hp; simpl.
      * rewrite (dict_has_del _ _ _ Hkeys).
        destruct (String.eqb platform p); reflexivity.
      * destruct (String.eqb_spec platform p) as [-> | Hne]; [exact Hp | reflexivity].
Qed.

(** X23: a platform is connected exactly when the last call that named
    it was [connect_platform].  After any series of [connect_platform]
    and [disconnect_platform] calls on a fresh manager, [send_message] on a
    platform answers [True] exactly in that case, and so does
    [disconnect_platform]; [get_connected_platforms] lists exactly those
    platforms, each once. *)
Theorem connected_iff_last_call_connects (calls : list call)
  (platform message : string) (context : Message) :
  send_message platform message context (run calls) = connected_after platform calls
  /\ (disconnect_platform platform (run calls)).1 = connected_after platform calls
  /\ (In platform (get_connected_platforms (run calls))
      <-> connected_after platform calls = true)
  /\ NoDup (get_connected_platforms (run calls)).
Proof.
  assert (Hinit : NoDup (map fst (connected_platforms init))) by constructor.
  destruct (run_from calls init platform Hinit) as [Hkeys Hhas].
  fold (run calls) in Hkeys, Hhas. simpl in Hhas. fold (connected_after platform calls) in Hhas.
  unfold send_message, get_connected_platforms, disconnect_platform.
  rewrite <- Hhas. split; [reflexivity |]. split; [| split].
  - destruct (dict_has platform (connected_platforms (run calls))); reflexivity.
  - symmetry. apply dict_has_In.
  - exact Hkeys.
Qed.

End PlatformExtra.

(** ** The belief matrix *)

Module BeliefExtra.
Import Py PyStr BeliefMatrix.

(** [self.beliefs[category].get(belief, 0)] *)
Definition count_of (category belief : string) (self : t) : nat :=
  default 0%nat (default ∅ (beliefs self !! category) !! belief).

(** The word lists of [_extract_beliefs_from_text], with the counter
    that each one feeds. *)
Definition belief_rules : list (string * string * list string) :=
  [ ("politics", "liberal", ["liberal"; "progressive"; "left"]);
    ("politics", "conservative", ["conservative"; "republican"; "right"]);
    ("social", "equality", ["equality"; "justice"; "rights"]);
    ("social", "traditional", ["tradition"; "family"; "values"]);
    ("economics", "capitalist", ["capitalism"; "free market"; "business"]);
    ("economics", "socialist", ["socialism"; "welfare"; "government"]) ].

(** [any(word in text.lower() for word in words)] *)
Definition mentions (words : list string) (text : string) : bool :=
  existsb (fun word => contains word (lower text)) words.

Lemma count_of_bump (category belief c b : string) (self : t) :
  count_of category belief (bump c b self)
  = (count_of category belief self
     + if String.eqb category c && String.eqb belief b then 1 else 0)%nat.
Proof.
  unfold count_of, bump. cbn [beliefs].
  destruct (String.eqb_spec category c) as [-> | Hc]; cbn [andb].
  - rewrite lookup_insert_eq. cbn [default from_option]. unfold id.
    destruct (String.eqb_spec belief b) as [-> | Hb].
    + rewrite lookup_insert_eq. reflexivity.
    + rewrite lookup_insert_ne by congruence. lia.
  - rewrite lookup_insert_ne by congruence. lia.
Qed.

Lemma count_of_bump_if_any (category belief c b : string) (words : list string)
  (text_lower : string) (self : t) :
  count_of category belief (bump_if_any words text_lower c b self)
  = (count_of category belief self
     + if String.eqb category c && String.eqb belief b
          && existsb (fun word => contains word text_lower) words
       then 1 else 0)%nat.
Proof.
  unfold bump_if_any.
  destruct (existsb (fun word => contains word text_lower) words).
  - rewrite count_of_bump, andb_true_r. reflexivity.
  - rewrite andb_false_r. lia.
Qed.

(** What one rule adds to a counter for one text. *)
Definition vote (category belief text : string) (rule : string * string * list string)
  : nat :=
  let '(c, b, words) := rule in
  if String.eqb category c && String.eqb belief b && mentions words text then 1 else 0.

Definition votes (category belief text : string) : nat :=
  foldr (fun rule n => (vote category belief text rule + n)%nat) 0%nat belief_rules.

Lemma _extract_beliefs_from_text_counts (category belief text : string) (self : t) :
  count_of category belief (_extract_beliefs_from_text self text)
  = (count_of category belief self + votes category belief text)%nat
  /\ values (_extract_beliefs_from_text self text) = values self.
Proof.
  split.
  - unfold _extract_beliefs_from_text. cbv zeta.
    rewrite !count_of_bump_if_any.
    unfold votes, belief_rules, vote, mentions. cbn [foldr]. lia.
  - unfold _extract_beliefs_from_text, bump_if_any, bump. cbv zeta.
    repeat match goal with
           | |- context [if ?c then _ else _] => destruct c; cbn [values]
           end; reflexivity.
Qed.

Lemma build_from_data_counts (category belief : string) (contents : list string)
  (self : t) :
  count_of category belief (build_from_data self contents)
  = (count_of category belief self
     + foldr plus 0%nat
         (map (votes category belief)
            (List.filter (fun text => negb (String.eqb text "")) contents)))%nat
  /\ values (build_from_data self contents) = values self.
Proof.
  unfold build_from_data. revert self.
  induction contents as [| text contents IH]; intros self; simpl.
  - split; [lia | reflexivity].
  - destruct (String.eqb text "") eqn:Hempty; cbn [negb].
    + apply IH.
    + destruct (IH (_extract_beliefs_from_text self text)) as [Hcount Hvalues].
      destruct (_extract_beliefs_from_text_counts category belief text self)
        as [Hone Hv].
      rewrite Hcount, Hone, Hvalues, Hv. simpl. split; [lia | reflexivity].
Qed.

(** X24: the belief counters add up over everything the matrix was ever
    built from.  For each of the six word lists, [build_from_data] raises
    the counter of that list by the number of non-empty texts that contain
    one of its words (as a substring of the lowered text); the counters are
    not reset between builds, so building again from the same data counts
    it again.  A counter outside the six is left as it was, and [values] is
    never written. *)
Theorem beliefs_accumulate (category belief : string) (words : list string)
  (contents : list string) (self : t)
  (Hrule : In (category, belief, words) belief_rules) :
  count_of category belief (build_from_data self contents)
  = (count_of category belief self
     + length (List.filter
                 (fun text => negb (String.eqb text "") && mentions words text)
                 contents))%nat
  /\ (forall c b, (forall ws, ~ In (c, b, ws) belief_rules) ->
      count_of c b (build_from_data self contents) = count_of c b self)
  /\ values (build_from_data self contents) = values self.
Proof.
  split; [| split].
  - destruct (build_from_data_counts category belief contents self) as [-> _].
    f_equal. clear self.
    assert (Hvotes : forall text,
              votes category belief text = if mentions words text then 1%nat else 0%nat).
    { intros text. unfold votes, vote.
      simpl in Hrule.
      repeat (destruct Hrule as [[= <- <- <-] | Hrule];
              [unfold belief_rules; cbn [foldr];
               repeat match goal with
                      | |- context [String.eqb ?x ?y] =>
                          let v := eval vm_compute in (String.eqb x y) in
                          change (String.eqb x y) with v
                      end;
               cbn [andb];
               match goal with
               | |- context [mentions ?ws text] => destruct (mentions ws text)
               end; reflexivity |]).
      contradiction. }
    induction contents as [| text contents IH]; simpl; [reflexivity |].
    destruct (String.eqb text ""); cbn [negb andb]; [exact IH |].
    simpl. rewrite Hvotes, IH. destruct (mentions words text); reflexivity.
  - intros c b Hout.
    destruct (build_from_data_counts c b contents self) as [-> _].
    assert (Hvotes : forall text, votes c b text = 0%nat).
    { intros text. unfold votes.
      assert (Hall : forall rule, In rule belief_rules -> vote c b text rule = 0%nat).
      { intros [[c' b'] ws] Hin. unfold vote.
        destruct (String.eqb_spec c c') as [-> | Hc]; [| reflexivity].
        destruct (String.eqb_spec b b') as [-> | Hb]; [| reflexivity].
        destruct (Hout ws Hin). }
      revert Hall. generalize belief_rules. intros rules Hall.
      induction rules as [| rule rules IH]; [reflexivity |].
      cbn [foldr]. rewrite (Hall rule) by (left; reflexivity).
      apply IH. intros r Hr. apply Hall. right. exact Hr. }
    induction (List.filter _ contents) as [| text rest IH]; simpl; [lia |].
    rewrite Hvotes. simpl in IH. lia.
  - apply build_from_data_counts; exact "".
Qed.

Lemma beliefs_accumulate_witness :
  count_of "social" "equality"
    (build_from_data init ["Equal rights for all"; ""; "see you at nine"])
  = (count_of "social" "equality" init
     + length (List.filter
                 (fun text => negb (String.eqb text "")
                              && mentions ["equality"; "justice"; "rights"] text)
                 ["Equal rights for all"; ""; "see you at nine"]))%nat.
Proof.
  apply (beliefs_accumulate "social" "equality" ["equality"; "justice"; "rights"]
           ["Equal rights for all"; ""; "see you at nine"] init).
  simpl. tauto.
Defined.

End BeliefExtra.

(** ** The order of the results of [find_similar] *)

Module RankingExtra.
Import Py Np StyleEmbedding StyleEmbeddingFacts.

(** The order in which [similarities.sort(key=..., reverse=True)] leaves
    two pairs (position, similarity): the larger similarity first, and of
    two equal similarities the earlier position first. *)
Definition ranked_before (p q : nat * Q) : Prop :=
  (q.2 < p.2)%Q \/ ((q.2 == p.2)%Q /\ (p.1 < q.1)%nat).

Lemma ranked_before_trans (p q r : nat * Q) :
  ranked_before p q -> ranked_before q r -> ranked_before p r.
Proof.
  unfold ranked_before. intros [Hpq | [Hpq Hipq]] [Hqr | [Hqr Hiqr]].
  - left. lra.
  - left. lra.
  - left. lra.
  - right. split; [lra | lia].
Qed.

Definition by_similarity (x y : nat * Q) : bool := Qle_bool y.2 x.2.

Lemma insert_ranked_hd (x z : nat * Q) (l : list (nat * Q)) :
  ranked_before z x -> HdRel ranked_before z l ->
  HdRel ranked_before z (insert_by by_similarity x l).
Proof.
  intros Hzx Hhd. destruct l as [| y l]; simpl.
  - constructor. exact Hzx.
  - destruct (by_similarity x y); constructor; [exact Hzx |].
    inversion Hhd; assumption.
Qed.

(** Inserting a pair whose position is before all positions of a ranked
    list leaves the list ranked. *)
Lemma insert_ranked (x : nat * Q) (l : list (nat * Q)) :
  Forall (fun y : nat * Q => (x.1 < y.1)%nat) l ->
  Sorted ranked_before l -> Sorted ranked_before (insert_by by_similarity x l).
Proof.
  induction l as [| y l IH]; intros Hpos Hsorted; simpl.
  - repeat constructor.
  - apply Forall_cons in Hpos as [Hxy Hpos].
    destruct (by_similarity x y) eqn:Hle.
    + constructor; [exact Hsorted |]. constructor.
      unfold by_similarity in Hle. apply Qle_bool_iff in Hle.
      destruct (Qle_lt_or_eq _ _ Hle) as [Hlt | Heq];
        [left; exact Hlt | right; split; [exact Heq | exact Hxy]].
    + inversion Hsorted as [| ? ? Htail Hhd]; subst.
      constructor; [apply IH; assumption |].
      apply insert_ranked_hd; [| exact Hhd].
      left. unfold by_similarity in Hle.
      apply Qnot_le_lt. intros Hyx. apply Qle_bool_iff in Hyx. congruence.
Qed.

(** The sort is stable: pairs that come with ascending positions leave
    it ranked. *)
Lemma sort_desc_ranked (l : list (nat * Q)) :
  StronglySorted lt (map fst l) -> StronglySorted ranked_before (sort_desc snd l).
Proof.
  intros Hpos. apply Sorted.Sorted_StronglySorted.
  { intros p q r. apply ranked_before_trans. }
  change (sort_desc snd l) with (sort_by by_similarity l).
  induction l as [| x l IH]; simpl; [constructor |].
  simpl in Hpos. apply StronglySorted_cons in Hpos as [Hx Hpos].
  apply insert_ranked; [| apply IH, Hpos].
  rewrite (SortFacts.sort_by_perm by_similarity l).
  apply Forall_forall. intros y Hy.
  rewrite Forall_forall in Hx. apply Hx.
  apply list_elem_of_fmap. exists y. split; [reflexivity | exact Hy].
Qed.

Lemma StronglySorted_seq (start len : nat) : StronglySorted lt (seq start len).
Proof.
  revert start. induction len as [| len IH]; intros start; simpl; constructor.
  - apply IH.
  - apply Forall_forall. intros i Hi. apply list_elem_of_In, in_seq in Hi. lia.
Qed.

(** The same order, on results. *)
Definition comes_before (r1 r2 : Similar) : Prop :=
  (similarity r2 < similarity r1)%Q
  \/ ((similarity r2 == similarity r1)%Q /\ (index r1 < index r2)%nat).

(** X25: [find_similar] returns its results best first, and the best
    ones.  On an index built by [add_text] from records of the dimension
    of the query (and of non-zero norm, so that every cosine is a number),
    with [top_k >= 0]: the results are in descending order of similarity,
    two results of equal similarity are in the order of their positions
    (the sort is stable), and a record that is not among the results has a
    similarity no greater than that of any result. *)
Theorem find_similar_ranks_results `{Numpy} (records : list (string * vec))
  (query_embedding : vec) (top_k : Z)
  (Hdim : Forall (fun r : string * vec => length r.2 = length query_embedding) records)
  (Hnorm : Forall (fun r : string * vec =>
                     ~ (np_linalg_norm query_embedding * np_linalg_norm r.2 == 0)%Q)
             records)
  (Hk : (0 <= top_k)%Z) :
  exists results,
    find_similar (build records) query_embedding top_k = inr results
    /\ StronglySorted comes_before results
    /\ (forall i t embedding,
          records !! i = Some (t, embedding) ->
          ~ In i (map index results) ->
          Forall (fun r => (cosine query_embedding embedding <= similarity r)%Q)
            results).
Proof.
  destruct (build_columns records) as [Hembeddings Htexts].
  destruct (decide (records = [])) as [-> | Hne].
  { exists []. simpl. repeat split; [constructor |].
    intros i t e Hlook. rewrite lookup_nil in Hlook. discriminate. }
  rewrite find_similar_nonempty
    by (rewrite Hembeddings; destruct records; [contradiction | discriminate]).
  rewrite Htexts.
  assert (Hsims : similarities (build records) query_embedding =
    inr (map (fun ie : nat * vec => (ie.1, cosine query_embedding ie.2))
           (imap (fun i embedding => (i, embedding)) (map snd records)))).
  { rewrite <- Hembeddings. apply similarities_total. rewrite Hembeddings.
    apply Forall_forall. intros e He. apply list_elem_of_fmap in He as ([t e'] & -> & Hin).
    rewrite Forall_forall in Hdim. apply (Hdim _ Hin). }
  rewrite Hsims. rewrite slice_to_nonneg by exact Hk.
  set (pairs := map (fun ie : nat * vec => (ie.1, cosine query_embedding ie.2))
                  (imap (fun i embedding => (i, embedding)) (map snd records))).
  assert (Hpositions : map fst pairs = seq 0 (length records)).
  { subst pairs. rewrite map_map. simpl.
    change (map (fun x : nat * vec => x.1) ?l) with (fst <$> l).
    rewrite fmap_imap.
    rewrite (imap_ext _ (fun i _ => i)) by reflexivity.
    rewrite imap_seq_0, list_fmap_id, length_map. reflexivity. }
  assert (Hranked : StronglySorted ranked_before (sort_desc snd pairs)).
  { apply sort_desc_ranked. rewrite Hpositions. apply StronglySorted_seq. }
  assert (Hpairs : forall i sim, (i, sim) ∈ pairs <->
            exists t e, records !! i = Some (t, e) /\ sim = cosine query_embedding e).
  { intros i sim. subst pairs. split.
    - intros Hin.
      apply list_elem_of_fmap in Hin as ([j e] & Heq & Hin).
      apply elem_of_lookup_imap in Hin as (j' & e' & Heq' & Hlook).
      injection Heq' as -> ->. simpl in Heq. injection Heq as -> ->.
      rewrite list_lookup_fmap in Hlook.
      destruct (records !! j') as [[t e] |] eqn:Hrec; [| discriminate].
      simpl in Hlook. injection Hlook as ->. exists t, e'. split; reflexivity.
    - intros (t & e & Hrec & ->).
      apply list_elem_of_fmap. exists (i, e). split; [reflexivity |].
      apply elem_of_lookup_imap. exists i, e. split; [reflexivity |].
      rewrite list_lookup_fmap, Hrec. reflexivity. }
  set (sorted := sort_desc snd pairs) in *.
  set (chosen := take (Z.to_nat top_k) sorted).
  assert (Hsplit : sorted = chosen ++ drop (Z.to_nat top_k) sorted).
  { subst chosen. rewrite take_drop. reflexivity. }
  assert (Hchosen : forall i sim, (i, sim) ∈ chosen ->
            exists t e, records !! i = Some (t, e) /\ sim = cosine query_embedding e).
  { intros i sim Hin. apply Hpairs. subst chosen.
    apply subseteq_take in Hin. subst sorted.
    rewrite (SortFacts.sort_desc_perm snd pairs) in Hin. exact Hin. }
  set (result_of := fun p : nat * Q =>
                      {| text := nth p.1 (map fst records) ""%string;
                         similarity := p.2; index := p.1 |}).
  exists (map result_of chosen).
  split; [| split].
  - apply mapM_inr. apply Forall_forall. intros [i sim] Hin.
    destruct (Hchosen i sim Hin) as (t & e & Hrec & _).
    rewrite list_lookup_fmap, Hrec. simpl. subst result_of. simpl.
    erewrite (nth_lookup_Some (map fst records) i ""%string t); [reflexivity |].
    rewrite list_lookup_fmap, Hrec. reflexivity.
  - rewrite Hsplit in Hranked. apply StronglySorted_app_1_l in Hranked as Hfirst.
    clear - Hfirst. induction Hfirst as [| p l Hl IH Hp]; simpl; constructor.
    + exact IH.
    + apply Forall_forall. intros r Hr.
      apply list_elem_of_fmap in Hr as (q & -> & Hq).
      rewrite Forall_forall in Hp. exact (Hp q Hq).
  - intros i t e Hrec Hout.
    assert (Hin : (i, cosine query_embedding e) ∈ sorted).
    { subst sorted. rewrite (SortFacts.sort_desc_perm snd pairs).
      apply Hpairs. exists t, e. split; [exact Hrec | reflexivity]. }
    rewrite Hsplit in Hin, Hranked.
    apply elem_of_app in Hin as [Hin | Hin].
    { exfalso. apply Hout. apply in_map_iff.
      exists (result_of (i, cosine query_embedding e)).
      split; [reflexivity |]. apply in_map, list_elem_of_In, Hin. }
    apply Forall_forall. intros r Hr.
    apply list_elem_of_fmap in Hr as (q & -> & Hq).
    destruct (StronglySorted_app_1_elem_of _ _ _ q (i, cosine query_embedding e)
                Hranked Hq Hin) as [Hlt | [Heq _]];
      simpl in *; lra.
Qed.

Lemma find_similar_ranks_results_witness :
  exists results,
    @find_similar Instances.numpy_stable (build example_records) [3; 4]%Q 2 = inr results
    /\ StronglySorted comes_before results
    /\ (forall i t embedding,
          example_records !! i = Some (t, embedding) ->
          ~ In i (map index results) ->
          Forall (fun r => (@cosine Instances.numpy_stable [3; 4]%Q embedding
                            <= similarity r)%Q)
            results).
Proof.
  apply (@find_similar_ranks_results Instances.numpy_stable example_records).
  - repeat constructor.
  - repeat constructor; intros Heq; vm_compute in Heq; discriminate Heq.
  - lia.
Defined.

End RankingExtra.

(** ** The pipeline on an engine that was only trained *)

Module EndToEndExtra.
Import Py PyStr Np ResponseGenerator PipelineExtra.

(** X26: with the engine that [__init__] and [train_personality] make,
    the pipeline never sends a generated text.  Whatever the training runs
    were, with auto-reply on the text of every reply is the engine's "still
    learning" text (engine not trained) or "Sorry, I'm having trouble
    responding right now." (engine trained), and neither the embedding nor
    the generation capability is called; when no monitor holds the reply
    back and no override is required, that text is what is sent. *)
Theorem pipeline_replies_are_fixed_texts `{PersonalityEngine.External} `{Numpy} `{Regex}
  (runs : list (list PersonalityEngine.Sample)) (self : t) (message : Message)
  (platform now_safety now_log : string)
  (Hon : auto_reply_enabled self = true)
  (Hengine : personality_engine self
             = Some (TrainingExtra.train_all runs PersonalityEngine.init)) :
  let engine := TrainingExtra.train_all runs PersonalityEngine.init in
  let text :=
    if PersonalityEngine.trained engine then PersonalityEngine.trouble_responding
    else PersonalityEngine.still_learning in
  let '(out, self', calls) :=
    process_incoming_message message platform now_safety now_log self in
  exists reply,
    out = inr reply
    /\ response reply = Some text
    /\ Forall (fun call => call <> CallEncode /\ call <> CallChatCompletion) calls
    /\ (held_back self text message = None -> override_required self = false ->
        action reply = "sent" /\ last calls = Some CallSendResponse).
Proof.
  cbv zeta.
  destruct (process_incoming_message_cases self message platform now_safety now_log)
    as [[Hoff _] | (_ & text & calls & _ & Htext & ->)]; [congruence |].
  rewrite Hengine in Htext.
  rewrite (TrainingExtra.generate_response_only_trained
             (TrainingExtra.train_all runs PersonalityEngine.init))
    in Htext
    by apply TrainingExtra.only_trained_all, TrainingExtra.only_trained_init.
  injection Htext as <- <-.
  cbv zeta. cbn [app].
  assert (Hchecks : Forall (fun call => call <> CallEncode /\ call <> CallChatCompletion)
                      (CallGenerateResponse :: check_calls self)).
  { unfold check_calls. destruct (safety_monitor self);
      repeat constructor; discriminate. }
  destruct (held_back self _ message) as [why |];
    [| destruct (override_required self)];
    (eexists; split; [reflexivity |]; split; [reflexivity |]).
  - split; [exact Hchecks |]. intros Hfree. discriminate Hfree.
  - split; [exact Hchecks |]. intros _ Hfree. discriminate Hfree.
  - split.
    + change (CallGenerateResponse :: check_calls self ++ [CallSendResponse])
        with ((CallGenerateResponse :: check_calls self) ++ [CallSendResponse]).
      apply Forall_app. split; [exact Hchecks |].
      repeat constructor; discriminate.
    + intros _ _. split; [reflexivity |].
      change (CallGenerateResponse :: check_calls self ++ [CallSendResponse])
        with ((CallGenerateResponse :: check_calls self) ++ [CallSendResponse]).
      apply last_snoc.
Qed.

Lemma pipeline_replies_are_fixed_texts_witness :
  let self :=
    enable_auto_reply true
      (set_personality_engine
         (@TrainingExtra.train_all Instances.services_up [[]]
            (@PersonalityEngine.init Instances.services_up))
         (@ResponseGenerator.init Instances.services_up)) in
  let engine :=
    @TrainingExtra.train_all Instances.services_up [[]]
      (@PersonalityEngine.init Instances.services_up) in
  let text :=
    if PersonalityEngine.trained engine then PersonalityEngine.trouble_responding
    else PersonalityEngine.still_learning in
  let '(out, self', calls) :=
    @process_incoming_message Instances.services_up Instances.numpy_stable
      Instances.literal_regex example_message "discord" "t1" "t2" self in
  exists reply,
    out = inr reply
    /\ response reply = Some text
    /\ Forall (fun call => call <> CallEncode /\ call <> CallChatCompletion) calls
    /\ (@held_back Instances.services_up Instances.literal_regex self text
          example_message = None ->
        override_required self = false ->
        action reply = "sent" /\ last calls = Some CallSendResponse).
Proof.
  apply (@pipeline_replies_are_fixed_texts Instances.services_up Instances.numpy_stable
           Instances.literal_regex [[]]
           (enable_auto_reply true
              (set_personality_engine
                 (@TrainingExtra.train_all Instances.services_up [[]]
                    (@PersonalityEngine.init Instances.services_up))
                 (@ResponseGenerator.init Instances.services_up)))
           example_message "discord" "t1" "t2"); reflexivity.
Defined.

End EndToEndExtra.

(** ** The relationship check *)

Module RiskExtra.
Import Py PyStr SafetyMonitor.

(** The relationship check on a response with more than three
    exclamation marks. *)
Lemma _check_relationship_risks_exclamations `{Regex} (response : string)
  (message : Message) :
  (3 < count "!" response)%nat ->
  ck_safe (_check_relationship_risks response message) = false
  /\ (ck_reason (_check_relationship_risks response message)
      = "Aggressive tone detected"
      \/ exists phrase,
           In phrase risk_phrases
           /\ contains phrase (lower response) = true
           /\ ck_reason (_check_relationship_risks response message)
              = "Contains relationship risk phrase: " +:+ phrase).
Proof.
  intros Hmany. unfold _check_relationship_risks. cbv zeta.
  destruct (List.find (fun phrase => contains phrase (lower response)) risk_phrases)
    as [phrase |] eqn:Hfind.
  - split; [reflexivity |]. right. exists phrase.
    apply find_some in Hfind as [Hin Hcontains]. repeat split; assumption.
  - apply Nat.ltb_lt in Hmany. cbn [existsb]. rewrite Hmany.
    split; [reflexivity | left; reflexivity].
Qed.

(** X27: more than three exclamation marks make a response unsafe.
    Whatever the monitor's state and the incoming message (the relationship
    check does not read it), [check_response] judges such a response
    unsafe; "relationship" is the last flag, and the reason, which is that
    of the last failing check, is "Relationship risk: " followed by
    "Aggressive tone detected" or by the risk phrase found in the
    response. *)
Theorem many_exclamations_are_vetoed `{Regex} (self : t) (response : string)
  (message : Message) (now : string)
  (Hmany : (3 < count "!" response)%nat) :
  exists v,
    (check_response response message now self).1.1 = inr v
    /\ safe v = false
    /\ last (flags v) = Some "relationship"
    /\ (reason v = "Relationship risk: Aggressive tone detected"
        \/ exists phrase,
             In phrase risk_phrases
             /\ contains phrase (lower response) = true
             /\ reason v
                = "Relationship risk: Contains relationship risk phrase: " +:+ phrase)
    /\ forall other : Message,
         _check_relationship_risks response other
         = _check_relationship_risks response message.
Proof.
  rewrite SafetyExtra.check_response_eq. cbn [fst snd].
  exists (SafetyExtra.verdict self response message).
  split; [reflexivity |].
  destruct (_check_relationship_risks_exclamations response message Hmany)
    as [Hunsafe Hreason].
  unfold SafetyExtra.verdict. rewrite Hunsafe. cbn [negb].
  unfold fail_with at 1. cbn [safe flags reason].
  split; [reflexivity |]. split; [apply last_snoc |]. split; [| reflexivity].
  destruct Hreason as [-> | (phrase & Hin & Hcontains & ->)].
  - left. reflexivity.
  - right. exists phrase. repeat split; assumption.
Qed.

Lemma many_exclamations_are_vetoed_witness :
  exists v,
    (@check_response Instances.literal_regex "No way!!!! Really?" ∅ "t" init).1.1 = inr v
    /\ safe v = false
    /\ last (flags v) = Some "relationship".
Proof.
  destruct (@many_exclamations_are_vetoed Instances.literal_regex init
              "No way!!!! Really?" ∅ "t") as (v & Hv & Hsafe & Hflag & _).
  - vm_compute. lia.
  - exists v. repeat split; assumption.
Defined.

End RiskExtra.
